(** * The job-board scraping pipeline: [ScraperService] and [AnalysisEngine]

    A shallow embedding of [src/scraper_service.py], of
    [AnalysisEngine.parse_job_description_with_ai] from
    [src/analysis_engine.py], and of the route [run_bulk_crawl] of
    [src/app.py] that drives them.

    The Python code talks to the outside world (environment variables, the
    Jina reader over HTTP, the chat model, [time.sleep], [print]) and uses
    exceptions for control flow.  The embedding keeps both: every function
    lives in a small monad that threads an abstract world, collects the
    events the call emits and may raise a Python exception.  The world and
    its oracles are a type class, so every theorem holds for every behaviour
    of the external services; closed examples instantiate it with scripted
    services.

    Python [str] is modelled by [string], a character standing for a code
    point below 256 (ASCII and Latin-1): lengths count characters, and the
    case mapping and the white-space class are the ones Python has on these
    code points.  A Python [float] is a rational, an infinity or NaN.
    Exceptions are the instances of [Exception], which is what the handlers
    of the source catch.  [json.loads] is a parameter of the development. *)

From Stdlib Require Import ZArith QArith String Ascii List Sorted Lia.
From stdpp Require Import gmap strings list.

Set Warnings "-register-all".
Local Open Scope Z_scope.

(** ** Python strings *)

Module PyStr.

(** [c.lower()] on one character: the letters A..Z and, past ASCII, the
    capital letters U+00C0..U+00DE, which leaves out the multiplication sign
    U+00D7 in their middle. *)
Definition lower_char (c : ascii) : ascii :=
  let n := nat_of_ascii c in
  if (((65 <=? n)%nat && (n <=? 90)%nat)
      || ((192 <=? n)%nat && (n <=? 222)%nat && negb (n =? 215)%nat))%bool
  then ascii_of_nat (n + 32) else c.

(** [s.lower()] *)
Fixpoint lower (s : string) : string :=
  match s with
  | EmptyString => EmptyString
  | String c r => String (lower_char c) (lower r)
  end.

(** [s[:n]] *)
Fixpoint take (n : nat) (s : string) : string :=
  match n, s with
  | O, _ => EmptyString
  | _, EmptyString => EmptyString
  | S k, String c r => String c (take k r)
  end.

(** [s.startswith(p)], returning what follows the prefix. *)
Fixpoint drop_prefix (p s : string) : option string :=
  match p, s with
  | EmptyString, _ => Some s
  | String a p', String b s' =>
      if Ascii.eqb a b then drop_prefix p' s' else None
  | String _ _, EmptyString => None
  end.

Definition starts_with (p s : string) : bool :=
  match drop_prefix p s with Some _ => true | None => false end.

(** [needle in hay] *)
Fixpoint contains (needle hay : string) : bool :=
  if starts_with needle hay then true
  else match hay with
       | EmptyString => false
       | String _ r => contains needle r
       end.

(** The characters [str.isspace] accepts, which is also what [str.strip]
    removes and what [\s] matches in a [str] pattern: TAB..CR, FS..US, the
    blank, the next-line control U+0085 and the no-break space U+00A0. *)
Definition is_space (c : ascii) : bool :=
  let n := nat_of_ascii c in
  (((9 <=? n)%nat && (n <=? 13)%nat) || ((28 <=? n)%nat && (n <=? 32)%nat)
   || (n =? 133)%nat || (n =? 160)%nat)%bool.

Fixpoint lstrip_by (p : ascii -> bool) (s : string) : string :=
  match s with
  | EmptyString => EmptyString
  | String c r => if p c then lstrip_by p r else s
  end.

Fixpoint rstrip_by (p : ascii -> bool) (s : string) : string :=
  match s with
  | EmptyString => EmptyString
  | String c r =>
      match rstrip_by p r with
      | EmptyString => if p c then EmptyString else String c EmptyString
      | r' => String c r'
      end
  end.

Definition strip_by (p : ascii -> bool) (s : string) : string :=
  rstrip_by p (lstrip_by p s).

(** [s.strip()] *)
Definition strip (s : string) : string := strip_by is_space s.

(** [s.strip(c)] for a one-character argument. *)
Definition strip_char (c : ascii) (s : string) : string :=
  strip_by (Ascii.eqb c) s.

(** Python truthiness of a [str]. *)
Definition nonempty (s : string) : bool :=
  match s with EmptyString => false | String _ _ => true end.

(** Truthiness of a value that is [None] or a [str]. *)
Definition truthy (o : option string) : bool :=
  match o with Some s => nonempty s | None => false end.

(** The double quote and the newline, for literals that contain them. *)
Definition dq : string := String (ascii_of_nat 34) EmptyString.
Definition nl : string := String (ascii_of_nat 10) EmptyString.

End PyStr.

(** ** Python values, exceptions and the effect monad *)

(** A [float]: a finite value, or one of the three values [json.loads]
    gives for the literals [Infinity], [-Infinity] and [NaN]. *)
Inductive pyfloat : Type :=
  | FNum (q : Q)
  | FInf (negative : bool)
  | FNaN.

(** The values [json.loads] can produce, which are also the values the
    callers may pass where the code expects a [str]. *)
Inductive pyval : Type :=
  | PNone
  | PBool (b : bool)
  | PInt (z : Z)
  | PFloat (f : pyfloat)
  | PStr (s : string)
  | PList (l : list pyval)
  | PDict (d : gmap string pyval).

(** The exception classes the handlers tell apart.  All of them derive from
    [Exception]; [JSONDecodeError] derives from [ValueError]. *)
Inductive exn : Type :=
  | KeyError
  | ValueError
  | JSONDecodeError
  | AttributeError
  | TypeError
  | OtherError (name : string).

Inductive exn_class : Type :=
  | ClsKeyError | ClsValueError | ClsJSONDecodeError | ClsAttributeError
  | ClsException.

(** [isinstance(e, cls)] *)
Definition isinstance (e : exn) (cls : exn_class) : bool :=
  match cls, e with
  | ClsException, _ => true
  | ClsKeyError, KeyError => true
  | ClsValueError, (ValueError | JSONDecodeError) => true
  | ClsJSONDecodeError, JSONDecodeError => true
  | ClsAttributeError, AttributeError => true
  | _, _ => false
  end.

Inductive outcome (A : Type) : Type :=
  | Ret (a : A)
  | Raise (e : exn).
Arguments Ret {A} a.
Arguments Raise {A} e.

(** What [requests.get] hands back. *)
Record response : Type := mkResponse { status_code : Z; text : string }.

(** One constructor per [print] call of the two source files. *)
Inductive log_line : Type :=
  (* fetch_page_content *)
  | LogRateLimitWait (wait_time retry_no retry_count : Z)
  | LogRateLimitExceeded (retry_count : Z)
  | LogJinaError (status : Z)
  | LogFetchRetry (attempt_no retry_count : Z) (e : exn) (wait_time : Z)
  | LogFetchError (e : exn)
  (* _extract_job_title_from_page *)
  | LogTitleFailed (url : string) (e : exn)
  (* discover_job_links *)
  | LogFiltering (role_keyword : pyval)
  | LogCandidates (n : nat)
  | LogChecking (job_no : nat) (n : nat) (url : string)
  | LogMatched (title : string) (found max_matches : nat)
  | LogStopEarly (max_matches : nat)
  | LogSkipped (title : string) (role_keyword : pyval)
  | LogNoTitle (url : string)
  | LogTip
  | LogFound (n : nat) (role_keyword : pyval)
  | LogDiscoveryError (e : exn)
  (* parse_job_description_with_ai *)
  | LogNoApiKey
  | LogNonDict (parsed : pyval)
  | LogMissingKey (key : string)
  | LogJsonFailed (e : exn)
  | LogContentReceived (content : pyval)
  | LogKeyError (e : exn)
  | LogValueError (e : exn)
  | LogAttributeError (e : exn)
  | LogUnexpected (e : exn).

(** What a call does to the outside world, in the order it does it. *)
Inductive event : Type :=
  | EvGet (url : string) (headers : list (string * string)) (timeout : Z)
  | EvSleep (seconds : Q)
  | EvInvoke (api_key prompt : string)
  | EvPrint (l : log_line).

(** The external services.  [W] is the state of everything outside the
    program; nothing is assumed about how a service answers. *)
Class External (W : Type) : Type := {
  (** [os.getenv(name)] *)
  os_getenv : string -> W -> option string;
  (** [requests.get(url, headers=headers, timeout=timeout)]: a response or a
      transport exception. *)
  requests_get : string -> list (string * string) -> Z -> W -> outcome response * W;
  (** [time.sleep(seconds)] *)
  time_sleep : Q -> W -> W;
  (** [ChatOpenAI(temperature=0, model_name="gpt-3.5-turbo",
      openai_api_key=api_key)] followed by [invoke] on the prompt: the
      [content] of the reply, or the exception either step raised. *)
  llm_invoke : string -> string -> W -> outcome pyval * W
}.

Section Monad.
Context {W : Type} `{External W}.

Definition M (A : Type) : Type := W -> outcome A * W * list event.

Definition ret {A} (a : A) : M A := fun w => (Ret a, w, []).

Definition raise {A} (e : exn) : M A := fun w => (Raise e, w, []).

Definition bind {A B} (m : M A) (f : A -> M B) : M B :=
  fun w =>
    match m w with
    | (Ret a, w1, t1) => let '(r, w2, t2) := f a w1 in (r, w2, t1 ++ t2)
    | (Raise e, w1, t1) => (Raise e, w1, t1)
    end.

(** [try: m  except Exception as e: h e] *)
Definition try_except {A} (m : M A) (h : exn -> M A) : M A :=
  fun w =>
    match m w with
    | (Ret a, w1, t1) => (Ret a, w1, t1)
    | (Raise e, w1, t1) => let '(r, w2, t2) := h e w1 in (r, w2, t1 ++ t2)
    end.

Definition print (l : log_line) : M unit := fun w => (Ret tt, w, [EvPrint l]).

Definition getenv (name : string) : M (option string) :=
  fun w => (Ret (os_getenv name w), w, []).

Definition http_get (url : string) (headers : list (string * string))
    (timeout : Z) : M response :=
  fun w => let '(r, w1) := requests_get url headers timeout w in
           (r, w1, [EvGet url headers timeout]).

Definition sleep (seconds : Q) : M unit :=
  fun w => (Ret tt, time_sleep seconds w, [EvSleep seconds]).

Definition invoke (api_key prompt : string) : M pyval :=
  fun w => let '(r, w1) := llm_invoke api_key prompt w in
           (r, w1, [EvInvoke api_key prompt]).

End Monad.

Arguments M : clear implicits.

Declare Scope py_scope.
Delimit Scope py_scope with py.
Notation "x <- m ;; k" := (bind m (fun x => k))
  (at level 100, m at next level, right associativity) : py_scope.
Notation "m ;;; k" := (bind m (fun _ => k))
  (at level 100, right associativity) : py_scope.

(** Projections of a trace. *)
Definition gets (tr : list event) : list string :=
  omap (fun ev => match ev with EvGet u _ _ => Some u | _ => None end) tr.

Definition sleeps (tr : list event) : list Q :=
  omap (fun ev => match ev with EvSleep q => Some q | _ => None end) tr.

Definition invokes (tr : list event) : list string :=
  omap (fun ev => match ev with EvInvoke _ p => Some p | _ => None end) tr.

(** ** [ScraperService] *)

Module ScraperService.
Section WithWorld.
Context {W : Type} `{External W}.
Local Open Scope py_scope.

Definition user_agent : string :=
  "Mozilla/5.0 (Macintosh; Intel Mac OS X 10_15_7) AppleWebKit/537.36 (KHTML, like Gecko) Chrome/120.0.0.0 Safari/537.36".

Definition jina (url : string) : string := "https://r.jina.ai/" +:+ url.

(** The request headers, with the bearer token when [JINA_API_KEY] is set. *)
Definition headers_for (jina_api_key : option string) : list (string * string) :=
  match jina_api_key with
  | Some k =>
      if PyStr.nonempty k
      then [("Authorization", "Bearer " +:+ k); ("User-Agent", user_agent)]
      else [("User-Agent", user_agent)]
  | None => [("User-Agent", user_agent)]
  end.

(** How one pass through the body of the [for] loop ends. *)
Inductive ctl : Type :=
  | Continue
  | Return (v : option string).

(** [range(n)] *)
Definition py_range (n : Z) : list Z := map Z.of_nat (seq 0 (Z.to_nat n)).

(** The body of [for attempt in range(retry_count)]: the [try] with its
    handler. *)
Definition fetch_attempt (jina_url : string) (headers : list (string * string))
    (retry_count attempt : Z) : M W ctl :=
  try_except
    (response <- http_get jina_url headers 25 ;;
     if status_code response =? 200 then
       ret (Return (Some (PyStr.take (Z.to_nat 20000) (text response))))
     else if status_code response =? 429 then
       let wait_time := 2 ^ attempt * 2 in
       if attempt <? retry_count - 1 then
         print (LogRateLimitWait wait_time (attempt + 1) retry_count) ;;;
         sleep (inject_Z wait_time) ;;;
         ret Continue
       else
         print (LogRateLimitExceeded retry_count) ;;;
         ret (Return None)
     else
       print (LogJinaError (status_code response)) ;;;
       ret (Return None))
    (fun e =>
       if attempt <? retry_count - 1 then
         let wait_time := 2 ^ attempt * 1 in
         print (LogFetchRetry (attempt + 1) retry_count e wait_time) ;;;
         sleep (inject_Z wait_time) ;;;
         ret Continue
       else
         print (LogFetchError e) ;;;
         ret (Return None)).

Fixpoint fetch_loop (jina_url : string) (headers : list (string * string))
    (retry_count : Z) (attempts : list Z) : M W (option string) :=
  match attempts with
  | [] => ret None
  | attempt :: rest =>
      c <- fetch_attempt jina_url headers retry_count attempt ;;
      match c with
      | Continue => fetch_loop jina_url headers retry_count rest
      | Return v => ret v
      end
  end.

Definition fetch_page_content (url : string) (retry_count : Z) : M W (option string) :=
  jina_api_key <- getenv "JINA_API_KEY" ;;
  let jina_url := jina url in
  let headers := headers_for jina_api_key in
  fetch_loop jina_url headers retry_count (py_range retry_count).

(** *** [_extract_job_title_from_page] *)

Definition indent12 : string := "            ".

(** The f-string of the title request. *)
Definition title_prompt (content : string) : string :=
  PyStr.nl
  +:+ indent12 +:+ "Extract ONLY the job title from this job posting page content." +:+ PyStr.nl
  +:+ indent12 +:+ "Return just the job title as a plain string, nothing else." +:+ PyStr.nl
  +:+ indent12 +:+ PyStr.nl
  +:+ indent12 +:+ "Content (first 2000 chars):" +:+ PyStr.nl
  +:+ indent12 +:+ PyStr.take 2000 content +:+ PyStr.nl
  +:+ indent12 +:+ PyStr.nl
  +:+ indent12 +:+ "Job title:".

(** [p] matched at the start of [s] under [re.IGNORECASE]; what follows. *)
Fixpoint drop_prefix_ci (p s : string) : option string :=
  match p, s with
  | EmptyString, _ => Some s
  | String a p', String b s' =>
      if Ascii.eqb (PyStr.lower_char a) (PyStr.lower_char b)
      then drop_prefix_ci p' s' else None
  | String _ _, EmptyString => None
  end.

(** [re.sub(r'^(Job title:|Title:|The job title is:)\s*', '', title,
    flags=re.IGNORECASE)]: the first alternative that matches at the start
    is removed together with the white space after it. *)
Definition sub_title_prefix (title : string) : string :=
  match drop_prefix_ci "Job title:" title with
  | Some r => PyStr.lstrip_by PyStr.is_space r
  | None =>
      match drop_prefix_ci "Title:" title with
      | Some r => PyStr.lstrip_by PyStr.is_space r
      | None =>
          match drop_prefix_ci "The job title is:" title with
          | Some r => PyStr.lstrip_by PyStr.is_space r
          | None => title
          end
      end
  end.

(** [result.content] stripped of white space, then of double quotes, then
    of single quotes; a [content] that is not a [str] has no [strip]. *)
Definition content_strip (content : pyval) : M W string :=
  match content with
  | PStr s =>
      ret (PyStr.strip_char "'"%char
             (PyStr.strip_char (ascii_of_nat 34) (PyStr.strip s)))
  | _ => raise AttributeError
  end.

Definition _extract_job_title_from_page (url : string) : M W (option string) :=
  try_except
    (content <- fetch_page_content url 3 ;;
     match content with
     | Some content =>
         if negb (PyStr.nonempty content) then ret None
         else
           api_key <- getenv "OPENAI_API_KEY" ;;
           match api_key with
           | Some api_key =>
               if negb (PyStr.nonempty api_key) then ret None
               else
                 result_content <- invoke api_key (title_prompt content) ;;
                 title <- content_strip result_content ;;
                 let title := sub_title_prefix title in
                 ret (Some (PyStr.take 200 title))
           | None => ret None
           end
     | None => ret None
     end)
    (fun e => print (LogTitleFailed (PyStr.take 50 url) e) ;;; ret None).

(** *** [discover_job_links] *)

(** The longest run of characters other than [stop], and what is left. *)
Fixpoint span_until (stop : ascii) (s : string) : string * string :=
  match s with
  | EmptyString => (EmptyString, EmptyString)
  | String c r =>
      if Ascii.eqb c stop then (EmptyString, s)
      else let '(run, rest) := span_until stop r in (String c run, rest)
  end.

(** The pattern [\[([^\]]+)\]\((http[^\)]+)\)] matched at the start of
    [s]: the two groups and the length of the match.  Both character
    classes exclude the character that has to follow them, so the greedy
    runs are the only way to match. *)
Definition match_link (s : string) : option (string * string * nat) :=
  match s with
  | String "["%char r =>
      let '(txt, r1) := span_until "]"%char r in
      if PyStr.nonempty txt then
        match PyStr.drop_prefix "](http" r1 with
        | Some r2 =>
            let '(tail, r3) := span_until ")"%char r2 in
            if PyStr.nonempty tail then
              match r3 with
              | String ")"%char _ =>
                  Some (txt, "http" +:+ tail,
                        (1 + String.length txt + 6 + String.length tail + 1)%nat)
              | _ => None
              end
            else None
        | None => None
        end
      else None
  | _ => None
  end.

(** [re.findall]: matches are searched left to right and do not overlap;
    [skip] counts the characters of the last match still to pass. *)
Fixpoint findall_from (skip : nat) (s : string) : list (string * string) :=
  match s with
  | EmptyString => []
  | String _ r =>
      match skip with
      | S k => findall_from k r
      | O =>
          match match_link s with
          | Some (txt, href, n) => (txt, href) :: findall_from (n - 1) r
          | None => findall_from 0 r
          end
      end
  end.

Definition findall_links (s : string) : list (string * string) :=
  findall_from 0 s.

Record candidate : Type := mkCandidate { cand_text : string; cand_url : string }.

(** [len(text) < 4 or "mailto" in href or "linkedin" in href] *)
Definition discarded (txt href : string) : bool :=
  ((String.length txt <? 4)%nat
   || PyStr.contains "mailto" href
   || PyStr.contains "linkedin" href)%bool.

(** A job-board URL or a link whose text says "apply". *)
Definition plausible (txt href : string) : bool :=
  (PyStr.contains "greenhouse.io" (PyStr.lower href)
   || PyStr.contains "lever.co" (PyStr.lower href)
   || PyStr.contains "workday.com" (PyStr.lower href)
   || PyStr.contains "apply" (PyStr.lower txt))%bool.

(** The loop [for text, href in matches]. *)
Fixpoint collect_candidates (matches : list (string * string))
    (candidates : list candidate) (seen : gset string) : list candidate :=
  match matches with
  | [] => candidates
  | (txt, href) :: rest =>
      if discarded txt href then collect_candidates rest candidates seen
      else if plausible txt href then
        if decide (href ∈ seen) then collect_candidates rest candidates seen
        else collect_candidates rest
               (candidates ++ [mkCandidate txt href]) ({[href]} ∪ seen)
      else collect_candidates rest candidates seen
  end.

Definition max_matches : nat := 20.

(** The condition under which a title is kept. *)
Definition title_matches (keyword_lower title_lower : string) : bool :=
  (PyStr.contains keyword_lower title_lower
   || (String.eqb keyword_lower "engineer" && PyStr.contains "engineering" title_lower)
   || (String.eqb keyword_lower "analyst" && PyStr.contains "analysis" title_lower))%bool.

(** [role_keyword.lower()] *)
Definition py_lower (v : pyval) : M W string :=
  match v with
  | PStr s => ret (PyStr.lower s)
  | _ => raise AttributeError
  end.

(** How the title check of one candidate ends. *)
Inductive step : Type :=
  | Break (matched_urls : list string)
  | Next (matched_urls : list string).

(** Lines 158 to 178: the title check of one candidate. *)
Definition check_candidate (role_keyword : pyval) (keyword_lower : string)
    (n i : nat) (c : candidate) (matched_urls : list string) : M W step :=
  let url := cand_url c in
  print (LogChecking (i + 1) n (PyStr.take 60 url)) ;;;
  title <- _extract_job_title_from_page url ;;
  match title with
  | Some title =>
      if PyStr.nonempty title then
        let title_lower := PyStr.lower title in
        if title_matches keyword_lower title_lower then
          let matched_urls := matched_urls ++ [url] in
          print (LogMatched title (length matched_urls) max_matches) ;;;
          if (max_matches <=? length matched_urls)%nat then
            print (LogStopEarly max_matches) ;;;
            ret (Break matched_urls)
          else ret (Next matched_urls)
        else
          print (LogSkipped title role_keyword) ;;;
          ret (Next matched_urls)
      else
        print (LogNoTitle (PyStr.take 60 url)) ;;;
        ret (Next matched_urls)
  | None =>
      print (LogNoTitle (PyStr.take 60 url)) ;;;
      ret (Next matched_urls)
  end.

(** Lines 183 to 188: the pause before the next candidate. *)
Definition pace (n i : nat) : M W unit :=
  jina_api_key <- getenv "JINA_API_KEY" ;;
  let delay := if PyStr.truthy jina_api_key then (1 # 2)%Q else (7 # 2)%Q in
  if (i <? n - 1)%nat then
    sleep delay ;;;
    if (negb (PyStr.truthy jina_api_key) && (i mod 5 =? 0)%nat)%bool
    then print LogTip else ret tt
  else ret tt.

(** The loop [for i, candidate in enumerate(candidates)]; [n] is
    [len(candidates)] and [i] the index of the head of [cands]. *)
Fixpoint check_candidates (role_keyword : pyval) (keyword_lower : string)
    (n i : nat) (cands : list candidate) (matched_urls : list string)
    : M W (list string) :=
  match cands with
  | [] => ret matched_urls
  | c :: rest =>
      s <- check_candidate role_keyword keyword_lower n i c matched_urls ;;
      match s with
      | Break matched_urls => ret matched_urls
      | Next matched_urls =>
          pace n i ;;;
          check_candidates role_keyword keyword_lower n (S i) rest matched_urls
      end
  end.

Definition candidates_of (markdown_content : string) : list candidate :=
  collect_candidates (findall_links markdown_content) [] ∅.

(** The [try] block of [discover_job_links], lines 125 to 191. *)
Definition discover_body (board_url : string) (role_keyword : pyval)
    : M W (list string) :=
  markdown_content <- fetch_page_content board_url 3 ;;
  match markdown_content with
  | Some markdown_content =>
      if negb (PyStr.nonempty markdown_content) then ret []
      else
        let candidates := candidates_of markdown_content in
        print (LogFiltering role_keyword) ;;;
        print (LogCandidates (length candidates)) ;;;
        match candidates with
        | [] => ret []
        | _ :: _ =>
            keyword_lower <- py_lower role_keyword ;;
            matched_urls <-
              check_candidates role_keyword keyword_lower
                (length candidates) 0 candidates [] ;;
            print (LogFound (length matched_urls) role_keyword) ;;;
            ret matched_urls
        end
  | None => ret []
  end.

Definition discover_job_links (board_url : string) (role_keyword : pyval)
    : M W (list string) :=
  try_except (discover_body board_url role_keyword)
    (fun e => print (LogDiscoveryError e) ;;; ret []).

End WithWorld.
End ScraperService.

(** ** [AnalysisEngine.parse_job_description_with_ai] *)

Module AnalysisEngine.
Section WithWorld.
Context {W : Type} `{External W}.
(** [json.loads] on a [str]: the parsed value or the exception it raises. *)
Variable json_loads : string -> outcome pyval.
Local Open Scope py_scope.

(** [{"job_title": "", "company": "", "min": 0, "max": 0}] *)
Definition default_record : gmap string pyval :=
  <["job_title" := PStr ""]> (<["company" := PStr ""]>
    (<["min" := PInt 0]> (<["max" := PInt 0]> ∅))).

Definition indent16 : string := "                ".

(** The template with [text] filled in; the doubled braces of the
    template stand for single ones. *)
Definition extraction_prompt (text_content : string) : string :=
  PyStr.nl
  +:+ indent16 +:+ "Extract Base Salary Range, Job Title, and Company Name." +:+ PyStr.nl
  +:+ indent16 +:+ "Ignore equity/benefits. Convert " +:+ PyStr.dq +:+ "150k" +:+ PyStr.dq
               +:+ " to 150000." +:+ PyStr.nl
  +:+ indent16 +:+ "If no salary found, return 0." +:+ PyStr.nl
  +:+ indent16 +:+ PyStr.nl
  +:+ indent16 +:+ "Return JSON:" +:+ PyStr.nl
  +:+ indent16 +:+ "{" +:+ PyStr.nl
  +:+ indent16 +:+ "    " +:+ PyStr.dq +:+ "job_title" +:+ PyStr.dq +:+ ": "
               +:+ PyStr.dq +:+ "String" +:+ PyStr.dq +:+ "," +:+ PyStr.nl
  +:+ indent16 +:+ "    " +:+ PyStr.dq +:+ "company" +:+ PyStr.dq +:+ ": "
               +:+ PyStr.dq +:+ "String" +:+ PyStr.dq +:+ "," +:+ PyStr.nl
  +:+ indent16 +:+ "    " +:+ PyStr.dq +:+ "min" +:+ PyStr.dq +:+ ": Number," +:+ PyStr.nl
  +:+ indent16 +:+ "    " +:+ PyStr.dq +:+ "max" +:+ PyStr.dq +:+ ": Number" +:+ PyStr.nl
  +:+ indent16 +:+ "}" +:+ PyStr.nl
  +:+ PyStr.nl
  +:+ indent16 +:+ "Text: " +:+ text_content +:+ PyStr.nl
  +:+ indent16.

(** [try: m  except cls as e: h e]: other exceptions pass through. *)
Definition try_except_cls {A} (cls : exn_class) (m : M W A) (h : exn -> M W A)
    : M W A :=
  try_except m (fun e => if isinstance e cls then h e else raise e).

(** [json.loads(result.content)]; a [content] that is not a [str] is a
    [TypeError]. *)
Definition loads_content (content : pyval) : M W pyval :=
  match content with
  | PStr s =>
      match json_loads s with
      | Ret v => ret v
      | Raise e => raise e
      end
  | _ => raise TypeError
  end.

(** [result.content[:200]] *)
Definition content_head (content : pyval) : M W pyval :=
  match content with
  | PStr s => ret (PStr (PyStr.take 200 s))
  | PList l => ret (PList (firstn 200 l))
  | _ => raise TypeError
  end.

Definition required_keys : list string := ["job_title"; "company"; "min"; "max"].

(** [""] for the two names, [0] for the two bounds. *)
Definition default_for (key : string) : pyval :=
  if (String.eqb key "job_title" || String.eqb key "company")%bool
  then PStr "" else PInt 0.

(** The loop [for key in required_keys] over the parsed dict. *)
Fixpoint fill_missing (keys : list string) (parsed : gmap string pyval)
    : M W (gmap string pyval) :=
  match keys with
  | [] => ret parsed
  | key :: rest =>
      match parsed !! key with
      | None =>
          print (LogMissingKey key) ;;;
          fill_missing rest (<[key := default_for key]> parsed)
      | Some _ => fill_missing rest parsed
      end
  end.

(** The dict the loop leaves behind. *)
Fixpoint with_defaults (keys : list string) (parsed : gmap string pyval)
    : gmap string pyval :=
  match keys with
  | [] => parsed
  | key :: rest =>
      match parsed !! key with
      | None => with_defaults rest (<[key := default_for key]> parsed)
      | Some _ => with_defaults rest parsed
      end
  end.

(** The four [except] clauses of the outer [try], tried in order. *)
Definition on_error (e : exn) : M W (gmap string pyval) :=
  if isinstance e ClsKeyError then
    print (LogKeyError e) ;;; ret default_record
  else if isinstance e ClsValueError then
    print (LogValueError e) ;;; ret default_record
  else if isinstance e ClsAttributeError then
    print (LogAttributeError e) ;;; ret default_record
  else
    print (LogUnexpected e) ;;; ret default_record.

Definition parse_job_description_with_ai (text_content : string)
    : M W (gmap string pyval) :=
  api_key <- getenv "OPENAI_API_KEY" ;;
  if negb (PyStr.truthy api_key) then
    print LogNoApiKey ;;; ret default_record
  else
    try_except
      (result_content <-
         invoke (default EmptyString api_key) (* a non-empty string here *)
           (extraction_prompt text_content) ;;
       try_except_cls ClsJSONDecodeError
         (parsed <- loads_content result_content ;;
          match parsed with
          | PDict parsed => fill_missing required_keys parsed
          | _ => print (LogNonDict parsed) ;;; ret default_record
          end)
         (fun e =>
            print (LogJsonFailed e) ;;;
            shown <- content_head result_content ;;
            print (LogContentReceived shown) ;;;
            ret default_record))
      on_error.

(** The record that comes back, by what the model call did. *)
Definition record_of_reply (reply : outcome pyval) : gmap string pyval :=
  match reply with
  | Ret (PStr s) =>
      match json_loads s with
      | Ret (PDict parsed) => with_defaults required_keys parsed
      | _ => default_record
      end
  | _ => default_record
  end.

(** The shape the callers rely on. *)
Definition is_str (v : pyval) : bool :=
  match v with PStr _ => true | _ => false end.

Definition is_number (v : pyval) : bool :=
  match v with PInt _ | PFloat _ => true | _ => false end.

Definition has_type (d : gmap string pyval) (key : string) (p : pyval -> bool)
    : Prop :=
  ∃ v, d !! key = Some v ∧ p v = true.

(** Exactly the four keys, strings for the names, numbers for the bounds. *)
Definition well_shaped (d : gmap string pyval) : Prop :=
  dom d = list_to_set required_keys
  ∧ has_type d "job_title" is_str ∧ has_type d "company" is_str
  ∧ has_type d "min" is_number ∧ has_type d "max" is_number.

(** A parsed object that needs nothing but its missing keys filled in: no
    key besides the four, and the values that are there have the right
    types. *)
Definition repairable (parsed : gmap string pyval) : Prop :=
  dom parsed ⊆ list_to_set required_keys
  /\ forall key v,
       parsed !! key = Some v ->
       if (String.eqb key "job_title" || String.eqb key "company")%bool
       then is_str v = true else is_number v = true.

End WithWorld.
End AnalysisEngine.

(** ** Scripted services

    A mock of the outside world for closed examples: the answer of a service
    may depend on its argument and on how many calls it has served. *)

Record mock : Type := mkMock {
  mock_env : string -> option string;
  mock_http : string -> nat -> outcome response;
  mock_llm : string -> nat -> outcome pyval
}.

Record mock_world : Type := mkWorld { http_calls : nat; llm_calls : nat }.

Definition mock_external (m : mock) : External mock_world := {|
  os_getenv name _ := mock_env m name;
  requests_get url _ _ w :=
    (mock_http m url (http_calls w),
     {| http_calls := S (http_calls w); llm_calls := llm_calls w |});
  time_sleep _ w := w;
  llm_invoke _ prompt w :=
    (mock_llm m prompt (llm_calls w),
     {| http_calls := http_calls w; llm_calls := S (llm_calls w) |})
|}.

Definition w0 : mock_world := {| http_calls := 0; llm_calls := 0 |}.

(** A [json.loads] known on finitely many documents; every other text is
    taken to be malformed. *)
Definition json_table (docs : list (string * pyval)) (s : string) : outcome pyval :=
  match List.find (fun kv => String.eqb (fst kv) s) docs with
  | Some kv => Ret (snd kv)
  | None => Raise JSONDecodeError
  end.

(** Services that answer every request the same way. *)
Definition mock_status (status : Z) (body : string) : mock := {|
  mock_env _ := None;
  mock_http _ _ := Ret (mkResponse status body);
  mock_llm _ _ := Raise (OtherError "APIConnectionError")
|}.

Definition mock_down : mock := {|
  mock_env _ := None;
  mock_http _ _ := Raise (OtherError "ConnectionError");
  mock_llm _ _ := Raise (OtherError "APIConnectionError")
|}.

(** A careers page behind [board_url]; every other URL is a job posting,
    and the [n]-th title request is answered with [titles n].  The model
    credential is set, the reader credential is not. *)
Definition mock_board (board_url page : string) (titles : nat -> outcome pyval)
    : mock := {|
  mock_env name := if String.eqb name "OPENAI_API_KEY" then Some "sk-test" else None;
  mock_http url _ :=
    if String.eqb url (ScraperService.jina board_url)
    then Ret (mkResponse 200 page)
    else Ret (mkResponse 200 "Job posting");
  mock_llm _ n := titles n
|}.

Definition careers_url : string := "https://acme.com/careers".

(** A board with 25 postings. *)
Definition posting_ids : list string :=
  ["a"; "b"; "c"; "d"; "e"; "f"; "g"; "h"; "i"; "j"; "k"; "l"; "m";
   "n"; "o"; "p"; "q"; "r"; "s"; "t"; "u"; "v"; "w"; "x"; "y"].

Definition posting (id : string) : ScraperService.candidate :=
  ScraperService.mkCandidate "Apply now" ("https://jobs.lever.co/acme/" +:+ id).

Definition posting_link (id : string) : string :=
  "[Apply now](https://jobs.lever.co/acme/" +:+ id +:+ ")" +:+ PyStr.nl.

Definition board25 : string :=
  fold_right (fun id page => posting_link id +:+ page) EmptyString posting_ids.

(** The first 20 title requests name an engineer, the later ones do not. *)
Definition titles20 (n : nat) : outcome pyval :=
  if (n <? 20)%nat then Ret (PStr "Software Engineer") else Ret (PStr "Product Designer").

(** A model that gives the same reply to every request. *)
Definition mock_reply (reply : outcome pyval) : mock := {|
  mock_env name := if String.eqb name "OPENAI_API_KEY" then Some "sk-test" else None;
  mock_http _ _ := Raise (OtherError "ConnectionError");
  mock_llm _ _ := reply
|}.

(** A reply that is a JSON object with all four keys, two of them of the
    wrong type, and a fifth key; and what [json.loads] makes of it. *)
Definition odd_reply : string :=
  "{" +:+ PyStr.dq +:+ "job_title" +:+ PyStr.dq +:+ ": 7, "
  +:+ PyStr.dq +:+ "company" +:+ PyStr.dq +:+ ": " +:+ PyStr.dq +:+ "Acme" +:+ PyStr.dq +:+ ", "
  +:+ PyStr.dq +:+ "min" +:+ PyStr.dq +:+ ": " +:+ PyStr.dq +:+ "lots" +:+ PyStr.dq +:+ ", "
  +:+ PyStr.dq +:+ "max" +:+ PyStr.dq +:+ ": 0, "
  +:+ PyStr.dq +:+ "note" +:+ PyStr.dq +:+ ": " +:+ PyStr.dq +:+ "x" +:+ PyStr.dq +:+ "}".

Definition odd_record : gmap string pyval :=
  <["job_title" := PInt 7]> (<["company" := PStr "Acme"]>
    (<["min" := PStr "lots"]> (<["max" := PInt 0]> (<["note" := PStr "x"]> ∅)))).

(** A reply with only a title. *)
Definition title_only_reply : string :=
  "{" +:+ PyStr.dq +:+ "job_title" +:+ PyStr.dq +:+ ": "
  +:+ PyStr.dq +:+ "Backend Engineer" +:+ PyStr.dq +:+ "}".

Definition title_only_record : gmap string pyval :=
  <["job_title" := PStr "Backend Engineer"]> ∅.

Definition known_replies : list (string * pyval) :=
  [(odd_reply, PDict odd_record); (title_only_reply, PDict title_only_record)].

(** The two links of the careers-page example. *)
Definition apply_text : string := "Apply: Backend Engineer".
Definition apply_url : string := "https://boards.greenhouse.io/acme/123".
Definition apply_link : string := "[" +:+ apply_text +:+ "](" +:+ apply_url +:+ ")".
Definition contact_url : string := "mailto:hr@acme.com".
Definition contact_link : string := "[Contact Us](" +:+ contact_url +:+ ")".

(** What a fetch hands to [re.findall]: the page, or nothing to scan. *)
Definition page_of (v : option string) : string := default EmptyString v.

(** The worlds of the examples. *)
Definition acme_page : string := apply_link +:+ PyStr.nl +:+ contact_link.

Definition acme : External mock_world :=
  mock_external (mock_board careers_url acme_page
                   (fun _ => Ret (PStr "Backend Engineer"))).

Definition acme_model_down : External mock_world :=
  mock_external (mock_board careers_url acme_page
                   (fun _ => Raise (OtherError "RateLimitError"))).

Definition acme25 : External mock_world :=
  mock_external (mock_board careers_url board25 titles20).

Definition analyst_url : string := "https://jobs.lever.co/acme/7".

Definition analyst_board : External mock_world :=
  mock_external (mock_board careers_url ("[Data Analyst](" +:+ analyst_url +:+ ")")
                   (fun _ => Ret (PStr "Data Analyst"))).

Definition after_board : mock_world := {| http_calls := 1; llm_calls := 0 |}.

(** A reader that fails twice and then serves the page; the reader
    credential is set. *)
Definition mock_flaky : mock := {|
  mock_env name := if String.eqb name "JINA_API_KEY" then Some "jina-test" else None;
  mock_http _ n :=
    if (n <? 2)%nat then Raise (OtherError "ConnectionError")
    else Ret (mkResponse 200 "# Careers");
  mock_llm _ _ := Raise (OtherError "APIConnectionError")
|}.

(** What a scenario says about the outside world, and the vocabulary of the
    statements. *)
Section Scenarios.
Context {W : Type} `{External W}.
Import ScraperService.

(** Every request is answered with status [status]. *)
Definition always_status (status : Z) : Prop :=
  forall url headers timeout w,
    exists body w1,
      requests_get url headers timeout w = (Ret (mkResponse status body), w1).

(** Every request fails with a transport exception. *)
Definition always_raises : Prop :=
  forall url headers timeout w,
    exists e w1, requests_get url headers timeout w = (Raise e, w1).

(** The waits of the two retry policies, in seconds. *)
Definition backoff_429 (attempt : Z) : Q := inject_Z (2 ^ attempt * 2).
Definition backoff_exn (attempt : Z) : Q := inject_Z (2 ^ attempt * 1).

(** [needle] occurs in [hay]. *)
Definition substring (needle hay : string) : Prop :=
  exists pre post, hay = pre +:+ needle +:+ post.

(** The page of a candidate cannot be fetched: the fetch comes back with
    [None] or with an empty page. *)
Definition fetch_fails (url : string) (w : W) : Prop :=
  exists v w1 tr,
    fetch_page_content url 3 w = (Ret v, w1, tr) /\ PyStr.truthy v = false.

(** The page is there and the credential is set, but the title request
    raises. *)
Definition title_call_fails (url : string) (w : W) : Prop :=
  exists content w1 tr api_key e w2,
    fetch_page_content url 3 w = (Ret (Some content), w1, tr)
    /\ PyStr.nonempty content = true
    /\ os_getenv "OPENAI_API_KEY" w1 = Some api_key
    /\ PyStr.nonempty api_key = true
    /\ llm_invoke api_key (title_prompt content) w1 = (Raise e, w2).

(** The title check of [url] started in [w] yields [title], a title that
    matches the keyword, and leaves the world in [w1]. *)
Definition title_check_matches (keyword_lower url : string) (w : W)
    (title : string) (w1 : W) (tr : list event) : Prop :=
  _extract_job_title_from_page url w = (Ret (Some title), w1, tr)
  /\ PyStr.nonempty title = true
  /\ title_matches keyword_lower (PyStr.lower title) = true.

(** Every candidate of [cands], checked in turn from world [w] with the
    pauses of the loop in between, has a matching title. *)
Fixpoint all_match (keyword_lower : string) (n i : nat) (cands : list candidate)
    (w : W) : Prop :=
  match cands with
  | [] => True
  | c :: rest =>
      exists title w1 tr,
        title_check_matches keyword_lower (cand_url c) w title w1 tr
        /\ all_match keyword_lower n (S i) rest (snd (fst (pace n i w1)))
  end.

(** The matching rule in the words of the specification: the lower-cased
    title contains the lower-cased keyword, or keyword and title are related
    by the two-way table engineer/engineering, analyst/analysis. *)
Definition spec_title_match (keyword title : string) : bool :=
  let k := PyStr.lower keyword in
  let t := PyStr.lower title in
  (PyStr.contains k t
   || (String.eqb k "engineer" && PyStr.contains "engineering" t)
   || (String.eqb k "engineering" && PyStr.contains "engineer" t)
   || (String.eqb k "analyst" && PyStr.contains "analysis" t)
   || (String.eqb k "analysis" && PyStr.contains "analyst" t))%bool.

(** The links [collect_candidates] does not throw away. *)
Definition kept (link : string * string) : bool :=
  (negb (discarded (fst link) (snd link)) && plausible (fst link) (snd link))%bool.

Definition step_urls (s : step) : list string :=
  match s with Break urls | Next urls => urls end.

End Scenarios.

(** ** More vocabulary: runs of the reader, links on a page *)

Section MoreScenarios.
Context {W : Type} `{External W}.
Import ScraperService.

(** An answer after which [fetch_page_content] tries again: a 429 or a
    transport exception; and the wait it takes before the next attempt. *)
Definition retryable (o : outcome response) : Prop :=
  match o with
  | Ret r => status_code r = 429
  | Raise _ => True
  end.

Definition retry_wait (o : outcome response) (attempt : Z) : Q :=
  match o with
  | Ret _ => backoff_429 attempt
  | Raise _ => backoff_exn attempt
  end.

(** From world [w] the reader gives [k] retryable answers to the requests
    for [jina_url], the waits of the loop in between, and then answers 200
    with [body], leaving the world in [w_end]. *)
Fixpoint recovers (jina_url : string) (headers : list (string * string))
    (k : nat) (attempt : Z) (w : W) (body : string) (w_end : W) : Prop :=
  match k with
  | O =>
      exists r,
        requests_get jina_url headers 25 w = (Ret r, w_end)
        /\ status_code r = 200 /\ text r = body
  | S k' =>
      exists o w1,
        requests_get jina_url headers 25 w = (o, w1)
        /\ retryable o
        /\ recovers jina_url headers k' (attempt + 1)
             (time_sleep (retry_wait o attempt) w1) body w_end
  end.

(** What a trace of [fetch_page_content] is made of: requests for
    [jina_url] with [headers] and the fixed timeout, waits of at most
    [2^(retry_count - 1)] seconds, log lines, and no model call. *)
Definition reader_event (jina_url : string) (headers : list (string * string))
    (retry_count : Z) (ev : event) : Prop :=
  match ev with
  | EvGet u hs t => u = jina_url /\ hs = headers /\ t = 25
  | EvSleep q => (q <= inject_Z (2 ^ (retry_count - 1)))%Q
  | EvInvoke _ _ => False
  | EvPrint _ => True
  end.

(** A trace without its [print] lines: what the outside world sees. *)
Definition quiet (tr : list event) : list event :=
  List.filter (fun ev => match ev with EvPrint _ => false | _ => true end) tr.

(** The Markdown of a link. *)
Definition link_md (txt href : string) : string :=
  "[" +:+ txt +:+ "](" +:+ href +:+ ")".

(** The links of [links] stand in [page] one after the other, without
    overlap. *)
Fixpoint in_order (links : list (string * string)) (page : string) : Prop :=
  match links with
  | [] => True
  | (txt, href) :: rest =>
      exists pre post,
        page = pre +:+ link_md txt href +:+ post /\ in_order rest post
  end.

(** How the title check of a candidate ends, by the title it got. *)
Definition step_of (keyword_lower : string) (title : option string)
    (url : string) (matched_urls : list string) : step :=
  match title with
  | Some title =>
      if (PyStr.nonempty title
          && title_matches keyword_lower (PyStr.lower title))%bool then
        if (max_matches <=? length (matched_urls ++ [url]))%nat
        then Break (matched_urls ++ [url])
        else Next (matched_urls ++ [url])
      else Next matched_urls
  | None => Next matched_urls
  end.

(** What the pattern demands of its two groups. *)
Definition link_shaped (link : string * string) : Prop :=
  fst link <> EmptyString
  /\ ~ substring "]" (fst link)
  /\ (exists tail, snd link = "http" +:+ tail /\ tail <> EmptyString)
  /\ ~ substring ")" (snd link).

(** The keys of [keys] that [parsed] lacks: the ones the loop of
    [parse_job_description_with_ai] has to fill in. *)
Definition missing_keys (keys : list string) (parsed : gmap string pyval)
    : list string :=
  List.filter (fun key => match parsed !! key with None => true | Some _ => false end)
    keys.

End MoreScenarios.

(** ** [ScraperService.debug_fetch] *)

(** [time.time()]: a reading of the clock, which may move the world on. *)
Class Clock (W : Type) : Type := {
  time_time : W -> Q * W
}.

(** One constructor per line [debug_fetch] appends to [log["steps"]]. *)
Inductive debug_step : Type :=
  | StepRouting (jina_url : string)
  | StepResponse (status : Z) (duration : Q)
  | StepReceived (chars : nat)
  | StepFailed (status : Z)
  | StepError (e : exn).

(** The dictionary [debug_fetch] returns, by its three keys. *)
Record debug_log : Type := mkDebugLog {
  steps : list debug_step;
  preview : string;
  success : bool
}.

Module ScraperDebug.
Section WithWorld.
Context {W : Type} {HE : External W} {HC : Clock W}.
(** [round(stop - start, 2)] on two readings of the clock. *)
Variable round_elapsed : Q -> Q -> Q.
Import ScraperService.
Local Open Scope py_scope.

Definition now : M W Q :=
  fun w => let '(t, w1) := time_time w in (Ret t, w1, []).

(** [log["steps"].append(s)] *)
Definition append_step (log : debug_log) (s : debug_step) : debug_log :=
  {| steps := steps log ++ [s]; preview := preview log; success := success log |}.

(** The request carries no [headers] argument, which the empty list stands
    for.  The request is the one statement of the [try] block that can
    raise; the log the handler appends to holds the routing step then. *)
Definition debug_fetch (url : string) : M W debug_log :=
  let log := {| steps := []; preview := EmptyString; success := false |} in
  let jina_url := jina url in
  let log := append_step log (StepRouting jina_url) in
  try_except
    (start <- now ;;
     response <- http_get jina_url [] 25 ;;
     stop <- now ;;
     let duration := round_elapsed start stop in
     let log := append_step log (StepResponse (status_code response) duration) in
     if status_code response =? 200 then
       let text := text response in
       let log := append_step log (StepReceived (String.length text)) in
       ret {| steps := steps log;
              preview := PyStr.take 1000 text +:+ "...";
              success := true |}
     else
       ret (append_step log (StepFailed (status_code response))))
    (fun e => ret (append_step log (StepError e))).

End WithWorld.
End ScraperDebug.

(** ** [run_bulk_crawl] of [src/app.py]

    The route that drives the scraper: it discovers the job pages of a
    board, mines the first four and stores what it finds.  Flask's session
    and form and the database session are further oracles of the world. *)

(** A row of [comp_data] of [src/models.py], by the columns the route sets
    and reads. *)
Module Models.
Record CompData : Type := mkCompData {
  company_name : pyval;
  role_title : pyval;
  salary_min : pyval;
  salary_max : pyval;
  source_url : pyval
}.
End Models.

Class WebApp (W : Type) : Type := {
  (** [session.get(key)] *)
  session_get : string -> W -> pyval;
  (** [request.form.get(key)] *)
  form_get : string -> W -> option string;
  (** [CompData.query.filter_by(company_name=c, role_title=t).first()] *)
  query_first : pyval -> pyval -> W -> outcome (option Models.CompData) * W;
  (** [db.session.add(row)] *)
  session_add : Models.CompData -> W -> outcome unit * W;
  (** [db.session.commit()] *)
  session_commit : W -> outcome unit * W;
  (** [db.session.rollback()] *)
  session_rollback : W -> outcome unit * W
}.

(** The [print] calls of the route. *)
Inductive app_log : Type :=
  | LogAddFailed (e : exn)
  | LogCommitFailed (e : exn)
  | LogWorkflowFailed (e : exn).

(** What the route does to the outside world: what the scraper and the
    analysis engine do, and the calls on the database. *)
Inductive app_event : Type :=
  | Service (ev : event)
  | DbFirst (company title : pyval)
  | DbAdd (row : Models.CompData)
  | DbCommit
  | DbRollback
  | AppPrint (l : app_log).

(** The fragments the route appends to [results_html], [skipped_html] and
    [errors_html], one constructor per f-string, with the values the
    f-string shows. *)
Record saved_item : Type := mkSaved {
  saved_title : pyval;
  saved_company : pyval;
  saved_min : pyval;
  saved_max : pyval
}.

Inductive skipped_item : Type :=
  | SkipMissing (url50 : string)
  | SkipNoSalary (job_title company : pyval)
  | SkipExists (job_title company existing_min existing_max : pyval).

Inductive error_item : Type :=
  | ErrSaving (job_title : pyval) (e : exn)
  | ErrFetch (url50 : string).

(** The local variables of the mining loop. *)
Record tally : Type := mkTally {
  results_html : list saved_item;
  errors_html : list error_item;
  skipped_html : list skipped_item;
  saved_count : nat;
  processed_count : nat
}.

(** What the route returns, one constructor per [return]. *)
Inductive crawl_reply : Type :=
  | Forbidden
  | UrlRequired
  | KeywordRequired
  | InvalidUrl
  | NoMatchingJobs
  | NoData
  | AgentReport (t : tally)
  | CommitFailed (e : exn)
  | ScrapingFailed (e : exn).

Module App.
Section WithWorld.
Context {W : Type} {HE : External W} {HA : WebApp W}.
Variable json_loads : string -> outcome pyval.
Import ScraperService AnalysisEngine.

(** The monad of the route: as [M], over the events of the route. *)
Definition R (A : Type) : Type := W -> outcome A * W * list app_event.

Definition aret {A} (a : A) : R A := fun w => (Ret a, w, []).

Definition araise {A} (e : exn) : R A := fun w => (Raise e, w, []).

Definition abind {A B} (m : R A) (f : A -> R B) : R B :=
  fun w =>
    match m w with
    | (Ret a, w1, t1) => let '(r, w2, t2) := f a w1 in (r, w2, t1 ++ t2)
    | (Raise e, w1, t1) => (Raise e, w1, t1)
    end.

(** [try: m  except Exception as e: h e] *)
Definition atry {A} (m : R A) (h : exn -> R A) : R A :=
  fun w =>
    match m w with
    | (Ret a, w1, t1) => (Ret a, w1, t1)
    | (Raise e, w1, t1) => let '(r, w2, t2) := h e w1 in (r, w2, t1 ++ t2)
    end.

(** A call into the scraper or the analysis engine. *)
Definition lift {A} (m : M W A) : R A :=
  fun w => let '(r, w1, t) := m w in (r, w1, map Service t).

(** A computation without effects that may raise. *)
Definition pure {A} (o : outcome A) : R A := fun w => (o, w, []).

Definition session (key : string) : R pyval :=
  fun w => (Ret (session_get key w), w, []).

Definition form (key : string) : R (option string) :=
  fun w => (Ret (form_get key w), w, []).

Definition db_first (company title : pyval) : R (option Models.CompData) :=
  fun w => let '(r, w1) := query_first company title w in
           (r, w1, [DbFirst company title]).

Definition db_add (row : Models.CompData) : R unit :=
  fun w => let '(r, w1) := session_add row w in (r, w1, [DbAdd row]).

Definition db_commit : R unit :=
  fun w => let '(r, w1) := session_commit w in (r, w1, [DbCommit]).

Definition db_rollback : R unit :=
  fun w => let '(r, w1) := session_rollback w in (r, w1, [DbRollback]).

Definition aprint (l : app_log) : R unit := fun w => (Ret tt, w, [AppPrint l]).

Declare Scope app_scope.
Delimit Scope app_scope with app.
Notation "x <- m ;; k" := (abind m (fun x => k))
  (at level 100, m at next level, right associativity) : app_scope.
Notation "m ;;; k" := (abind m (fun _ => k))
  (at level 100, right associativity) : app_scope.
Local Open Scope app_scope.

(** Python truthiness of a value. *)
Definition truthy_value (v : pyval) : bool :=
  match v with
  | PNone => false
  | PBool b => b
  | PInt z => negb (z =? 0)
  | PFloat (FNum q) => negb (Qeq_bool q 0)
  | PFloat (FInf _) | PFloat FNaN => true
  | PStr s => PyStr.nonempty s
  | PList l => match l with [] => false | _ :: _ => true end
  | PDict d => negb (Nat.eqb (size d) 0)
  end.

(** The number a value is, when it is an [int], a [bool] or a [float]. *)
Definition as_number (v : pyval) : option pyfloat :=
  match v with
  | PBool b => Some (FNum (if b then 1%Q else 0%Q))
  | PInt z => Some (FNum (inject_Z z))
  | PFloat f => Some f
  | _ => None
  end.

(** [x <= y] and [x > y] on numbers.  Python compares an [int] and a
    [float] by their exact values, and every comparison with NaN is
    [False]. *)
Definition num_le (x y : pyfloat) : bool :=
  match x, y with
  | FNaN, _ | _, FNaN => false
  | FInf true, _ => true
  | _, FInf false => true
  | FInf false, _ => false
  | _, FInf true => false
  | FNum a, FNum b => Qle_bool a b
  end.

Definition num_gt (x y : pyfloat) : bool :=
  match x, y with
  | FNaN, _ | _, FNaN => false
  | _, _ => negb (num_le x y)
  end.

(** [a <= n] and [a > n] for a number [n]: a value that is not a number
    does not compare with one. *)
Definition le_number (a : pyval) (n : pyfloat) : outcome bool :=
  match as_number a with
  | Some x => Ret (num_le x n)
  | None => Raise TypeError
  end.

Definition gt_number (a : pyval) (n : pyfloat) : outcome bool :=
  match as_number a with
  | Some x => Ret (num_gt x n)
  | None => Raise TypeError
  end.

(** [f"{v:,}"]: the value shown, when its type takes the format. *)
Definition format_comma (v : pyval) : outcome pyval :=
  match v with
  | PBool _ | PInt _ | PFloat _ => Ret v
  | PStr _ => Raise ValueError
  | PNone | PList _ | PDict _ => Raise TypeError
  end.

(** [data.get(key)] and [data.get(key, d)] *)
Definition dict_get (data : gmap string pyval) (key : string) : pyval :=
  default PNone (data !! key).

Definition dict_get_or (data : gmap string pyval) (key : string) (d : pyval)
    : pyval :=
  default d (data !! key).

Definition tally0 : tally :=
  {| results_html := []; errors_html := []; skipped_html := [];
     saved_count := 0; processed_count := 0 |}.

Definition add_skipped (t : tally) (item : skipped_item) : tally :=
  {| results_html := results_html t; errors_html := errors_html t;
     skipped_html := skipped_html t ++ [item];
     saved_count := saved_count t; processed_count := processed_count t |}.

Definition add_error (t : tally) (item : error_item) : tally :=
  {| results_html := results_html t; errors_html := errors_html t ++ [item];
     skipped_html := skipped_html t;
     saved_count := saved_count t; processed_count := processed_count t |}.

Definition count_saved (t : tally) : tally :=
  {| results_html := results_html t; errors_html := errors_html t;
     skipped_html := skipped_html t;
     saved_count := S (saved_count t); processed_count := processed_count t |}.

Definition show_saved (t : tally) (item : saved_item) : tally :=
  {| results_html := results_html t ++ [item]; errors_html := errors_html t;
     skipped_html := skipped_html t;
     saved_count := saved_count t; processed_count := processed_count t |}.

Definition count_processed (t : tally) : tally :=
  {| results_html := results_html t; errors_html := errors_html t;
     skipped_html := skipped_html t;
     saved_count := saved_count t; processed_count := S (processed_count t) |}.

(** The inner [try] of the loop.  [saved_count] is a local variable: the
    handler sees it as the block left it, counted when the row went in and
    the f-string raised. *)
Definition save_row (data : gmap string pyval) (salary_min salary_max : pyval)
    (url : string) (t : tally) : R tally :=
  let row := {| Models.company_name := dict_get data "company";
                Models.role_title := dict_get data "job_title";
                Models.salary_min := salary_min;
                Models.salary_max := salary_max;
                Models.source_url := PStr url |} in
  let handler (t : tally) (e : exn) : R tally :=
    aprint (LogAddFailed e) ;;;
    aret (add_error t (ErrSaving (dict_get data "job_title") e)) in
  fun w =>
    match db_add row w with
    | (Raise e, w1, t1) =>
        let '(r, w2, t2) := handler t e w1 in (r, w2, t1 ++ t2)
    | (Ret _, w1, t1) =>
        let t := count_saved t in
        let '(r, w2, t2) :=
          atry
            (shown_min <- pure (format_comma salary_min) ;;
             shown_max <- pure (format_comma salary_max) ;;
             aret (show_saved t
                     {| saved_title := dict_get data "job_title";
                        saved_company := dict_get data "company";
                        saved_min := shown_min;
                        saved_max := shown_max |}))
            (handler t) w1 in
        (r, w2, t1 ++ t2)
    end.

(** The body of [for url in urls[:4]]. *)
Definition mine_one (url : string) (t : tally) : R tally :=
  lift (sleep 1) ;;;
  let t := count_processed t in
  raw <- lift (fetch_page_content url 3) ;;
  if PyStr.truthy raw then
    data <- lift (parse_job_description_with_ai json_loads
                    (default EmptyString raw)) ;;
    if (negb (truthy_value (dict_get data "job_title"))
        || negb (truthy_value (dict_get data "company")))%bool then
      aret (add_skipped t (SkipMissing (PyStr.take 50 url)))
    else
      let salary_min := dict_get_or data "min" (PInt 0) in
      let salary_max := dict_get_or data "max" (PInt 0) in
      no_salary <- pure (le_number salary_max (FNum 0)) ;;
      if (no_salary : bool) then
        aret (add_skipped t (SkipNoSalary (dict_get_or data "job_title" (PStr "Unknown"))
                        (dict_get_or data "company" (PStr "Unknown"))))
      else
        (* [salary_max] compared with 0, so it is a number here *)
        upper <- pure (match as_number salary_max with
                       | Some n => Ret n
                       | None => Raise TypeError
                       end) ;;
        swap <- pure (gt_number salary_min upper) ;;
        let '(salary_min, salary_max) :=
          if (swap : bool) then (salary_max, salary_min)
          else (salary_min, salary_max) in
        existing <- db_first (dict_get data "company") (dict_get data "job_title") ;;
        match existing with
        | Some existing =>
            shown_min <- pure (format_comma (Models.salary_min existing)) ;;
            shown_max <- pure (format_comma (Models.salary_max existing)) ;;
            aret (add_skipped t (SkipExists (dict_get data "job_title")
                            (dict_get data "company") shown_min shown_max))
        | None => save_row data salary_min salary_max url t
        end
  else
    aret (add_error t (ErrFetch (PyStr.take 50 url))).

Fixpoint mine (urls : list string) (t : tally) : R tally :=
  match urls with
  | [] => aret t
  | url :: rest => t <- mine_one url t ;; mine rest t
  end.

(** The reply after a commit that went through. *)
Definition report (t : tally) : crawl_reply :=
  if (Nat.eqb (saved_count t) 0
      && match skipped_html t with [] => true | _ => false end
      && match errors_html t with [] => true | _ => false end)%bool
  then NoData
  else AgentReport t.

(** [not s or not s.strip()] for a form field. *)
Definition blank (field : option string) : bool :=
  match field with
  | None => true
  | Some s => (negb (PyStr.nonempty s) || negb (PyStr.nonempty (PyStr.strip s)))%bool
  end.

Definition run_bulk_crawl : R crawl_reply :=
  user <- session "user" ;;
  if negb (truthy_value user) then aret Forbidden else
  board_url <- form "company_url" ;;
  keyword <- form "role_keyword" ;;
  if blank board_url then aret UrlRequired else
  if blank keyword then aret KeywordRequired else
  let board_url := default EmptyString board_url in
  let keyword := default EmptyString keyword in
  if negb (PyStr.starts_with "http://" board_url
           || PyStr.starts_with "https://" board_url) then aret InvalidUrl else
  atry
    (urls <- lift (discover_job_links (PyStr.strip board_url)
                     (PStr (PyStr.strip keyword))) ;;
     match urls with
     | [] => aret NoMatchingJobs
     | _ :: _ =>
         t <- mine (List.firstn 4 urls) tally0 ;;
         atry
           (db_commit ;;; aret (report t))
           (fun e =>
              db_rollback ;;;
              aprint (LogCommitFailed e) ;;;
              aret (CommitFailed e))
     end)
    (fun e => aprint (LogWorkflowFailed e) ;;; aret (ScrapingFailed e)).

End WithWorld.
End App.

(** ** Vocabulary for the runs of the route *)

Section CrawlVocabulary.

(** Projections of a trace of the route. *)
Definition services (tr : list app_event) : list event :=
  omap (fun ev => match ev with Service e => Some e | _ => None end) tr.

Definition adds (tr : list app_event) : list Models.CompData :=
  omap (fun ev => match ev with DbAdd row => Some row | _ => None end) tr.

Definition lookups (tr : list app_event) : list (pyval * pyval) :=
  omap (fun ev => match ev with DbFirst c t => Some (c, t) | _ => None end) tr.

Definition commits (tr : list app_event) : nat :=
  length (omap (fun ev => match ev with DbCommit => Some tt | _ => None end) tr).

Definition rollbacks (tr : list app_event) : nat :=
  length (omap (fun ev => match ev with DbRollback => Some tt | _ => None end) tr).

(** A row with a name for the company and for the role, and with numbers
    for its salary range that pass the two tests of the route as Python
    evaluates them: the upper one is not [<= 0], and the lower one is not
    [>] the upper one.  A NaN passes both. *)
Definition valid_row (row : Models.CompData) : Prop :=
  exists lo hi : pyfloat,
    App.as_number (Models.salary_min row) = Some lo
    /\ App.as_number (Models.salary_max row) = Some hi
    /\ App.num_le hi (FNum 0) = false
    /\ App.num_gt lo hi = false
    /\ App.truthy_value (Models.company_name row) = true
    /\ App.truthy_value (Models.role_title row) = true.

(** What the tests come to for finite bounds: a positive upper bound that
    is not below the lower one. *)
Definition finite_range_ordered (row : Models.CompData) : Prop :=
  forall lo hi : Q,
    App.as_number (Models.salary_min row) = Some (FNum lo) ->
    App.as_number (Models.salary_max row) = Some (FNum hi) ->
    (0 < hi)%Q /\ (lo <= hi)%Q.

(** The replies of the route to a request it does not act on. *)
Definition refusal (r : crawl_reply) : Prop :=
  r = Forbidden \/ r = UrlRequired \/ r = KeywordRequired \/ r = InvalidUrl.

(** A request the route acts on: a user is signed in, neither field of the
    form is missing or blank, and the URL as typed, before any stripping,
    starts with the scheme. *)
Definition accepted {W : Type} {HA : WebApp W} (w : W) : bool :=
  (App.truthy_value (session_get "user" w)
   && negb (App.blank (form_get "company_url" w))
   && negb (App.blank (form_get "role_keyword" w))
   && (PyStr.starts_with "http://" (default EmptyString (form_get "company_url" w))
       || PyStr.starts_with "https://"
            (default EmptyString (form_get "company_url" w))))%bool.

(** The reply of the route to a request it does not act on, by the first
    of its four guards that fails. *)
Definition refusal_of {W : Type} {HA : WebApp W} (w : W) : option crawl_reply :=
  if negb (App.truthy_value (session_get "user" w)) then Some Forbidden
  else if App.blank (form_get "company_url" w) then Some UrlRequired
  else if App.blank (form_get "role_keyword" w) then Some KeywordRequired
  else if negb (PyStr.starts_with "http://"
                  (default EmptyString (form_get "company_url" w))
                || PyStr.starts_with "https://"
                     (default EmptyString (form_get "company_url" w)))
  then Some InvalidUrl
  else None.


(** The fragments of a report. *)
Definition items (t : tally) : nat :=
  (length (results_html t) + length (skipped_html t)
   + length (errors_html t))%nat.

(** Every page the loop went through shows once in the report: as a saved
    row, as a skipped page or as an error; and the count of saved rows is
    the number of rows shown. *)
Definition accounted (t : tally) : Prop :=
  processed_count t = items t /\ saved_count t = length (results_html t).

End CrawlVocabulary.

(** ** A scripted clock

    The clock of the examples counts the requests made so far, in seconds,
    and the examples round to whole differences. *)
Definition mock_clock : Clock mock_world := {|
  time_time w := (inject_Z (Z.of_nat (http_calls w)), w)
|}.

Definition seconds_between (start stop : Q) : Q := (stop - start)%Q.

(** The log of a successful diagnosis of the careers page. *)
Definition careers_log : debug_log := {|
  steps := [StepRouting (ScraperService.jina careers_url);
            StepResponse 200 (seconds_between 0 1);
            StepReceived 9];
  preview := "# Careers...";
  success := true
|}.

(** ** A scripted site

    A session with [user] signed in, a form with the two fields of the
    crawl, and a database that holds no row and accepts every call. *)
Definition mock_webapp (user : pyval) (company_url role_keyword : option string)
    : WebApp mock_world := {|
  session_get key _ := if String.eqb key "user" then user else PNone;
  form_get key _ :=
    if String.eqb key "company_url" then company_url
    else if String.eqb key "role_keyword" then role_keyword
    else None;
  query_first _ _ w := (Ret None, w);
  session_add _ w := (Ret tt, w);
  session_commit w := (Ret tt, w);
  session_rollback w := (Ret tt, w)
|}.

(** A crawl of the analyst board, typed with blanks around both fields. *)
Definition analyst_site : WebApp mock_world :=
  mock_webapp (PStr "ann@acme.com") (Some (careers_url +:+ " "))
    (Some " analyst ").




(** A model that names the title of the posting and then describes it with
    a NaN for the upper bound, which [json.loads] accepts. *)
Definition nan_salary_reply : string :=
  "{" +:+ PyStr.dq +:+ "job_title" +:+ PyStr.dq +:+ ": "
  +:+ PyStr.dq +:+ "Data Analyst" +:+ PyStr.dq +:+ ", "
  +:+ PyStr.dq +:+ "company" +:+ PyStr.dq +:+ ": " +:+ PyStr.dq +:+ "Acme" +:+ PyStr.dq +:+ ", "
  +:+ PyStr.dq +:+ "min" +:+ PyStr.dq +:+ ": 90000, "
  +:+ PyStr.dq +:+ "max" +:+ PyStr.dq +:+ ": NaN}".

Definition nan_salary_record : gmap string pyval :=
  <["job_title" := PStr "Data Analyst"]> (<["company" := PStr "Acme"]>
    (<["min" := PInt 90000]> (<["max" := PFloat FNaN]> ∅))).

Definition nan_salary_board : External mock_world :=
  mock_external (mock_board careers_url ("[Data Analyst](" +:+ analyst_url +:+ ")")
                   (fun n => if (n =? 0)%nat then Ret (PStr "Data Analyst")
                             else Ret (PStr nan_salary_reply))).



(** A keyword and a title with a letter past ASCII: E with acute, capital
    U+00C9 in the keyword and small U+00E9 in the title. *)
Definition ingenieur_keyword : string :=
  "ING" +:+ String (ascii_of_nat 201) "NIEUR".

Definition ingenieur_title : string :=
  "Ing" +:+ String (ascii_of_nat 233) "nieur logiciel".

Definition ingenieur_board : External mock_world :=
  mock_external (mock_board careers_url ("[Postuler](" +:+ analyst_url +:+ ")")
                   (fun _ => Ret (PStr ingenieur_title))).

(** A no-break space U+00A0 and a next-line control U+0085. *)
Definition nbsp : string := String (ascii_of_nat 160) EmptyString.
Definition nel : string := String (ascii_of_nat 133) EmptyString.

(** * The embedding on concrete inputs *)

Module Examples.
Import ScraperService.

(** The pattern finds the job link; the mailto link does not start with
    [http] and is no match at all. *)
Example findall_acme_page :
  findall_links acme_page = [(apply_text, apply_url)].
Proof. reflexivity. Qed.

(** A match swallows what it covers: the run after [(http] goes on to the
    first closing parenthesis. *)
Example findall_swallows :
  findall_links "[ab](http://x[Apply now](https://jobs.lever.co/acme/1)"
  = [("ab", "http://x[Apply now](https://jobs.lever.co/acme/1")].
Proof. reflexivity. Qed.

Example findall_needs_a_url_tail :
  findall_links "[[x](http)[y](httpz)" = [("y", "httpz")].
Proof. reflexivity. Qed.

Example candidates_skip_short_and_linkedin :
  candidates_of
    ("[Go](https://jobs.lever.co/acme/1) [Apply on LinkedIn](https://www.linkedin.com/jobs/1)"
     +:+ " [Apply now](https://jobs.lever.co/acme/1) [About us](https://acme.com/about)"
     +:+ " [Apply again](https://jobs.lever.co/acme/1)")
  = [mkCandidate "Apply now" "https://jobs.lever.co/acme/1"].
Proof. vm_compute. reflexivity. Qed.

Example sub_title_prefix_once :
  sub_title_prefix "title:  Job title: Backend Engineer" = "Job title: Backend Engineer".
Proof. reflexivity. Qed.

Example fetch_three_times_429 :
  fetch_page_content (H := mock_external (mock_status 429 "slow down")) apply_url 3 w0
  = (Ret None, {| http_calls := 3; llm_calls := 0 |},
     [EvGet (jina apply_url) [("User-Agent", user_agent)] 25;
      EvPrint (LogRateLimitWait 2 1 3); EvSleep 2;
      EvGet (jina apply_url) [("User-Agent", user_agent)] 25;
      EvPrint (LogRateLimitWait 4 2 3); EvSleep 4;
      EvGet (jina apply_url) [("User-Agent", user_agent)] 25;
      EvPrint (LogRateLimitExceeded 3)]).
Proof. vm_compute. reflexivity. Qed.

Example fetch_flaky_reader :
  fetch_page_content (H := mock_external mock_flaky) careers_url 3 w0
  = (Ret (Some "# Careers"), {| http_calls := 3; llm_calls := 0 |},
     let hs := [("Authorization", "Bearer jina-test"); ("User-Agent", user_agent)] in
     [EvGet (jina careers_url) hs 25;
      EvPrint (LogFetchRetry 1 3 (OtherError "ConnectionError") 1); EvSleep 1;
      EvGet (jina careers_url) hs 25;
      EvPrint (LogFetchRetry 2 3 (OtherError "ConnectionError") 2); EvSleep 2;
      EvGet (jina careers_url) hs 25]).
Proof. vm_compute. reflexivity. Qed.

Example discover_acme :
  fst (fst (discover_job_links (H := acme) careers_url (PStr "Engineer") w0))
  = Ret [apply_url].
Proof. vm_compute. reflexivity. Qed.

(** The case mapping and the white space past ASCII. *)
Example lower_past_ascii :
  PyStr.lower ingenieur_keyword = "ing" +:+ String (ascii_of_nat 233) "nieur"
  /\ PyStr.lower (String (ascii_of_nat 215) EmptyString)
     = String (ascii_of_nat 215) EmptyString
  /\ title_matches (PyStr.lower ingenieur_keyword) (PyStr.lower ingenieur_title)
     = true.
Proof. split; [|split]; reflexivity. Qed.

Example strip_past_ascii :
  PyStr.strip (nbsp +:+ careers_url +:+ nel) = careers_url
  /\ App.blank (Some (nbsp +:+ nel)) = true.
Proof. split; reflexivity. Qed.

Example discover_ingenieur :
  fst (fst (discover_job_links (H := ingenieur_board) careers_url
              (PStr ingenieur_keyword) w0))
  = Ret [analyst_url].
Proof. vm_compute. reflexivity. Qed.

(** A NaN for the upper bound is neither [<= 0] nor below the lower bound:
    the route adds the row as it is. *)
Example crawl_saves_nan_salary :
  adds (snd (App.run_bulk_crawl (HE := nan_salary_board) (HA := analyst_site)
               (json_table [(nan_salary_reply, PDict nan_salary_record)]) w0))
  = [{| Models.company_name := PStr "Acme";
        Models.role_title := PStr "Data Analyst";
        Models.salary_min := PInt 90000;
        Models.salary_max := PFloat FNaN;
        Models.source_url := PStr analyst_url |}].
Proof. vm_compute. reflexivity. Qed.

Example discover_acme25 :
  fst (fst (discover_job_links (H := acme25) careers_url (PStr "engineer") w0))
  = Ret (map cand_url (map posting (firstn 20 posting_ids))).
Proof. vm_compute. reflexivity. Qed.

Example parse_title_only :
  fst (fst (AnalysisEngine.parse_job_description_with_ai
              (H := mock_external (mock_reply (Ret (PStr title_only_reply))))
              (json_table known_replies) "We are hiring a Backend Engineer." w0))
  = Ret (<["job_title" := PStr "Backend Engineer"]>
           (<["company" := PStr ""]> (<["min" := PInt 0]> (<["max" := PInt 0]> ∅)))).
Proof. vm_compute. reflexivity. Qed.

End Examples.

(** * Facts about the string operations *)

Module PyStrFacts.
Import PyStr.

Lemma append_nil_l (a : string) : "" +:+ a = a.
Proof. reflexivity. Qed.

Lemma append_cons (x : ascii) (a b : string) :
  String x a +:+ b = String x (a +:+ b).
Proof. reflexivity. Qed.

Lemma append_assoc (a b c : string) : (a +:+ b) +:+ c = a +:+ (b +:+ c).
Proof.
  induction a as [|x a IH]; [reflexivity|].
  rewrite !append_cons. f_equal. exact IH.
Qed.

Lemma append_nil_r (a : string) : a +:+ "" = a.
Proof.
  induction a as [|x a IH]; [reflexivity|].
  rewrite append_cons. f_equal. exact IH.
Qed.

Lemma take_empty (n : nat) : take n "" = "".
Proof. destruct n; reflexivity. Qed.

Lemma drop_prefix_spec (p s r : string) :
  drop_prefix p s = Some r <-> s = p +:+ r.
Proof.
  revert s. induction p as [|a p IH]; intros s; cbn [drop_prefix].
  - rewrite append_nil_l. split; [intros [= ->]; reflexivity | intros ->; reflexivity].
  - rewrite append_cons. destruct s as [|b s]; [split; discriminate|].
    destruct (Ascii.eqb_spec a b) as [->|Hne].
    + rewrite IH. split; [intros ->; reflexivity | intros [= ->]; reflexivity].
    + split; [discriminate | intros [= -> _]; contradiction].
Qed.

Lemma starts_with_spec (p s : string) :
  starts_with p s = true <-> exists r, s = p +:+ r.
Proof.
  unfold starts_with. destruct (drop_prefix p s) as [r|] eqn:Hd.
  - apply drop_prefix_spec in Hd. split; eauto.
  - split; [discriminate|]. intros [r Hr].
    apply drop_prefix_spec in Hr. congruence.
Qed.

Lemma contains_unfold (needle hay : string) :
  contains needle hay
  = if starts_with needle hay then true
    else match hay with
         | EmptyString => false
         | String _ r => contains needle r
         end.
Proof. destruct hay; reflexivity. Qed.

(** [needle in hay] holds exactly when [needle] occurs in [hay]. *)
Lemma contains_spec (needle hay : string) :
  contains needle hay = true <-> substring needle hay.
Proof.
  unfold substring. split.
  - induction hay as [|c hay IH]; rewrite contains_unfold;
      destruct (starts_with needle _) eqn:Hs.
    + apply starts_with_spec in Hs as [r Hr]. exists "", r. exact Hr.
    + discriminate.
    + apply starts_with_spec in Hs as [r Hr]. exists "", r. exact Hr.
    + intros Hc. destruct (IH Hc) as (pre & post & ->).
      exists (String c pre), post. reflexivity.
  - intros (pre & post & ->).
    induction pre as [|c pre IH]; rewrite contains_unfold.
    + assert (starts_with needle ("" +:+ needle +:+ post) = true) as ->
        by (apply starts_with_spec; eauto).
      reflexivity.
    + destruct (starts_with needle _); [reflexivity | exact IH].
Qed.

Lemma contains_false (needle hay : string) :
  contains needle hay = false <-> ~ substring needle hay.
Proof.
  rewrite <- contains_spec. destruct (contains needle hay); split; intro Hc;
    congruence.
Qed.

End PyStrFacts.

(** * Facts about traces *)

Module TraceFacts.

Lemma gets_app (a b : list event) : gets (a ++ b) = gets a ++ gets b.
Proof. apply omap_app. Qed.

Lemma invokes_app (a b : list event) : invokes (a ++ b) = invokes a ++ invokes b.
Proof. apply omap_app. Qed.

Lemma sleeps_app (a b : list event) : sleeps (a ++ b) = sleeps a ++ sleeps b.
Proof. apply omap_app. Qed.

Lemma gets_print (l : log_line) (t : list event) : gets (EvPrint l :: t) = gets t.
Proof. reflexivity. Qed.

Lemma invokes_print (l : log_line) (t : list event) :
  invokes (EvPrint l :: t) = invokes t.
Proof. reflexivity. Qed.

Lemma gets_invoke (k p : string) (t : list event) :
  gets (EvInvoke k p :: t) = gets t.
Proof. reflexivity. Qed.

Lemma invokes_invoke (k p : string) (t : list event) :
  invokes (EvInvoke k p :: t) = p :: invokes t.
Proof. reflexivity. Qed.

Lemma gets_prints (l : list log_line) : gets (map EvPrint l) = [].
Proof. induction l as [|p l IH]; [reflexivity | exact IH]. Qed.

Lemma invokes_prints (l : list log_line) : invokes (map EvPrint l) = [].
Proof. induction l as [|p l IH]; [reflexivity | exact IH]. Qed.

End TraceFacts.

Create Rewrite HintDb trace.
#[global] Hint Rewrite TraceFacts.gets_app TraceFacts.invokes_app
  TraceFacts.gets_print TraceFacts.invokes_print TraceFacts.gets_invoke
  TraceFacts.invokes_invoke TraceFacts.gets_prints TraceFacts.invokes_prints
  @app_nil_r : trace.

(** * Properties of [fetch_page_content] *)

Module FetchFacts.
Import ScraperService.
Section WithWorld.
Context {W : Type} `{External W}.
Implicit Types (url jina_url : string) (headers : list (string * string)).
Implicit Types (retry_count attempt : Z) (w : W).

(** *** One pass through the loop body, by what the request does *)

Lemma fetch_attempt_200 jina_url headers retry_count attempt w r w1 :
  requests_get jina_url headers 25 w = (Ret r, w1) ->
  status_code r = 200 ->
  fetch_attempt jina_url headers retry_count attempt w
  = (Ret (Return (Some (PyStr.take (Z.to_nat 20000) (text r)))), w1,
     [EvGet jina_url headers 25]).
Proof.
  intros Hget Hst.
  unfold fetch_attempt, try_except, bind, http_get.
  rewrite Hget, Hst. reflexivity.
Qed.

Lemma fetch_attempt_429 jina_url headers retry_count attempt w r w1 :
  requests_get jina_url headers 25 w = (Ret r, w1) ->
  status_code r = 429 ->
  fetch_attempt jina_url headers retry_count attempt w
  = if attempt <? retry_count - 1 then
      (Ret Continue, time_sleep (inject_Z (2 ^ attempt * 2)) w1,
       [EvGet jina_url headers 25;
        EvPrint (LogRateLimitWait (2 ^ attempt * 2) (attempt + 1) retry_count);
        EvSleep (inject_Z (2 ^ attempt * 2))])
    else
      (Ret (Return None), w1,
       [EvGet jina_url headers 25; EvPrint (LogRateLimitExceeded retry_count)]).
Proof.
  intros Hget Hst.
  unfold fetch_attempt, try_except, bind, http_get.
  rewrite Hget, Hst. cbn [Z.eqb Pos.eqb].
  destruct (attempt <? retry_count - 1); reflexivity.
Qed.

Lemma fetch_attempt_bad_status jina_url headers retry_count attempt w r w1 :
  requests_get jina_url headers 25 w = (Ret r, w1) ->
  status_code r <> 200 -> status_code r <> 429 ->
  fetch_attempt jina_url headers retry_count attempt w
  = (Ret (Return None), w1,
     [EvGet jina_url headers 25; EvPrint (LogJinaError (status_code r))]).
Proof.
  intros Hget H200 H429.
  unfold fetch_attempt, try_except, bind, http_get.
  rewrite Hget.
  destruct (Z.eqb_spec (status_code r) 200) as [?|_]; [contradiction|].
  destruct (Z.eqb_spec (status_code r) 429) as [?|_]; [contradiction|].
  reflexivity.
Qed.

Lemma fetch_attempt_exception jina_url headers retry_count attempt w e w1 :
  requests_get jina_url headers 25 w = (Raise e, w1) ->
  fetch_attempt jina_url headers retry_count attempt w
  = if attempt <? retry_count - 1 then
      (Ret Continue, time_sleep (inject_Z (2 ^ attempt * 1)) w1,
       [EvGet jina_url headers 25;
        EvPrint (LogFetchRetry (attempt + 1) retry_count e (2 ^ attempt * 1));
        EvSleep (inject_Z (2 ^ attempt * 1))])
    else
      (Ret (Return None), w1,
       [EvGet jina_url headers 25; EvPrint (LogFetchError e)]).
Proof.
  intros Hget.
  unfold fetch_attempt, try_except, bind, http_get.
  rewrite Hget.
  destruct (attempt <? retry_count - 1); reflexivity.
Qed.

(** The loop body never raises; it makes one request, to [jina_url], and
    does not call the model. *)
Lemma fetch_attempt_returns jina_url headers retry_count attempt w :
  exists c w1 tr,
    fetch_attempt jina_url headers retry_count attempt w = (Ret c, w1, tr)
    /\ gets tr = [jina_url] /\ invokes tr = [].
Proof.
  destruct (requests_get jina_url headers 25 w) as [[r|e] w1] eqn:Hget.
  - destruct (Z.eq_dec (status_code r) 200) as [H200|H200].
    { rewrite (fetch_attempt_200 _ _ _ _ _ _ _ Hget H200).
      eexists _, _, _. repeat split. }
    destruct (Z.eq_dec (status_code r) 429) as [H429|H429].
    { rewrite (fetch_attempt_429 _ _ _ _ _ _ _ Hget H429).
      destruct (attempt <? retry_count - 1); eexists _, _, _; repeat split. }
    rewrite (fetch_attempt_bad_status _ _ _ _ _ _ _ Hget H200 H429).
    eexists _, _, _. repeat split.
  - rewrite (fetch_attempt_exception _ _ _ _ _ _ _ Hget).
    destruct (attempt <? retry_count - 1); eexists _, _, _; repeat split.
Qed.

Lemma fetch_loop_cons jina_url headers retry_count attempt rest w :
  fetch_loop jina_url headers retry_count (attempt :: rest) w
  = match fetch_attempt jina_url headers retry_count attempt w with
    | (Ret Continue, w1, t1) =>
        let '(r, w2, t2) := fetch_loop jina_url headers retry_count rest w1 in
        (r, w2, t1 ++ t2)
    | (Ret (Return v), w1, t1) => (Ret v, w1, t1 ++ [])
    | (Raise e, w1, t1) => (Raise e, w1, t1)
    end.
Proof.
  cbn [fetch_loop]. unfold bind at 1.
  destruct (fetch_attempt _ _ _ _ _) as [[[[|v]|e] w1] t1]; reflexivity.
Qed.

Lemma fetch_page_content_unfold url retry_count w :
  fetch_page_content url retry_count w
  = fetch_loop (jina url) (headers_for (os_getenv "JINA_API_KEY" w))
      retry_count (py_range retry_count) w.
Proof.
  unfold fetch_page_content, bind, getenv.
  destruct (fetch_loop _ _ _ _ w) as [[r w2] t2]. reflexivity.
Qed.

(** [fetch_page_content] is total: it returns, it never raises, all its
    requests go to the reader URL of the page and it does not call the
    model. *)
Lemma fetch_loop_returns jina_url headers retry_count attempts w :
  exists v w1 tr,
    fetch_loop jina_url headers retry_count attempts w = (Ret v, w1, tr)
    /\ Forall (fun u => u = jina_url) (gets tr) /\ invokes tr = [].
Proof.
  revert w. induction attempts as [|attempt rest IH]; intros w.
  - exists None, w, []. split; [reflexivity|]. split; [constructor | reflexivity].
  - rewrite fetch_loop_cons.
    destruct (fetch_attempt_returns jina_url headers retry_count attempt w)
      as (c & w1 & t1 & -> & Hg & Hi).
    destruct c as [|v].
    + destruct (IH w1) as (v & w2 & t2 & -> & Hall & Hi2).
      exists v, w2, (t1 ++ t2). split; [reflexivity|].
      unfold gets, invokes in *. rewrite !omap_app, Hg, Hi, Hi2.
      split; [constructor; [reflexivity | exact Hall] | reflexivity].
    + exists v, w1, (t1 ++ []). split; [reflexivity|].
      rewrite app_nil_r, Hg, Hi. split; [repeat constructor | reflexivity].
Qed.

Lemma fetch_page_content_returns url retry_count w :
  exists v w1 tr,
    fetch_page_content url retry_count w = (Ret v, w1, tr)
    /\ Forall (fun u => u = jina url) (gets tr) /\ invokes tr = [].
Proof. rewrite fetch_page_content_unfold. apply fetch_loop_returns. Qed.

(** *** Rate limiting *)

Lemma backoff_sorted (c : Z) (a n : nat) :
  0 < c ->
  Sorted Qlt (map (fun k => inject_Z (2 ^ k * c)) (map Z.of_nat (seq a n))).
Proof.
  intros Hc. revert a. induction n as [|n IH]; intros a; cbn [seq map].
  - constructor.
  - constructor; [apply IH|].
    destruct n as [|n]; cbn [seq map]; constructor.
    rewrite <- Zlt_Qlt.
    replace (Z.of_nat (S a)) with (Z.succ (Z.of_nat a)) by lia.
    rewrite Z.pow_succ_r by lia.
    assert (0 < 2 ^ Z.of_nat a) by (apply Z.pow_pos_nonneg; lia). nia.
Qed.

Lemma backoff_strictly_increasing (c : Z) (a n : nat) :
  0 < c ->
  StronglySorted Qlt (map (fun k => inject_Z (2 ^ k * c)) (map Z.of_nat (seq a n))).
Proof.
  intros Hc. apply Sorted_StronglySorted; [|apply backoff_sorted; exact Hc].
  intros x y z. apply Qlt_trans.
Qed.

(** The loop from attempt [a] on, when the reader always answers 429. *)
Lemma fetch_loop_429 jina_url headers retry_count (n a : nat) w :
  always_status 429 ->
  Z.of_nat (a + n) = retry_count ->
  exists w1 tr,
    fetch_loop jina_url headers retry_count (map Z.of_nat (seq a n)) w
    = (Ret None, w1, tr)
    /\ gets tr = repeat jina_url n
    /\ sleeps tr = map backoff_429 (map Z.of_nat (seq a (n - 1))).
Proof.
  intros Hall. revert a w. induction n as [|n IH]; intros a w Hrc.
  - exists w, []. repeat split.
  - cbn [seq map]. rewrite fetch_loop_cons.
    destruct (Hall jina_url headers 25 w) as (body & w1 & Hget).
    rewrite (fetch_attempt_429 _ _ retry_count (Z.of_nat a) _ _ _ Hget eq_refl).
    destruct (Z.ltb_spec (Z.of_nat a) (retry_count - 1)) as [Hlt|Hge].
    + destruct (IH (S a) (time_sleep (inject_Z (2 ^ Z.of_nat a * 2)) w1))
        as (w2 & t2 & -> & Hg & Hs); [lia|].
      eexists _, _. split; [reflexivity|].
      unfold gets, sleeps in *. rewrite !omap_app, Hg, Hs. cbn.
      split; [reflexivity|].
      destruct n as [|n]; [lia|]. cbn [Nat.sub]. rewrite Nat.sub_0_r.
      reflexivity.
    + assert (n = 0)%nat as -> by lia.
      eexists _, _. split; [reflexivity|]. split; reflexivity.
Qed.

(** The loop from attempt [a] on, when every request raises. *)
Lemma fetch_loop_raises jina_url headers retry_count (n a : nat) w :
  always_raises ->
  Z.of_nat (a + n) = retry_count ->
  exists w1 tr,
    fetch_loop jina_url headers retry_count (map Z.of_nat (seq a n)) w
    = (Ret None, w1, tr)
    /\ gets tr = repeat jina_url n
    /\ sleeps tr = map backoff_exn (map Z.of_nat (seq a (n - 1))).
Proof.
  intros Hall. revert a w. induction n as [|n IH]; intros a w Hrc.
  - exists w, []. repeat split.
  - cbn [seq map]. rewrite fetch_loop_cons.
    destruct (Hall jina_url headers 25 w) as (e & w1 & Hget).
    rewrite (fetch_attempt_exception _ _ retry_count (Z.of_nat a) _ _ _ Hget).
    destruct (Z.ltb_spec (Z.of_nat a) (retry_count - 1)) as [Hlt|Hge].
    + destruct (IH (S a) (time_sleep (inject_Z (2 ^ Z.of_nat a * 1)) w1))
        as (w2 & t2 & -> & Hg & Hs); [lia|].
      eexists _, _. split; [reflexivity|].
      unfold gets, sleeps in *. rewrite !omap_app, Hg, Hs. cbn.
      split; [reflexivity|].
      destruct n as [|n]; [lia|]. cbn [Nat.sub]. rewrite Nat.sub_0_r.
      reflexivity.
    + assert (n = 0)%nat as -> by lia.
      eexists _, _. split; [reflexivity|]. split; reflexivity.
Qed.

(** C3.  When the reader answers every request with 429,
    [fetch_page_content url retry_count] makes exactly [retry_count]
    requests, sleeps [2^attempt * 2] seconds after each attempt but the
    last (2, 4, 8, ... seconds, strictly increasing) and returns [None]. *)
Theorem fetch_rate_limited_exhausts_retries url retry_count w :
  1 <= retry_count ->
  always_status 429 ->
  exists w1 tr,
    fetch_page_content url retry_count w = (Ret None, w1, tr)
    /\ gets tr = repeat (jina url) (Z.to_nat retry_count)
    /\ sleeps tr = map backoff_429 (py_range (retry_count - 1))
    /\ StronglySorted Qlt (sleeps tr).
Proof.
  intros Hrc Hall. rewrite fetch_page_content_unfold. unfold py_range.
  destruct (fetch_loop_429 (jina url) (headers_for (os_getenv "JINA_API_KEY" w))
              retry_count (Z.to_nat retry_count) 0 w Hall)
    as (w1 & tr & Hrun & Hg & Hs); [lia|].
  exists w1, tr. split; [exact Hrun|]. split; [exact Hg|].
  replace (Z.to_nat (retry_count - 1)) with (Z.to_nat retry_count - 1)%nat by lia.
  split; [exact Hs|]. rewrite Hs.
  apply (backoff_strictly_increasing 2); lia.
Qed.

(** The same run with transport failures in place of 429 answers: the
    waits are [2^attempt * 1] seconds. *)
Lemma fetch_transport_failures_exhaust_retries url retry_count w :
  1 <= retry_count ->
  always_raises ->
  exists w1 tr,
    fetch_page_content url retry_count w = (Ret None, w1, tr)
    /\ gets tr = repeat (jina url) (Z.to_nat retry_count)
    /\ sleeps tr = map backoff_exn (py_range (retry_count - 1)).
Proof.
  intros Hrc Hall. rewrite fetch_page_content_unfold. unfold py_range.
  destruct (fetch_loop_raises (jina url) (headers_for (os_getenv "JINA_API_KEY" w))
              retry_count (Z.to_nat retry_count) 0 w Hall)
    as (w1 & tr & Hrun & Hg & Hs); [lia|].
  exists w1, tr. split; [exact Hrun|]. split; [exact Hg|].
  replace (Z.to_nat (retry_count - 1)) with (Z.to_nat retry_count - 1)%nat by lia.
  exact Hs.
Qed.

(** *** Failing fast *)

Lemma py_range_3 : py_range 3 = [0; 1; 2].
Proof. reflexivity. Qed.

Lemma py_range_nonpositive retry_count : retry_count <= 0 -> py_range retry_count = [].
Proof.
  intros Hle. unfold py_range.
  replace (Z.to_nat retry_count) with 0%nat by lia. reflexivity.
Qed.

Lemma py_range_positive retry_count :
  1 <= retry_count -> exists rest, py_range retry_count = 0 :: rest.
Proof.
  intros Hle. unfold py_range.
  destruct (Z.to_nat retry_count) as [|n] eqn:Hn; [lia|].
  cbn [seq map]. eauto.
Qed.


(** C10.  [fetch_page_content] returns for every integer [retry_count],
    and for [retry_count <= 0] it returns [None] with no request made and
    no sleep: the world is untouched and no event is emitted. *)
Theorem fetch_total_over_retry_count url retry_count w :
  (exists v w1 tr, fetch_page_content url retry_count w = (Ret v, w1, tr))
  /\ (retry_count <= 0 ->
      fetch_page_content url retry_count w = (Ret None, w, [])).
Proof.
  split.
  - destruct (fetch_page_content_returns url retry_count w)
      as (v & w1 & tr & Hrun & _). eauto.
  - intros Hle. rewrite fetch_page_content_unfold.
    rewrite (py_range_nonpositive _ Hle). reflexivity.
Qed.

End WithWorld.

(** The theorems at work on scripted services. *)

Lemma fetch_rate_limited_exhausts_retries_witness :
  exists w1 tr,
    fetch_page_content (H := mock_external (mock_status 429 "slow down"))
      "https://boards.greenhouse.io/acme/123" 3 w0 = (Ret None, w1, tr)
    /\ gets tr
       = repeat (ScraperService.jina "https://boards.greenhouse.io/acme/123")
           (Z.to_nat 3)
    /\ sleeps tr = map backoff_429 (ScraperService.py_range (3 - 1))
    /\ StronglySorted Qlt (sleeps tr).
Proof.
  apply (fetch_rate_limited_exhausts_retries
           (H := mock_external (mock_status 429 "slow down"))).
  - lia.
  - intros url headers timeout w. eexists _, _. reflexivity.
Defined.


Lemma fetch_total_over_retry_count_witness :
  fetch_page_content (H := mock_external (mock_status 200 "page"))
    "https://boards.greenhouse.io/acme/123" (-2) w0
  = (Ret None, w0, []).
Proof.
  apply (fetch_total_over_retry_count
           (H := mock_external (mock_status 200 "page"))).
  lia.
Defined.

End FetchFacts.

(** * Properties of the link filter *)

Module CandidateFacts.
Import ScraperService.

Definition link_of (c : candidate) : string * string := (cand_text c, cand_url c).

(** The first kept link of [links] that points to [url]. *)
Definition first_kept (url : string) (links : list (string * string))
    : option (string * string) :=
  List.find (fun l => (kept l && String.eqb (snd l) url)%bool) links.

Lemma collect_candidates_cons txt href rest candidates (seen : gset string) :
  collect_candidates ((txt, href) :: rest) candidates seen
  = if kept (txt, href) then
      if decide (href ∈ seen) then collect_candidates rest candidates seen
      else collect_candidates rest (candidates ++ [mkCandidate txt href])
             ({[href]} ∪ seen)
    else collect_candidates rest candidates seen.
Proof.
  cbn [collect_candidates]. unfold kept. cbn [fst snd].
  destruct (discarded txt href); [reflexivity|].
  destruct (plausible txt href); reflexivity.
Qed.

(** The invariant of the loop [for text, href in matches]: [seen] holds
    the URLs of the candidates collected so far, which are distinct. *)
Lemma collect_candidates_spec links :
  forall candidates (seen : gset string),
    (forall u, u ∈ seen <-> u ∈ map cand_url candidates) ->
    NoDup (map cand_url candidates) ->
    exists added,
      collect_candidates links candidates seen = candidates ++ added
      /\ NoDup (map cand_url (candidates ++ added))
      /\ (map link_of added) `sublist_of` (List.filter kept links)
      /\ (forall c, c ∈ added ->
            (cand_url c ∉ seen)
            /\ first_kept (cand_url c) links = Some (link_of c))
      /\ (forall l, l ∈ links -> kept l = true ->
            snd l ∈ map cand_url (candidates ++ added)).
Proof.
  induction links as [|[txt href] rest IH]; intros candidates seen Hseen Hnd.
  - exists []. rewrite app_nil_r. cbn.
    split; [reflexivity|]. split; [exact Hnd|]. split; [apply sublist_nil|].
    split; intros ? Hin; inversion Hin.
  - rewrite collect_candidates_cons. unfold first_kept. cbn [List.filter List.find snd].
    destruct (kept (txt, href)) eqn:Hk; [destruct (decide (href ∈ seen)) as [Hin|Hnin]|].
    + destruct (IH candidates seen Hseen Hnd)
        as (added & -> & Hnd' & Hsub & Hadded & Hall).
      exists added. split; [reflexivity|]. split; [exact Hnd'|].
      split; [apply sublist_cons; exact Hsub|]. split.
      * intros c Hc. destruct (Hadded c Hc) as [Hfresh Hfirst].
        split; [exact Hfresh|]. cbn [andb].
        destruct (String.eqb_spec href (cand_url c)) as [->|_];
          [contradiction | exact Hfirst].
      * intros l Hl Hkl. apply elem_of_cons in Hl as [->|Hl];
          [|apply Hall; assumption].
        cbn [snd]. rewrite map_app. apply elem_of_app. left.
        apply Hseen. exact Hin.
    + destruct (IH (candidates ++ [mkCandidate txt href]) ({[href]} ∪ seen))
        as (added & Heq & Hnd' & Hsub & Hadded & Hall).
      { intros u. rewrite map_app, elem_of_app, elem_of_union, elem_of_singleton.
        cbn. rewrite list_elem_of_singleton, Hseen. tauto. }
      { rewrite map_app. apply NoDup_app. split; [exact Hnd|]. split.
        - intros u Hu. cbn. rewrite list_elem_of_singleton. intros ->.
          apply Hnin, Hseen, Hu.
        - cbn. apply NoDup_singleton. }
      exists (mkCandidate txt href :: added).
      rewrite Heq, <- !app_assoc. cbn [app] in *.
      split; [reflexivity|]. split; [rewrite <- app_assoc in Hnd'; exact Hnd'|].
      split; [cbn; apply sublist_skip; exact Hsub|]. split.
      * intros c Hc. apply elem_of_cons in Hc as [->|Hc].
        { cbn [cand_url andb]. rewrite String.eqb_refl.
          split; [exact Hnin | reflexivity]. }
        destruct (Hadded c Hc) as [Hfresh Hfirst].
        rewrite elem_of_union, elem_of_singleton in Hfresh.
        split; [tauto|]. cbn [andb].
        destruct (String.eqb_spec href (cand_url c)) as [->|_];
          [tauto | exact Hfirst].
      * intros l Hl Hkl. apply elem_of_cons in Hl as [->|Hl].
        { cbn [snd]. rewrite map_app. apply elem_of_app. right. cbn. left. }
        rewrite <- app_assoc in Hall. apply Hall; assumption.
    + destruct (IH candidates seen Hseen Hnd)
        as (added & -> & Hnd' & Hsub & Hadded & Hall).
      exists added. split; [reflexivity|]. split; [exact Hnd'|].
      split; [exact Hsub|]. split.
      * intros c Hc. destruct (Hadded c Hc) as [Hfresh Hfirst].
        split; [exact Hfresh | exact Hfirst].
      * intros l Hl Hkl. apply elem_of_cons in Hl as [->|Hl];
          [congruence | apply Hall; assumption].
Qed.

Lemma discarded_false txt href :
  discarded txt href = false ->
  (4 <= String.length txt)%nat
  /\ ~ substring "mailto" href /\ ~ substring "linkedin" href.
Proof.
  unfold discarded. intros Hd.
  apply orb_false_elim in Hd as [Hd Hl]. apply orb_false_elim in Hd as [Hlen Hm].
  apply Nat.ltb_ge in Hlen.
  apply PyStrFacts.contains_false in Hm, Hl. auto.
Qed.

Lemma first_kept_some url links l :
  first_kept url links = Some l -> l ∈ links /\ kept l = true /\ snd l = url.
Proof.
  unfold first_kept. intros Hf. apply List.find_some in Hf as [Hin Hb].
  apply andb_prop in Hb as [Hk He]. apply String.eqb_eq in He.
  rewrite list_elem_of_In. auto.
Qed.

(** What [discover_job_links] keeps of the links of a page: distinct URLs,
    in the order of the page, each with the text of its first kept
    occurrence, none of them discarded, and every kept URL is there. *)
Lemma candidates_of_spec md :
  NoDup (map cand_url (candidates_of md))
  /\ (map link_of (candidates_of md)) `sublist_of`
       (List.filter kept (findall_links md))
  /\ (forall c, c ∈ candidates_of md ->
        link_of c ∈ findall_links md
        /\ (4 <= String.length (cand_text c))%nat
        /\ ~ substring "mailto" (cand_url c)
        /\ ~ substring "linkedin" (cand_url c)
        /\ first_kept (cand_url c) (findall_links md) = Some (link_of c))
  /\ (forall l, l ∈ findall_links md -> kept l = true ->
        snd l ∈ map cand_url (candidates_of md)).
Proof.
  unfold candidates_of.
  destruct (collect_candidates_spec (findall_links md) [] ∅)
    as (added & -> & Hnd & Hsub & Hadded & Hall).
  { intros u. cbn. rewrite elem_of_empty, elem_of_nil. tauto. }
  { constructor. }
  cbn [app] in *. split; [exact Hnd|]. split; [exact Hsub|].
  split; [|exact Hall].
  intros c Hc. destruct (Hadded c Hc) as [_ Hfirst].
  destruct (first_kept_some _ _ _ Hfirst) as (Hin & Hk & _).
  unfold kept in Hk. apply andb_prop in Hk as [Hd _].
  apply negb_true_iff in Hd. cbn [link_of fst snd] in Hd.
  destruct (discarded_false _ _ Hd) as (Hlen & Hm & Hl). auto.
Qed.

Lemma candidates_of_empty : candidates_of "" = [].
Proof. reflexivity. Qed.

(** *** Scanning for links *)





End CandidateFacts.

(** * Properties of the title check and of [discover_job_links] *)

Module DiscoverFacts.
Import ScraperService.
Section WithWorld.
Context {W : Type} `{External W}.

Implicit Types (url board_url : string) (w : W) (tr : list event).
Implicit Types (c : candidate) (cands : list candidate).
Implicit Types (matched_urls : list string).

(** *** [_extract_job_title_from_page] *)

(** A fetch that comes back empty-handed makes the title [None]. *)
Lemma extract_falsy_fetch url w v w1 tr :
  fetch_page_content url 3 w = (Ret v, w1, tr) ->
  PyStr.truthy v = false ->
  _extract_job_title_from_page url w = (Ret None, w1, tr).
Proof.
  intros Hf Hv. unfold _extract_job_title_from_page, try_except, bind.
  rewrite Hf. destruct v as [[|a content]|]; try discriminate;
    cbn; rewrite app_nil_r; reflexivity.
Qed.

(** The title of a page that was fetched, by what the model call does. *)
Lemma extract_fetched url w content w1 tr :
  fetch_page_content url 3 w = (Ret (Some content), w1, tr) ->
  PyStr.nonempty content = true ->
  _extract_job_title_from_page url w
  = match os_getenv "OPENAI_API_KEY" w1 with
    | Some api_key =>
        if PyStr.nonempty api_key then
          match llm_invoke api_key (title_prompt content) w1 with
          | (Ret (PStr s), w2) =>
              (Ret (Some (PyStr.take 200 (sub_title_prefix
                      (PyStr.strip_char "'"%char
                         (PyStr.strip_char (ascii_of_nat 34) (PyStr.strip s)))))),
               w2, tr ++ [EvInvoke api_key (title_prompt content)])
          | (Ret _, w2) =>
              (Ret None, w2,
               tr ++ [EvInvoke api_key (title_prompt content);
                      EvPrint (LogTitleFailed (PyStr.take 50 url) AttributeError)])
          | (Raise e, w2) =>
              (Ret None, w2,
               tr ++ [EvInvoke api_key (title_prompt content);
                      EvPrint (LogTitleFailed (PyStr.take 50 url) e)])
          end
        else (Ret None, w1, tr)
    | None => (Ret None, w1, tr)
    end.
Proof.
  intros Hf Hc. unfold _extract_job_title_from_page, try_except, bind.
  rewrite Hf, Hc. cbn [negb]. unfold getenv.
  destruct (os_getenv "OPENAI_API_KEY" w1) as [api_key|];
    [|cbn; rewrite app_nil_r; reflexivity].
  destruct (PyStr.nonempty api_key); cbn [negb];
    [|cbn; rewrite app_nil_r; reflexivity].
  unfold invoke.
  destruct (llm_invoke api_key (title_prompt content) w1) as [[v|e] w2].
  - destruct v; cbn; rewrite ?app_nil_r, <- ?app_assoc; reflexivity.
  - cbn. rewrite <- app_assoc. reflexivity.
Qed.

(** A title request that raises makes the title [None]. *)
Lemma extract_title_call_fails url w :
  title_call_fails url w ->
  exists w1 tr, _extract_job_title_from_page url w = (Ret None, w1, tr).
Proof.
  intros (content & w1 & tr & api_key & e & w2 & Hf & Hc & Hk & Hne & Hi).
  rewrite (extract_fetched _ _ _ _ _ Hf Hc), Hk, Hne, Hi. eauto.
Qed.

(** The title check never raises; its requests go to the reader URL of the
    page, it calls the model at most once, and exactly once when it returns
    a title. *)
Lemma extract_returns url w :
  exists t w1 tr,
    _extract_job_title_from_page url w = (Ret t, w1, tr)
    /\ Forall (fun u => u = jina url) (gets tr)
    /\ (length (invokes tr) <= 1)%nat
    /\ (is_Some t -> length (invokes tr) = 1%nat).
Proof.
  destruct (FetchFacts.fetch_page_content_returns url 3 w)
    as (v & w1 & tr & Hf & Hg & Hi).
  assert (Hnone : forall t : option string, t = None ->
            exists t' w' tr',
              (Ret t, w1, tr) = (Ret t', w', tr')
              /\ Forall (fun u => u = jina url) (gets tr')
              /\ (length (invokes tr') <= 1)%nat
              /\ (is_Some t' -> length (invokes tr') = 1%nat)).
  { intros t ->. exists None, w1, tr. rewrite Hi. cbn.
    repeat split; [exact Hg | lia | intros [? [=]]]. }
  destruct (PyStr.truthy v) eqn:Hv.
  - destruct v as [content|]; [|discriminate]. cbn in Hv.
    rewrite (extract_fetched _ _ _ _ _ Hf Hv).
    destruct (os_getenv "OPENAI_API_KEY" w1) as [api_key|]; [|auto].
    destruct (PyStr.nonempty api_key); [|auto].
    assert (Hev : forall l,
              gets (tr ++ EvInvoke api_key (title_prompt content) :: map EvPrint l)
              = gets tr
              /\ length (invokes
                   (tr ++ EvInvoke api_key (title_prompt content) :: map EvPrint l))
                 = 1%nat).
    { intros l. autorewrite with trace. rewrite Hi. split; reflexivity. }
    destruct (llm_invoke api_key (title_prompt content) w1) as [[r|e] w2].
    + destruct r as [| | | |s| |];
        try (eexists _, _, _; split; [reflexivity|];
             destruct (Hev [LogTitleFailed (PyStr.take 50 url) AttributeError])
               as [Hg' Hi']; cbn [map] in Hg', Hi'; rewrite Hg', Hi';
             repeat split; [exact Hg | lia]).
      eexists _, _, _. split; [reflexivity|].
      destruct (Hev []) as [Hg' Hi']; cbn [map] in Hg', Hi'; rewrite Hg', Hi'.
      repeat split; [exact Hg | lia].
    + eexists _, _, _. split; [reflexivity|].
      destruct (Hev [LogTitleFailed (PyStr.take 50 url) e]) as [Hg' Hi'];
        cbn [map] in Hg', Hi'; rewrite Hg', Hi'.
      repeat split; [exact Hg | lia].
  - rewrite (extract_falsy_fetch _ _ _ _ _ Hf Hv). auto.
Qed.

(** *** The loop over the candidates *)

(** The title check of one candidate, by what the title is. *)
Lemma check_candidate_eq role_keyword keyword_lower n i c matched_urls w t w1 tr :
  _extract_job_title_from_page (cand_url c) w = (Ret t, w1, tr) ->
  check_candidate role_keyword keyword_lower n i c matched_urls w
  = let url := cand_url c in
    let checking := EvPrint (LogChecking (i + 1) n (PyStr.take 60 url)) :: tr in
    let no_title :=
      (Ret (Next matched_urls), w1, checking ++ [EvPrint (LogNoTitle (PyStr.take 60 url))]) in
    match t with
    | Some title =>
        if PyStr.nonempty title then
          if title_matches keyword_lower (PyStr.lower title) then
            let found := EvPrint (LogMatched title (length (matched_urls ++ [url]))
                                    max_matches) in
            if (max_matches <=? length (matched_urls ++ [url]))%nat then
              (Ret (Break (matched_urls ++ [url])), w1,
               checking ++ [found; EvPrint (LogStopEarly max_matches)])
            else (Ret (Next (matched_urls ++ [url])), w1, checking ++ [found])
          else
            (Ret (Next matched_urls), w1,
             checking ++ [EvPrint (LogSkipped title role_keyword)])
        else no_title
    | None => no_title
    end.
Proof.
  intros He. unfold check_candidate, bind, print. rewrite He.
  destruct t as [title|]; [|reflexivity].
  destruct (PyStr.nonempty title); [|reflexivity].
  destruct (title_matches keyword_lower (PyStr.lower title)); [|reflexivity].
  cbn zeta.
  destruct (max_matches <=? length (matched_urls ++ [cand_url c]))%nat;
    reflexivity.
Qed.

(** The outcome of the title check of one candidate: it never raises, it
    leaves the matches as they are or appends the URL of the candidate, and
    it breaks only with the cap reached. *)
Lemma check_candidate_returns role_keyword keyword_lower n i c matched_urls w :
  exists s w1 tr,
    check_candidate role_keyword keyword_lower n i c matched_urls w = (Ret s, w1, tr)
    /\ (s = Next matched_urls
        \/ (s = Next (matched_urls ++ [cand_url c])
            /\ (length (matched_urls ++ [cand_url c]) < max_matches)%nat)
        \/ (s = Break (matched_urls ++ [cand_url c])
            /\ (max_matches <= length (matched_urls ++ [cand_url c]))%nat))
    /\ Forall (fun u => u = jina (cand_url c)) (gets tr)
    /\ (length (invokes tr) <= 1)%nat.
Proof.
  destruct (extract_returns (cand_url c) w) as (t & w1 & tr & He & Hg & Hi & _).
  rewrite (check_candidate_eq _ _ _ _ _ _ _ _ _ _ He). cbn zeta.
  assert (Hev : forall l,
            gets (EvPrint (LogChecking (i + 1) n (PyStr.take 60 (cand_url c)))
                    :: tr ++ map EvPrint l) = gets tr
            /\ invokes (EvPrint (LogChecking (i + 1) n (PyStr.take 60 (cand_url c)))
                    :: tr ++ map EvPrint l) = invokes tr).
  { intros l. rewrite app_comm_cons. autorewrite with trace.
    split; reflexivity. }
  assert (Hfin : forall s l,
            (s = Next matched_urls
             \/ (s = Next (matched_urls ++ [cand_url c])
                 /\ (length (matched_urls ++ [cand_url c]) < max_matches)%nat)
             \/ (s = Break (matched_urls ++ [cand_url c])
                 /\ (max_matches <= length (matched_urls ++ [cand_url c]))%nat)) ->
            exists s' w' tr',
              (Ret s, w1,
               (EvPrint (LogChecking (i + 1) n (PyStr.take 60 (cand_url c))) :: tr)
               ++ map EvPrint l) = (Ret s', w', tr')
              /\ (s' = Next matched_urls
                  \/ (s' = Next (matched_urls ++ [cand_url c])
                      /\ (length (matched_urls ++ [cand_url c]) < max_matches)%nat)
                  \/ (s' = Break (matched_urls ++ [cand_url c])
                      /\ (max_matches <= length (matched_urls ++ [cand_url c]))%nat))
              /\ Forall (fun u => u = jina (cand_url c)) (gets tr')
              /\ (length (invokes tr') <= 1)%nat).
  { intros s l Hs. eexists _, _, _. split; [reflexivity|].
    rewrite <- app_comm_cons. destruct (Hev l) as [-> ->]. auto. }
  destruct t as [title|];
    [|apply (Hfin _ [LogNoTitle _]); auto].
  destruct (PyStr.nonempty title);
    [|apply (Hfin _ [LogNoTitle _]); auto].
  destruct (title_matches keyword_lower (PyStr.lower title));
    [|apply (Hfin _ [LogSkipped _ _]); auto].
  destruct (Nat.leb_spec max_matches (length (matched_urls ++ [cand_url c]))).
  - apply (Hfin _ [LogMatched _ _ _; LogStopEarly _]); auto.
  - apply (Hfin _ [LogMatched _ _ _]); auto.
Qed.

(** The pause leaves the world to [time_sleep] alone: no request, no model
    call, no exception. *)
Lemma pace_returns n i w :
  exists tr,
    pace n i w = (Ret tt, snd (fst (pace n i w)), tr)
    /\ gets tr = [] /\ invokes tr = [].
Proof.
  unfold pace, bind, getenv, sleep, print, ret.
  destruct (i <? n - 1)%nat.
  - destruct (negb (PyStr.truthy (os_getenv "JINA_API_KEY" w)) && (i mod 5 =? 0)%nat)%bool;
      eexists; repeat split.
  - eexists; repeat split.
Qed.

(** The pause after the candidate checked in [w]: name the world it leaves
    and its trace. *)
Tactic Notation "run_pace" constr(n) constr(i) constr(w)
    "as" ident(w') ident(t) ident(Hp) ident(Hg) ident(Hi) :=
  destruct (pace_returns n i w) as (t & Hp & Hg & Hi);
  set (w' := snd (fst (pace n i w))) in *;
  rewrite Hp.

(** The pages of the first candidate, or of the later ones, are pages of
    the candidates. *)
Ltac first_page Hg :=
  eapply Forall_impl; [exact Hg|]; intros ? ->; cbn; left.

Ltac later_pages Hg :=
  eapply Forall_impl; [exact Hg|]; intros ? ?; cbn; right; assumption.

Lemma check_candidates_cons role_keyword keyword_lower n i c rest matched_urls w :
  check_candidates role_keyword keyword_lower n i (c :: rest) matched_urls w
  = match check_candidate role_keyword keyword_lower n i c matched_urls w with
    | (Ret (Break urls), w1, t1) => (Ret urls, w1, t1 ++ [])
    | (Ret (Next urls), w1, t1) =>
        let '(_, w2, t2) := pace n i w1 in
        let '(r, w3, t3) :=
          check_candidates role_keyword keyword_lower n (S i) rest urls w2 in
        (r, w3, t1 ++ t2 ++ t3)
    | (Raise e, w1, t1) => (Raise e, w1, t1)
    end.
Proof.
  cbn [check_candidates]. unfold bind at 1.
  destruct (check_candidate _ _ _ _ _ _ _) as [[[[urls|urls]|e] w1] t1];
    try reflexivity.
  unfold bind at 1.
  destruct (pace_returns n i w1) as (t2 & -> & _).
  destruct (check_candidates _ _ _ _ _ _ _) as [[r w3] t3]. reflexivity.
Qed.

(** The loop never raises.  What it adds to the matches is a subsequence
    of the URLs of the candidates, the matches never exceed the cap, and the
    pages it requests are pages of candidates. *)
Lemma check_candidates_returns role_keyword keyword_lower n cands :
  forall i matched_urls w,
  exists picked w1 tr,
    check_candidates role_keyword keyword_lower n i cands matched_urls w
    = (Ret (matched_urls ++ picked), w1, tr)
    /\ picked `sublist_of` map cand_url cands
    /\ ((length matched_urls < max_matches)%nat ->
        (length (matched_urls ++ picked) <= max_matches)%nat)
    /\ Forall (fun u => u ∈ map (fun c => jina (cand_url c)) cands) (gets tr)
    /\ (length (invokes tr) <= length cands)%nat.
Proof.
  induction cands as [|c rest IH]; intros i matched_urls w.
  - exists [], w, []. rewrite app_nil_r. cbn.
    repeat split; [constructor | lia | constructor | lia].
  - rewrite check_candidates_cons.
    destruct (check_candidate_returns role_keyword keyword_lower n i c matched_urls w)
      as (s & w1 & t1 & -> & Hs & Hg1 & Hi1).
    assert (Hg1' : Forall (fun u => u ∈ map (fun c => jina (cand_url c)) (c :: rest))
                     (gets t1)).
    { first_page Hg1. }
    destruct Hs as [-> | [[-> Hlt] | [-> Hge]]].
    + run_pace n i w1 as w2 t2 Hp Hg2 Hi2.
      destruct (IH (S i) matched_urls w2) as (picked & w3 & t3 & -> & Hsub & Hb & Hg3 & Hi3).
      exists picked, w3, (t1 ++ t2 ++ t3). split; [reflexivity|].
      split; [cbn; apply sublist_cons; exact Hsub|].
      split; [exact Hb|].
      autorewrite with trace. rewrite Hg2, Hi2. cbn [app length].
      split; [|rewrite length_app; lia].
      apply Forall_app. split; [exact Hg1'|].
      later_pages Hg3.
    + run_pace n i w1 as w2 t2 Hp Hg2 Hi2.
      destruct (IH (S i) (matched_urls ++ [cand_url c]) w2)
        as (picked & w3 & t3 & -> & Hsub & Hb & Hg3 & Hi3).
      exists (cand_url c :: picked), w3, (t1 ++ t2 ++ t3).
      rewrite <- app_assoc. split; [reflexivity|].
      split; [cbn; apply sublist_skip; exact Hsub|].
      split; [intros _; rewrite <- app_assoc in Hb; apply Hb; exact Hlt|].
      autorewrite with trace. rewrite Hg2, Hi2. cbn [app length].
      split; [|rewrite length_app; lia].
      apply Forall_app. split; [exact Hg1'|].
      later_pages Hg3.
    + exists [cand_url c], w1, (t1 ++ []). split; [reflexivity|].
      split; [cbn; apply sublist_skip, sublist_nil_l|].
      split; [intros Hm; rewrite length_app in *; cbn in *; lia|].
      rewrite app_nil_r. split; [exact Hg1' | cbn; lia].
Qed.

(** *** [discover_job_links] *)

Lemma discover_body_not_fetched board_url role_keyword w v w1 tr :
  fetch_page_content board_url 3 w = (Ret v, w1, tr) ->
  PyStr.truthy v = false ->
  discover_body board_url role_keyword w = (Ret [], w1, tr).
Proof.
  intros Hf Hv. unfold discover_body, bind. rewrite Hf.
  destruct v as [[|a md]|]; try discriminate; cbn; rewrite app_nil_r; reflexivity.
Qed.

(** The [try] block once the board page is there. *)
Lemma discover_body_fetched board_url role_keyword w md w1 tr :
  fetch_page_content board_url 3 w = (Ret (Some md), w1, tr) ->
  PyStr.nonempty md = true ->
  discover_body board_url role_keyword w
  = let cands := candidates_of md in
    let logs := [EvPrint (LogFiltering role_keyword);
                 EvPrint (LogCandidates (length cands))] in
    match cands with
    | [] => (Ret [], w1, tr ++ logs)
    | _ :: _ =>
        match role_keyword with
        | PStr s =>
            let '(r, w2, t2) :=
              check_candidates role_keyword (PyStr.lower s) (length cands) 0
                cands [] w1 in
            match r with
            | Ret urls =>
                (Ret urls, w2,
                 tr ++ logs ++ t2 ++ [EvPrint (LogFound (length urls) role_keyword)])
            | Raise e => (Raise e, w2, tr ++ logs ++ t2)
            end
        | _ => (Raise AttributeError, w1, tr ++ logs)
        end
    end.
Proof.
  intros Hf Hmd. unfold discover_body, bind. rewrite Hf, Hmd. cbn [negb].
  unfold print. cbn zeta.
  destruct (candidates_of md) as [|c cands] eqn:Hc; [reflexivity|].
  destruct role_keyword; try reflexivity.
  cbn [py_lower]. unfold ret at 1.
  destruct (check_candidates _ _ _ _ _ _ _) as [[[urls|e] w2] t2]; cbn;
    rewrite ?app_nil_r; reflexivity.
Qed.

Lemma discover_job_links_eq board_url role_keyword w :
  discover_job_links board_url role_keyword w
  = match discover_body board_url role_keyword w with
    | (Ret urls, w1, tr) => (Ret urls, w1, tr)
    | (Raise e, w1, tr) => (Ret [], w1, tr ++ [EvPrint (LogDiscoveryError e)])
    end.
Proof.
  unfold discover_job_links, try_except.
  destruct (discover_body board_url role_keyword w) as [[[urls|e] w1] tr];
    reflexivity.
Qed.

Lemma discover_job_links_returns board_url role_keyword w :
  exists urls w1 tr, discover_job_links board_url role_keyword w = (Ret urls, w1, tr).
Proof.
  rewrite discover_job_links_eq.
  destruct (discover_body board_url role_keyword w) as [[[urls|e] w1] tr]; eauto.
Qed.

(** A candidate without a title leaves the matches alone and the loop
    goes on with the next candidate after the pause. *)
Lemma check_candidates_skip role_keyword keyword_lower n i c rest matched_urls w w1 t1 :
  _extract_job_title_from_page (cand_url c) w = (Ret None, w1, t1) ->
  exists t2,
    check_candidates role_keyword keyword_lower n i (c :: rest) matched_urls w
    = let '(r, w3, t3) :=
        check_candidates role_keyword keyword_lower n (S i) rest matched_urls
          (snd (fst (pace n i w1))) in
      (r, w3, t2 ++ t3).
Proof.
  intros He. rewrite check_candidates_cons.
  rewrite (check_candidate_eq _ _ _ _ _ _ _ _ _ _ He). cbn zeta.
  run_pace n i w1 as w2 t2 Hp Hg2 Hi2.
  destruct (check_candidates _ _ _ _ _ _ _) as [[r w3] t3].
  eexists. rewrite app_assoc. reflexivity.
Qed.

(** C2.  [discover_job_links] never raises: it always returns a list; an
    exception raised inside its [try] block is logged and turned into the
    empty list; and a candidate whose page cannot be fetched or whose title
    request raises gets no title, matches nothing, and the loop goes on
    with the candidates after it. *)
Theorem discover_never_raises board_url role_keyword w :
  (exists urls w1 tr,
     discover_job_links board_url role_keyword w = (Ret urls, w1, tr))
  /\ (forall e w1 tr,
        discover_body board_url role_keyword w = (Raise e, w1, tr) ->
        discover_job_links board_url role_keyword w
        = (Ret [], w1, tr ++ [EvPrint (LogDiscoveryError e)]))
  /\ (forall keyword_lower n i c rest matched_urls w',
        fetch_fails (cand_url c) w' \/ title_call_fails (cand_url c) w' ->
        exists w1 t1 t2,
          _extract_job_title_from_page (cand_url c) w' = (Ret None, w1, t1)
          /\ check_candidates role_keyword keyword_lower n i (c :: rest)
               matched_urls w'
             = let '(r, w3, t3) :=
                 check_candidates role_keyword keyword_lower n (S i) rest
                   matched_urls (snd (fst (pace n i w1))) in
               (r, w3, t2 ++ t3)).
Proof.
  split; [apply discover_job_links_returns|]. split.
  - intros e w1 tr Hb. rewrite discover_job_links_eq, Hb. reflexivity.
  - intros keyword_lower n i c rest matched_urls w' Hfail.
    assert (exists w1 t1,
              _extract_job_title_from_page (cand_url c) w' = (Ret None, w1, t1))
      as (w1 & t1 & He).
    { destruct Hfail as [(v & w1 & tr & Hf & Hv) | Hcall].
      - exists w1, tr. apply (extract_falsy_fetch _ _ _ _ _ Hf Hv).
      - apply extract_title_call_fails. exact Hcall. }
    destruct (check_candidates_skip role_keyword keyword_lower n i c rest
                matched_urls w' w1 t1 He) as (t2 & Hskip).
    exists w1, t1, t2. split; [exact He | exact Hskip].
Qed.

(** *** What comes back *)

(** Whatever [discover_job_links] returns is a subsequence of the URLs of
    the candidates of the board page, at most [max_matches] of them. *)
Lemma discover_urls board_url role_keyword w urls w2 tr2 :
  discover_job_links board_url role_keyword w = (Ret urls, w2, tr2) ->
  exists v w1 tr1,
    fetch_page_content board_url 3 w = (Ret v, w1, tr1)
    /\ urls `sublist_of` map cand_url (candidates_of (page_of v))
    /\ (length urls <= max_matches)%nat.
Proof.
  intros Hd. rewrite discover_job_links_eq in Hd.
  destruct (FetchFacts.fetch_page_content_returns board_url 3 w)
    as (v & w1 & tr1 & Hf & _).
  exists v, w1, tr1. split; [exact Hf|].
  assert (Hnil : urls = [] ->
            urls `sublist_of` map cand_url (candidates_of (page_of v))
            /\ (length urls <= max_matches)%nat).
  { intros ->. split; [apply sublist_nil_l | unfold max_matches; cbn; lia]. }
  destruct (PyStr.truthy v) eqn:Hv.
  - destruct v as [md|]; [|discriminate]. cbn in Hv.
    rewrite (discover_body_fetched _ _ _ _ _ _ Hf Hv) in Hd. cbn zeta in Hd.
    change (page_of (Some md)) with md in *.
    destruct (candidates_of md) as [|c cands] eqn:Hc; [apply Hnil; congruence|].
    destruct role_keyword; try (apply Hnil; congruence).
    destruct (check_candidates_returns (PStr s) (PyStr.lower s)
                (length (c :: cands)) (c :: cands) 0 [] w1)
      as (picked & w3 & t3 & Hrun & Hsub & Hb & _).
    rewrite Hrun in Hd. injection Hd as <- _ _.
    split; [exact Hsub | apply Hb; unfold max_matches; cbn; lia].
  - rewrite (discover_body_not_fetched _ _ _ _ _ _ Hf Hv) in Hd.
    apply Hnil. congruence.
Qed.

(** The loop over candidates that all match, as many as the cap still
    allows: it takes every one of them, calls the model once for each, and
    stops without looking at what follows. *)
Lemma check_candidates_all_match role_keyword keyword_lower n pre :
  forall i matched_urls rest w,
    pre <> [] ->
    (length matched_urls + length pre = max_matches)%nat ->
    all_match keyword_lower n i pre w ->
    exists w1 tr,
      check_candidates role_keyword keyword_lower n i (pre ++ rest) matched_urls w
      = (Ret (matched_urls ++ map cand_url pre), w1, tr)
      /\ Forall (fun u => u ∈ map (fun c => jina (cand_url c)) pre) (gets tr)
      /\ length (invokes tr) = length pre.
Proof.
  induction pre as [|c pre IH]; intros i matched_urls rest w Hne Hlen Hall;
    [contradiction|].
  destruct Hall as (title & w1 & te & (He & Hti & Hm) & Hall).
  destruct (extract_returns (cand_url c) w) as (t' & w1' & te' & He' & Hg & _ & Hi).
  rewrite He in He'. injection He' as <- <- <-.
  specialize (Hi (ex_intro _ title eq_refl)).
  assert (Hg' : Forall (fun u => u ∈ map (fun c => jina (cand_url c)) (c :: pre))
                  (gets te)).
  { first_page Hg. }
  rewrite <- app_comm_cons, check_candidates_cons.
  rewrite (check_candidate_eq _ _ _ _ _ _ _ _ _ _ He). cbn zeta.
  rewrite Hti, Hm.
  destruct (Nat.leb_spec max_matches (length (matched_urls ++ [cand_url c])))
    as [Hge|Hlt]; rewrite length_app in *; cbn [length] in *.
  - assert (pre = []) as -> by (destruct pre; [reflexivity | cbn in Hlen; lia]).
    eexists _, _. split; [reflexivity|].
    autorewrite with trace. split; [exact Hg' | exact Hi].
  - run_pace n i w1 as w2 t2 Hp Hg2 Hi2.
    destruct (IH (S i) (matched_urls ++ [cand_url c]) rest w2)
      as (w3 & t3 & -> & Hg3 & Hi3);
      [destruct pre; [cbn in Hlen; lia | discriminate]
      |rewrite length_app; cbn; lia | exact Hall |].
    eexists _, _. rewrite <- app_assoc. split; [reflexivity|].
    autorewrite with trace. rewrite Hg2, Hi2. cbn [app].
    split; [|rewrite length_app; lia].
    apply Forall_app. split; [exact Hg'|].
    later_pages Hg3.
Qed.

Lemma jina_inj (a b : string) : jina a = jina b -> a = b.
Proof. unfold jina. apply String.app_inj. Qed.

(** C4.  [discover_job_links] returns at most 20 URLs, a subsequence of
    the URLs of the candidates, which themselves follow the order of the
    links of the page.  When the first 20 candidates all have a matching
    title, it returns exactly their URLs, calls the model 20 times, and
    requests no page of a later candidate. *)
Theorem discover_caps_and_orders board_url role_keyword w :
  (forall urls w2 tr2,
     discover_job_links board_url role_keyword w = (Ret urls, w2, tr2) ->
     (length urls <= 20)%nat
     /\ exists v w1 tr1,
          fetch_page_content board_url 3 w = (Ret v, w1, tr1)
          /\ urls `sublist_of` map cand_url (candidates_of (page_of v))
          /\ (map CandidateFacts.link_of (candidates_of (page_of v)))
               `sublist_of` (List.filter kept (findall_links (page_of v))))
  /\ (forall md w1 tr1 keyword pre rest,
        fetch_page_content board_url 3 w = (Ret (Some md), w1, tr1) ->
        role_keyword = PStr keyword ->
        candidates_of md = pre ++ rest ->
        length pre = 20%nat ->
        all_match (PyStr.lower keyword) (length (pre ++ rest)) 0 pre w1 ->
        exists w2 tr2,
          discover_job_links board_url role_keyword w
          = (Ret (map cand_url pre), w2, tr1 ++ tr2)
          /\ length (invokes tr2) = 20%nat
          /\ Forall (fun u => u ∈ map (fun c => jina (cand_url c)) pre) (gets tr2)
          /\ forall c, c ∈ rest -> jina (cand_url c) ∉ gets tr2).
Proof.
  split.
  - intros urls w2 tr2 Hd.
    destruct (discover_urls _ _ _ _ _ _ Hd) as (v & w1 & tr1 & Hf & Hsub & Hlen).
    split; [exact Hlen|]. exists v, w1, tr1.
    split; [exact Hf|]. split; [exact Hsub|].
    apply CandidateFacts.candidates_of_spec.
  - intros md w1 tr1 keyword pre rest Hf -> Hc Hlen Hall.
    assert (Hmd : PyStr.nonempty md = true).
    { destruct md; [|reflexivity]. rewrite CandidateFacts.candidates_of_empty in Hc.
      destruct pre; discriminate. }
    destruct (check_candidates_all_match (PStr keyword) (PyStr.lower keyword)
                (length (pre ++ rest)) pre 0 [] rest w1)
      as (w2 & t2 & Hrun & Hg & Hi);
      [destruct pre; [discriminate Hlen | discriminate]
      |cbn; exact Hlen | exact Hall |].
    rewrite discover_job_links_eq, (discover_body_fetched _ _ _ _ _ _ Hf Hmd).
    cbn zeta. rewrite Hc.
    destruct (pre ++ rest) as [|c0 cs] eqn:Hpr;
      [destruct pre; discriminate|].
    rewrite Hrun. cbn [app].
    eexists _, _. split; [reflexivity|].
    autorewrite with trace. cbn [app].
    split; [rewrite Hi; exact Hlen|]. split; [exact Hg|].
    intros c Hin Hget.
    rewrite Forall_forall in Hg. apply Hg in Hget.
    apply list_elem_of_fmap in Hget as (c' & Heq & Hin').
    apply jina_inj in Heq.
    destruct (CandidateFacts.candidates_of_spec md) as (Hnd & _).
    rewrite Hc, <- Hpr, map_app in Hnd. apply NoDup_app in Hnd as (_ & Hdisj & _).
    apply (Hdisj (cand_url c')).
    + apply list_elem_of_fmap. eauto.
    + rewrite <- Heq. apply list_elem_of_fmap. eauto.
Qed.

(** C7 (as the code has it).  A candidate whose title came back non-empty
    is added to the matches exactly when the lower-cased title contains
    the lower-cased keyword, or the lower-cased keyword is "engineer" and
    the title contains "engineering", or it is "analyst" and the title
    contains "analysis".  The table is read from keyword to title only. *)
Theorem title_match_rule keyword n i c matched_urls w title w1 tr :
  _extract_job_title_from_page (cand_url c) w = (Ret (Some title), w1, tr) ->
  PyStr.nonempty title = true ->
  exists s w2 tr2,
    check_candidate (PStr keyword) (PyStr.lower keyword) n i c matched_urls w
    = (Ret s, w2, tr2)
    /\ (step_urls s = matched_urls ++ [cand_url c] \/ step_urls s = matched_urls)
    /\ (step_urls s = matched_urls ++ [cand_url c] <->
        substring (PyStr.lower keyword) (PyStr.lower title)
        \/ (PyStr.lower keyword = "engineer"
            /\ substring "engineering" (PyStr.lower title))
        \/ (PyStr.lower keyword = "analyst"
            /\ substring "analysis" (PyStr.lower title))).
Proof.
  intros He Hti.
  rewrite (check_candidate_eq _ _ _ _ _ _ _ _ _ _ He). cbn zeta. rewrite Hti.
  assert (Hrule : title_matches (PyStr.lower keyword) (PyStr.lower title) = true <->
            substring (PyStr.lower keyword) (PyStr.lower title)
            \/ (PyStr.lower keyword = "engineer"
                /\ substring "engineering" (PyStr.lower title))
            \/ (PyStr.lower keyword = "analyst"
                /\ substring "analysis" (PyStr.lower title))).
  { unfold title_matches.
    rewrite !orb_true_iff, !andb_true_iff, !PyStrFacts.contains_spec,
      !String.eqb_eq. tauto. }
  assert (Hneq : matched_urls <> matched_urls ++ [cand_url c]).
  { intros Heq. apply (f_equal length) in Heq.
    rewrite length_app in Heq. cbn in Heq. lia. }
  destruct (title_matches (PyStr.lower keyword) (PyStr.lower title)).
  - destruct (max_matches <=? length (matched_urls ++ [cand_url c]))%nat;
      eexists _, _, _; (split; [reflexivity|]); cbn [step_urls];
      (split; [left; reflexivity|]); split; intros _;
      solve [reflexivity | apply Hrule; reflexivity].
  - eexists _, _, _. split; [reflexivity|]. cbn [step_urls].
    split; [right; reflexivity|]. split.
    + intros Heq. contradiction.
    + intros Hyes. apply Hrule in Hyes. discriminate.
Qed.



(** C9 (as the code has it).  A 200 answer with an empty body makes
    [fetch_page_content] return the empty string, not [None].  Both callers
    in [ScraperService] test the result for truth, so the title check
    returns [None] and the discovery returns the empty list, which is what
    they do after a fetch that returned [None]. *)
Theorem empty_page_is_falsy url role_keyword w r w1 :
  requests_get (jina url) (headers_for (os_getenv "JINA_API_KEY" w)) 25 w
  = (Ret r, w1) ->
  status_code r = 200 -> text r = "" ->
  (forall retry_count, 1 <= retry_count ->
     exists tr, fetch_page_content url retry_count w = (Ret (Some ""), w1, tr))
  /\ (exists tr, _extract_job_title_from_page url w = (Ret None, w1, tr))
  /\ (exists tr, discover_job_links url role_keyword w = (Ret [], w1, tr))
  /\ (forall w' w2 tr,
        fetch_page_content url 3 w' = (Ret None, w2, tr) ->
        _extract_job_title_from_page url w' = (Ret None, w2, tr)
        /\ discover_job_links url role_keyword w' = (Ret [], w2, tr)).
Proof.
  intros Hget Hst Htx.
  assert (Hfetch : forall retry_count, 1 <= retry_count ->
            fetch_page_content url retry_count w
            = (Ret (Some ""), w1,
               [EvGet (jina url) (headers_for (os_getenv "JINA_API_KEY" w)) 25])).
  { intros retry_count Hrc. rewrite FetchFacts.fetch_page_content_unfold.
    destruct (FetchFacts.py_range_positive retry_count Hrc) as (rest & ->).
    rewrite FetchFacts.fetch_loop_cons.
    rewrite (FetchFacts.fetch_attempt_200 _ _ _ _ _ _ _ Hget Hst), Htx.
    rewrite PyStrFacts.take_empty. reflexivity. }
  split; [intros rc Hrc; rewrite (Hfetch rc Hrc); eauto|].
  assert (Hcallers : forall w' v w2 tr,
            fetch_page_content url 3 w' = (Ret v, w2, tr) ->
            PyStr.truthy v = false ->
            _extract_job_title_from_page url w' = (Ret None, w2, tr)
            /\ discover_job_links url role_keyword w' = (Ret [], w2, tr)).
  { intros w' v w2 tr Hf Hv. split.
    - apply (extract_falsy_fetch _ _ _ _ _ Hf Hv).
    - rewrite discover_job_links_eq,
        (discover_body_not_fetched _ _ _ _ _ _ Hf Hv). reflexivity. }
  destruct (Hcallers w (Some "") w1 _ (Hfetch 3 ltac:(lia)) eq_refl) as [He Hd].
  split; [eauto|]. split; [eauto|].
  intros w' w2 tr Hf. apply (Hcallers w' None w2 tr Hf eq_refl).
Qed.

End WithWorld.

(** *** The theorems at work on scripted services *)

(** A keyword that is not a string makes the [try] block raise once the
    candidates are there, and a title request that raises costs the
    candidate its title; neither leaves [discover_job_links]. *)
Lemma discover_never_raises_witness :
  (exists w1 tr,
     discover_job_links (H := acme) careers_url PNone w0
     = (Ret [], w1, tr ++ [EvPrint (LogDiscoveryError AttributeError)]))
  /\ (exists w1 t1 t2,
        _extract_job_title_from_page (H := acme_model_down) apply_url after_board
        = (Ret None, w1, t1)
        /\ check_candidates (H := acme_model_down) (PStr "engineer") "engineer" 2 0
             [mkCandidate apply_text apply_url; posting "a"] [] after_board
           = let '(r, w3, t3) :=
               check_candidates (H := acme_model_down) (PStr "engineer") "engineer"
                 2 1 [posting "a"] []
                 (snd (fst (pace (H := acme_model_down) 2 0 w1))) in
             (r, w3, t2 ++ t3)).
Proof.
  split.
  - eexists _, _.
    apply (proj1 (proj2 (discover_never_raises (H := acme) careers_url PNone w0))).
    vm_compute. reflexivity.
  - apply (proj2 (proj2 (discover_never_raises (H := acme_model_down)
                           careers_url (PStr "engineer") w0))
             "engineer" 2%nat 0%nat (mkCandidate apply_text apply_url)
             [posting "a"] [] after_board).
    right. eexists _, _, _, _, _, _.
    split; [vm_compute; reflexivity|].
    split; [reflexivity|]. split; [reflexivity|]. split; reflexivity.
Defined.

Lemma discover_caps_and_orders_witness :
  exists w2 tr2,
    discover_job_links (H := acme25) careers_url (PStr "Engineer") w0
    = (Ret (map cand_url (map posting (firstn 20 posting_ids))), w2,
       [EvGet (jina careers_url) [("User-Agent", user_agent)] 25] ++ tr2)
    /\ length (invokes tr2) = 20%nat
    /\ Forall (fun u => u ∈ map (fun c => jina (cand_url c))
                             (map posting (firstn 20 posting_ids))) (gets tr2)
    /\ forall c, c ∈ map posting (skipn 20 posting_ids) ->
         jina (cand_url c) ∉ gets tr2.
Proof.
  apply (proj2 (discover_caps_and_orders (H := acme25) careers_url
                  (PStr "Engineer") w0)
           board25 after_board _ "Engineer"
           (map posting (firstn 20 posting_ids))
           (map posting (skipn 20 posting_ids))).
  - vm_compute. reflexivity.
  - reflexivity.
  - vm_compute. reflexivity.
  - reflexivity.
  - change (PyStr.lower "Engineer") with "engineer".
    change (length (map posting (firstn 20 posting_ids)
                    ++ map posting (skipn 20 posting_ids))) with 25%nat.
    cbn [map firstn posting_ids].
    do 20 (cbn [all_match]; eexists _, _, _;
           split; [split; [vm_compute; reflexivity | split; vm_compute; reflexivity]|]).
    exact I.
Defined.

Lemma title_match_rule_witness :
  exists s w2 tr2,
    check_candidate (H := acme) (PStr "Engineer") (PyStr.lower "Engineer") 1 0
      (mkCandidate apply_text apply_url) [] after_board
    = (Ret s, w2, tr2)
    /\ (step_urls s = [] ++ [apply_url] \/ step_urls s = [])
    /\ (step_urls s = [] ++ [apply_url] <->
        substring (PyStr.lower "Engineer") (PyStr.lower "Backend Engineer")
        \/ (PyStr.lower "Engineer" = "engineer"
            /\ substring "engineering" (PyStr.lower "Backend Engineer"))
        \/ (PyStr.lower "Engineer" = "analyst"
            /\ substring "analysis" (PyStr.lower "Backend Engineer"))).
Proof.
  eapply (title_match_rule (H := acme) "Engineer" 1 0
            (mkCandidate apply_text apply_url) [] after_board "Backend Engineer").
  - vm_compute. reflexivity.
  - reflexivity.
Defined.

(** The specification's two-way table accepts keyword "analysis" for the
    title "Data Analyst"; the code does not return the posting.  With
    keyword "analyst" it does. *)
Lemma synonym_table_is_one_way :
  spec_title_match "analysis" "Data Analyst" = true
  /\ fst (fst (discover_job_links (H := analyst_board) careers_url
                 (PStr "analysis") w0)) = Ret []
  /\ fst (fst (discover_job_links (H := analyst_board) careers_url
                 (PStr "analyst") w0)) = Ret [analyst_url].
Proof. split; [|split]; vm_compute; reflexivity. Qed.



(** An empty page comes back as the empty string, a failed fetch as
    [None]: the two return values differ. *)
Lemma empty_page_is_not_none :
  fst (fst (fetch_page_content (H := mock_external (mock_status 200 ""))
              apply_url 3 w0)) = Ret (Some "")
  /\ fst (fst (fetch_page_content (H := mock_external mock_down)
                 apply_url 3 w0)) = Ret None
  /\ Ret (Some "") <> (Ret None : outcome (option string)).
Proof.
  split; [vm_compute; reflexivity|]. split; [vm_compute; reflexivity|].
  discriminate.
Qed.

Lemma empty_page_is_falsy_witness :
  (forall retry_count, 1 <= retry_count ->
     exists tr,
       fetch_page_content (H := mock_external (mock_status 200 ""))
         apply_url retry_count w0
       = (Ret (Some ""), after_board, tr))
  /\ (exists tr,
        _extract_job_title_from_page (H := mock_external (mock_status 200 ""))
          apply_url w0 = (Ret None, after_board, tr))
  /\ (exists tr,
        discover_job_links (H := mock_external (mock_status 200 ""))
          apply_url (PStr "engineer") w0 = (Ret [], after_board, tr))
  /\ (forall w' w2 tr,
        fetch_page_content (H := mock_external (mock_status 200 ""))
          apply_url 3 w' = (Ret None, w2, tr) ->
        _extract_job_title_from_page (H := mock_external (mock_status 200 ""))
          apply_url w' = (Ret None, w2, tr)
        /\ discover_job_links (H := mock_external (mock_status 200 ""))
             apply_url (PStr "engineer") w' = (Ret [], w2, tr)).
Proof.
  apply (empty_page_is_falsy (H := mock_external (mock_status 200 ""))
           apply_url (PStr "engineer") w0 (mkResponse 200 "") after_board);
    reflexivity.
Defined.

End DiscoverFacts.

(** * Properties of [parse_job_description_with_ai] *)

Module AnalysisFacts.
Import AnalysisEngine.
Section WithWorld.
Context {W : Type} `{External W}.
Variable json_loads : string -> outcome pyval.

Implicit Types (w : W) (parsed d : gmap string pyval) (keys : list string).

Lemma fill_missing_eq keys parsed w :
  exists l,
    fill_missing keys parsed w
    = (Ret (with_defaults keys parsed), w, map EvPrint l).
Proof.
  revert parsed. induction keys as [|key rest IH]; intros parsed;
    cbn [fill_missing with_defaults].
  - exists []. reflexivity.
  - destruct (parsed !! key) as [v|].
    + apply IH.
    + unfold bind, print.
      destruct (IH (<[key := default_for key]> parsed)) as (l & ->).
      exists (LogMissingKey key :: l). reflexivity.
Qed.

(** The loop keeps every value that is there and gives each missing
    required key its default. *)
Lemma with_defaults_lookup keys parsed (k : string) :
  with_defaults keys parsed !! k
  = match parsed !! k with
    | Some v => Some v
    | None => if decide (k ∈ keys) then Some (default_for k) else None
    end.
Proof.
  revert parsed. induction keys as [|key rest IH]; intros parsed;
    cbn [with_defaults].
  - destruct (parsed !! k); [reflexivity|].
    destruct (decide (k ∈ [])) as [Hin|_]; [inversion Hin | reflexivity].
  - destruct (parsed !! key) as [v|] eqn:Hkey; rewrite IH.
    + destruct (parsed !! k) eqn:Hk; [reflexivity|].
      assert (k <> key) by congruence.
      destruct (decide (k ∈ rest)), (decide (k ∈ key :: rest)) as [Hin|Hnin];
        try reflexivity.
      * contradiction Hnin. right. assumption.
      * apply elem_of_cons in Hin as [?|?]; contradiction.
    + destruct (decide (k = key)) as [->|Hne].
      * rewrite lookup_insert_eq, Hkey.
        destruct (decide (key ∈ key :: rest)) as [_|Hnin]; [reflexivity|].
        contradiction Hnin. left.
      * rewrite lookup_insert_ne by congruence.
        destruct (parsed !! k); [reflexivity|].
        destruct (decide (k ∈ rest)), (decide (k ∈ key :: rest)) as [Hin|Hnin];
          try reflexivity.
        -- contradiction Hnin. right. assumption.
        -- apply elem_of_cons in Hin as [?|?]; contradiction.
Qed.

Lemma parse_no_key text_content w :
  PyStr.truthy (os_getenv "OPENAI_API_KEY" w) = false ->
  parse_job_description_with_ai json_loads text_content w
  = (Ret default_record, w, [EvPrint LogNoApiKey]).
Proof.
  intros Hk. unfold parse_job_description_with_ai, bind, getenv.
  rewrite Hk. reflexivity.
Qed.

(** With the credential set the model is called once, and what comes back
    is decided by the reply alone. *)
Lemma parse_with_key text_content w api_key reply w1 :
  os_getenv "OPENAI_API_KEY" w = Some api_key ->
  PyStr.nonempty api_key = true ->
  llm_invoke api_key (extraction_prompt text_content) w = (reply, w1) ->
  exists tr,
    parse_job_description_with_ai json_loads text_content w
    = (Ret (record_of_reply json_loads reply), w1, tr)
    /\ invokes tr = [extraction_prompt text_content] /\ gets tr = [].
Proof.
  intros Hk Hne Hi.
  unfold parse_job_description_with_ai, bind, getenv. rewrite Hk.
  cbn [PyStr.truthy]. rewrite Hne. cbn [negb].
  change (default EmptyString (Some api_key)) with api_key.
  unfold try_except, try_except_cls, try_except, bind, invoke. rewrite Hi.
  destruct reply as [content|e].
  - destruct content as [| | | |s| |];
      try (eexists; split; [reflexivity | split; reflexivity]).
    cbn [loads_content record_of_reply].
    destruct (json_loads s) as [v|e].
    + destruct v as [| | | | | |parsed];
        try (eexists; split; [reflexivity | split; reflexivity]).
      unfold ret at 1.
      destruct (fill_missing_eq required_keys parsed w1) as (l & ->).
      eexists. split; [reflexivity|].
      cbn [app]. autorewrite with trace. split; reflexivity.
    + destruct e; eexists; (split; [reflexivity | split; reflexivity]).
  - destruct e; eexists; (split; [reflexivity | split; reflexivity]).
Qed.

(** [parse_job_description_with_ai] returns for every input and every
    behaviour of the services; it never raises. *)
Lemma parse_returns text_content w :
  exists d w1 tr,
    parse_job_description_with_ai json_loads text_content w = (Ret d, w1, tr)
    /\ (d = default_record
        \/ exists api_key s parsed,
             os_getenv "OPENAI_API_KEY" w = Some api_key
             /\ llm_invoke api_key (extraction_prompt text_content) w
                = (Ret (PStr s), w1)
             /\ json_loads s = Ret (PDict parsed)
             /\ d = with_defaults required_keys parsed).
Proof.
  destruct (PyStr.truthy (os_getenv "OPENAI_API_KEY" w)) eqn:Hk.
  - destruct (os_getenv "OPENAI_API_KEY" w) as [api_key|] eqn:Hkey;
      [|discriminate].
    cbn in Hk.
    destruct (llm_invoke api_key (extraction_prompt text_content) w)
      as [reply w1] eqn:Hi.
    destruct (parse_with_key text_content w api_key reply w1 Hkey Hk Hi)
      as (tr & -> & _).
    eexists _, _, _. split; [reflexivity|].
    destruct reply as [content|e]; [|left; reflexivity].
    destruct content as [| | | |s| |]; try (left; reflexivity).
    cbn [record_of_reply].
    destruct (json_loads s) as [v|e] eqn:Hj; [|left; reflexivity].
    destruct v as [| | | | | |parsed]; try (left; reflexivity).
    right. exists api_key, s, parsed. auto.
  - rewrite (parse_no_key _ _ Hk). eexists _, _, _.
    split; [reflexivity | left; reflexivity].
Qed.

Lemma default_record_well_shaped : well_shaped default_record.
Proof.
  split; [vm_compute; reflexivity|].
  repeat split; eexists; (split; [reflexivity | reflexivity]).
Qed.

Lemma required_keys_filled parsed (k : string) :
  k ∈ required_keys -> is_Some (with_defaults required_keys parsed !! k).
Proof.
  intros Hk. rewrite with_defaults_lookup.
  destruct (parsed !! k); [eauto|].
  destruct (decide (k ∈ required_keys)); [eauto | contradiction].
Qed.

Lemma repaired_well_shaped parsed :
  repairable parsed -> well_shaped (with_defaults required_keys parsed).
Proof.
  intros [Hdom Hty].
  assert (Hfield : forall key p,
            key ∈ required_keys ->
            p (default_for key) = true ->
            (forall v, parsed !! key = Some v -> p v = true) ->
            has_type (with_defaults required_keys parsed) key p).
  { intros key p Hin Hdef Hp. unfold has_type. rewrite with_defaults_lookup.
    destruct (parsed !! key) as [v|]; [eauto|].
    destruct (decide (key ∈ required_keys)); [eauto | contradiction]. }
  split.
  - apply set_eq. intros k. rewrite elem_of_dom, with_defaults_lookup.
    rewrite elem_of_list_to_set.
    destruct (parsed !! k) as [v|] eqn:Hk.
    + split; [intros _ | eauto].
      assert (Hin : k ∈ dom parsed) by (apply elem_of_dom; eauto).
      apply Hdom, elem_of_list_to_set in Hin. exact Hin.
    + destruct (decide (k ∈ required_keys)) as [Hin|Hnin]; split; eauto.
      * intros [? [=]].
      * intros Hin. contradiction.
  - repeat split; apply Hfield; try reflexivity;
      try (intros v Hv; exact (Hty _ _ Hv));
      unfold required_keys; rewrite !elem_of_cons; auto 6.
Qed.

(** C5.  Without the model credential the default record comes back at
    once: nothing is requested and the world is untouched.  With the
    credential, an exception raised by the model call, by reading the reply
    or by parsing it is caught and turned into the default record; in no
    case does an exception leave the function. *)
Theorem parse_defaults_without_credential_or_on_exception text_content w :
  (PyStr.truthy (os_getenv "OPENAI_API_KEY" w) = false ->
   parse_job_description_with_ai json_loads text_content w
   = (Ret default_record, w, [EvPrint LogNoApiKey]))
  /\ (forall api_key e w1,
        os_getenv "OPENAI_API_KEY" w = Some api_key ->
        PyStr.nonempty api_key = true ->
        llm_invoke api_key (extraction_prompt text_content) w = (Raise e, w1) ->
        exists tr,
          parse_job_description_with_ai json_loads text_content w
          = (Ret default_record, w1, tr))
  /\ (forall api_key content w1,
        os_getenv "OPENAI_API_KEY" w = Some api_key ->
        PyStr.nonempty api_key = true ->
        llm_invoke api_key (extraction_prompt text_content) w = (Ret content, w1) ->
        (forall s, content <> PStr s)
        \/ (exists s e, content = PStr s /\ json_loads s = Raise e) ->
        exists tr,
          parse_job_description_with_ai json_loads text_content w
          = (Ret default_record, w1, tr))
  /\ (exists d w1 tr,
        parse_job_description_with_ai json_loads text_content w = (Ret d, w1, tr)).
Proof.
  split; [apply parse_no_key|]. split; [|split].
  - intros api_key e w1 Hk Hne Hi.
    destruct (parse_with_key _ _ _ _ _ Hk Hne Hi) as (tr & Hrun & _). eauto.
  - intros api_key content w1 Hk Hne Hi Hbad.
    destruct (parse_with_key _ _ _ _ _ Hk Hne Hi) as (tr & Hrun & _).
    exists tr. rewrite Hrun. f_equal. f_equal. f_equal.
    destruct Hbad as [Hns | (s & e & -> & Hj)].
    + destruct content; try reflexivity. contradiction (Hns s). reflexivity.
    + cbn. rewrite Hj. reflexivity.
  - destruct (parse_returns text_content w) as (d & w1 & tr & Hrun & _). eauto.
Qed.

(** C1 (as the code has it).  For every text and every behaviour of the
    model call, [parse_job_description_with_ai] returns a dict that has the
    four keys.  Without the credential it is the default record, which has
    exactly these keys and the right types.  With it, the reply of the
    model decides: a reply that parses to a JSON object gives that object
    with each missing required key set to its default, and what the object
    holds, required or not, comes back unchanged; every other reply, and a
    call that raises, gives the default record.  So the result has exactly
    the four keys with the right types when the object has no other key and
    no wrongly typed value. *)
Theorem parse_returns_required_keys text_content w :
  exists d w1 tr,
    parse_job_description_with_ai json_loads text_content w = (Ret d, w1, tr)
    /\ (forall k, k ∈ required_keys -> is_Some (d !! k))
    /\ well_shaped default_record
    /\ (PyStr.truthy (os_getenv "OPENAI_API_KEY" w) = false -> d = default_record)
    /\ (forall api_key reply w',
          os_getenv "OPENAI_API_KEY" w = Some api_key ->
          PyStr.nonempty api_key = true ->
          llm_invoke api_key (extraction_prompt text_content) w = (reply, w') ->
          w1 = w'
          /\ (forall s parsed,
                reply = Ret (PStr s) -> json_loads s = Ret (PDict parsed) ->
                (forall k v, parsed !! k = Some v -> d !! k = Some v)
                /\ (forall k, parsed !! k = None ->
                      d !! k = if decide (k ∈ required_keys)
                               then Some (default_for k) else None)
                /\ (repairable parsed -> well_shaped d))
          /\ ((forall s parsed,
                 reply = Ret (PStr s) -> json_loads s <> Ret (PDict parsed)) ->
              d = default_record)).
Proof.
  assert (forall k, k ∈ required_keys -> is_Some (default_record !! k)) as Hdef.
  { intros k Hk. unfold required_keys in Hk. rewrite !elem_of_cons in Hk.
    destruct Hk as [->|[->|[->|[->|Hk]]]]; [eexists; reflexivity..|].
    inversion Hk. }
  destruct (PyStr.truthy (os_getenv "OPENAI_API_KEY" w)) eqn:Hk.
  - destruct (os_getenv "OPENAI_API_KEY" w) as [api_key|] eqn:Hkey;
      [|discriminate].
    cbn in Hk.
    destruct (llm_invoke api_key (extraction_prompt text_content) w)
      as [reply w1] eqn:Hi.
    destruct (parse_with_key text_content w api_key reply w1 Hkey Hk Hi)
      as (tr & Hrun & _).
    exists (record_of_reply json_loads reply), w1, tr. split; [exact Hrun|].
    split.
    { destruct reply as [content|e]; [|exact Hdef].
      destruct content as [| | | |s| |]; try exact Hdef.
      cbn [record_of_reply].
      destruct (json_loads s) as [v|e]; [|exact Hdef].
      destruct v as [| | | | | |parsed]; try exact Hdef.
      intros k Hin. apply required_keys_filled. exact Hin. }
    split; [apply default_record_well_shaped|].
    split; [intros Hf; discriminate Hf|].
    intros api_key' reply' w' [= <-] _ Hi'. rewrite Hi in Hi'.
    injection Hi' as <- <-. split; [reflexivity|]. split.
    + intros s parsed -> Hj. cbn [record_of_reply]. rewrite Hj.
      split; [|split].
      * intros k v Hv. rewrite with_defaults_lookup, Hv. reflexivity.
      * intros k Hn. rewrite with_defaults_lookup, Hn. reflexivity.
      * apply repaired_well_shaped.
    + intros Hno. destruct reply as [content|e]; [|reflexivity].
      destruct content as [| | | |s| |]; try reflexivity.
      cbn [record_of_reply].
      destruct (json_loads s) as [v|e] eqn:Hj; [|reflexivity].
      destruct v as [| | | | | |parsed]; try reflexivity.
      exfalso. apply (Hno s parsed eq_refl Hj).
  - rewrite (parse_no_key _ _ Hk).
    exists default_record, w, [EvPrint LogNoApiKey]. split; [reflexivity|].
    split; [exact Hdef|]. split; [apply default_record_well_shaped|].
    split; [reflexivity|].
    intros api_key reply w' Hkey Hne _. rewrite Hkey in Hk. cbn in Hk.
    congruence.
Qed.

End WithWorld.

(** *** The theorems at work on scripted services *)

Lemma parse_defaults_witness :
  parse_job_description_with_ai (H := mock_external (mock_status 200 "page"))
    (json_table known_replies) "We are hiring." w0
  = (Ret default_record, w0, [EvPrint LogNoApiKey])
  /\ exists tr,
       parse_job_description_with_ai
         (H := mock_external (mock_reply (Raise (OtherError "AuthenticationError"))))
         (json_table known_replies) "We are hiring." w0
       = (Ret default_record, {| http_calls := 0; llm_calls := 1 |}, tr).
Proof.
  split.
  - apply (proj1 (parse_defaults_without_credential_or_on_exception
                    (H := mock_external (mock_status 200 "page"))
                    (json_table known_replies) "We are hiring." w0)).
    reflexivity.
  - apply (proj1 (proj2 (parse_defaults_without_credential_or_on_exception
                    (H := mock_external
                            (mock_reply (Raise (OtherError "AuthenticationError"))))
                    (json_table known_replies) "We are hiring." w0))
             "sk-test" (OtherError "AuthenticationError")); reflexivity.
Defined.

Lemma parse_returns_required_keys_witness :
  exists d w1 tr,
    parse_job_description_with_ai
      (H := mock_external (mock_reply (Ret (PStr title_only_reply))))
      (json_table known_replies) "We are hiring." w0 = (Ret d, w1, tr)
    /\ d !! "job_title" = Some (PStr "Backend Engineer")
    /\ d !! "company" = Some (PStr EmptyString)
    /\ d !! "min" = Some (PInt 0) /\ d !! "max" = Some (PInt 0)
    /\ well_shaped d.
Proof.
  destruct (parse_returns_required_keys
              (H := mock_external (mock_reply (Ret (PStr title_only_reply))))
              (json_table known_replies) "We are hiring." w0)
    as (d & w1 & tr & Hrun & _ & _ & _ & Hreply).
  destruct (Hreply "sk-test" (Ret (PStr title_only_reply))
              {| http_calls := 0; llm_calls := 1 |} eq_refl eq_refl eq_refl)
    as (_ & Hobject & _).
  destruct (Hobject title_only_reply title_only_record eq_refl eq_refl)
    as (Hkeep & Hfill & Hshape).
  exists d, w1, tr. split; [exact Hrun|].
  split; [apply Hkeep; reflexivity|].
  split; [rewrite Hfill; reflexivity|].
  split; [rewrite Hfill; reflexivity|].
  split; [rewrite Hfill; reflexivity|].
  apply Hshape. split.
  - unfold title_only_record, required_keys.
    rewrite dom_insert_L, dom_empty_L. intros key Hkey.
    rewrite elem_of_union, elem_of_singleton, elem_of_empty in Hkey.
    destruct Hkey as [->|[]].
    rewrite elem_of_list_to_set, !elem_of_cons. auto.
  - intros key v Hv. unfold title_only_record in Hv.
    apply lookup_insert_Some in Hv as [[<- <-]|[_ Hv]]; [reflexivity|].
    rewrite lookup_empty in Hv. discriminate Hv.
Defined.

(** A reply with a number for the title, a string for the lower bound and
    a fifth key comes back as it is: the record has five keys and two
    values of the wrong type. *)
Lemma parse_passes_wrong_types_and_extra_keys :
  fst (fst (parse_job_description_with_ai
              (H := mock_external (mock_reply (Ret (PStr odd_reply))))
              (json_table known_replies) "We are hiring." w0))
  = Ret odd_record
  /\ ~ well_shaped odd_record.
Proof.
  split; [vm_compute; reflexivity|].
  intros (_ & (v & Hv & Hty) & _).
  assert (v = PInt 7) as -> by (vm_compute in Hv; congruence).
  discriminate Hty.
Qed.

End AnalysisFacts.

(** * More facts about traces *)

Module TraceMore.

Lemma gets_get (u : string) (hs : list (string * string)) (t : Z) (tr : list event) :
  gets (EvGet u hs t :: tr) = u :: gets tr.
Proof. reflexivity. Qed.

Lemma gets_sleep (q : Q) (tr : list event) : gets (EvSleep q :: tr) = gets tr.
Proof. reflexivity. Qed.

Lemma sleeps_get (u : string) (hs : list (string * string)) (t : Z) (tr : list event) :
  sleeps (EvGet u hs t :: tr) = sleeps tr.
Proof. reflexivity. Qed.

Lemma sleeps_sleep (q : Q) (tr : list event) : sleeps (EvSleep q :: tr) = q :: sleeps tr.
Proof. reflexivity. Qed.

Lemma sleeps_print (l : log_line) (tr : list event) : sleeps (EvPrint l :: tr) = sleeps tr.
Proof. reflexivity. Qed.

Lemma sleeps_invoke (k p : string) (tr : list event) :
  sleeps (EvInvoke k p :: tr) = sleeps tr.
Proof. reflexivity. Qed.

Lemma invokes_get (u : string) (hs : list (string * string)) (t : Z) (tr : list event) :
  invokes (EvGet u hs t :: tr) = invokes tr.
Proof. reflexivity. Qed.

Lemma invokes_sleep (q : Q) (tr : list event) : invokes (EvSleep q :: tr) = invokes tr.
Proof. reflexivity. Qed.

Lemma quiet_app (a b : list event) : quiet (a ++ b) = quiet a ++ quiet b.
Proof. apply List.filter_app. Qed.

Lemma quiet_print (l : log_line) (tr : list event) : quiet (EvPrint l :: tr) = quiet tr.
Proof. reflexivity. Qed.

Lemma quiet_prints (l : list log_line) : quiet (map EvPrint l) = [].
Proof. induction l as [|p l IH]; [reflexivity | exact IH]. Qed.

Lemma gets_quiet (tr : list event) : gets (quiet tr) = gets tr.
Proof.
  induction tr as [|ev tr IH]; [reflexivity|].
  destruct ev as [u hs t|q|k p|l];
    [change (u :: gets (quiet tr) = u :: gets tr); f_equal| | |];
    exact IH.
Qed.

End TraceMore.

Create Rewrite HintDb trace_more.
#[global] Hint Rewrite TraceFacts.gets_app TraceFacts.invokes_app
  TraceFacts.sleeps_app TraceFacts.gets_print TraceFacts.invokes_print
  TraceFacts.gets_invoke TraceFacts.invokes_invoke TraceMore.gets_get
  TraceMore.gets_sleep TraceMore.sleeps_get TraceMore.sleeps_sleep
  TraceMore.sleeps_print TraceMore.sleeps_invoke TraceMore.invokes_get
  TraceMore.invokes_sleep TraceMore.quiet_app TraceMore.quiet_print
  TraceMore.quiet_prints TraceFacts.gets_prints TraceFacts.invokes_prints
  @app_nil_r : trace_more.

(** * More properties of [fetch_page_content] *)

Module FetchMore.
Import ScraperService FetchFacts.
Section WithWorld.
Context {W : Type} `{External W}.

Implicit Types (url jina_url : string) (headers : list (string * string)).
Implicit Types (retry_count attempt : Z) (w : W).

Lemma take_length (n : nat) (s : string) : (String.length (PyStr.take n s) <= n)%nat.
Proof.
  revert s. induction n as [|n IH]; intros s; [cbn; lia|].
  destruct s as [|c s]; cbn; [lia|]. specialize (IH s). lia.
Qed.

Lemma backoff_le retry_count attempt (c : Z) :
  0 <= attempt < retry_count - 1 -> 1 <= c <= 2 ->
  (inject_Z (2 ^ attempt * c) <= inject_Z (2 ^ (retry_count - 1)))%Q.
Proof.
  intros Ha Hc. rewrite <- Zle_Qle.
  replace (retry_count - 1) with (Z.succ attempt + (retry_count - 2 - attempt)) by lia.
  rewrite Z.pow_add_r, Z.pow_succ_r by lia.
  assert (0 < 2 ^ attempt) by (apply Z.pow_pos_nonneg; lia).
  assert (1 <= 2 ^ (retry_count - 2 - attempt))
    by (apply (Z.pow_le_mono_r 2 0); lia).
  nia.
Qed.

(** One pass through the loop body, whatever the reader does: it goes on
    after a wait (never on the last attempt), returns a page of at most
    20000 characters straight after the request, or gives up. *)
Lemma fetch_attempt_shape jina_url headers retry_count attempt w :
  0 <= attempt ->
  exists c w1 tr,
    fetch_attempt jina_url headers retry_count attempt w = (Ret c, w1, tr)
    /\ ((c = Continue /\ attempt < retry_count - 1
         /\ exists l q,
              tr = [EvGet jina_url headers 25; EvPrint l; EvSleep q]
              /\ (q <= inject_Z (2 ^ (retry_count - 1)))%Q)
        \/ (exists s, c = Return (Some s)
              /\ Z.of_nat (String.length s) <= 20000
              /\ tr = [EvGet jina_url headers 25])
        \/ (c = Return None
              /\ exists l, tr = [EvGet jina_url headers 25; EvPrint l])).
Proof.
  intros Ha.
  destruct (requests_get jina_url headers 25 w) as [[r|e] w1] eqn:Hget.
  - destruct (Z.eq_dec (status_code r) 200) as [H200|H200].
    { rewrite (fetch_attempt_200 _ _ _ _ _ _ _ Hget H200).
      eexists _, _, _. split; [reflexivity|]. right. left.
      eexists. split; [reflexivity|]. split; [|reflexivity].
      pose proof (take_length (Z.to_nat 20000) (text r)). lia. }
    destruct (Z.eq_dec (status_code r) 429) as [H429|H429].
    { rewrite (fetch_attempt_429 _ _ _ _ _ _ _ Hget H429).
      destruct (Z.ltb_spec attempt (retry_count - 1)) as [Hlt|Hge];
        eexists _, _, _; (split; [reflexivity|]).
      - left. split; [reflexivity|]. split; [exact Hlt|].
        eexists _, _. split; [reflexivity|]. apply backoff_le; lia.
      - right. right. split; [reflexivity|]. eauto. }
    rewrite (fetch_attempt_bad_status _ _ _ _ _ _ _ Hget H200 H429).
    eexists _, _, _. split; [reflexivity|]. right. right. eauto.
  - rewrite (fetch_attempt_exception _ _ _ _ _ _ _ Hget).
    destruct (Z.ltb_spec attempt (retry_count - 1)) as [Hlt|Hge];
      eexists _, _, _; (split; [reflexivity|]).
    + left. split; [reflexivity|]. split; [exact Hlt|].
      eexists _, _. split; [reflexivity|]. apply backoff_le; lia.
    + right. right. split; [reflexivity|]. eauto.
Qed.

(** The loop from attempt [a] on, with [n] attempts left. *)
Lemma fetch_loop_shape jina_url headers retry_count (n a : nat) w :
  Z.of_nat (a + n) = retry_count ->
  exists v w1 tr,
    fetch_loop jina_url headers retry_count (map Z.of_nat (seq a n)) w
    = (Ret v, w1, tr)
    /\ Forall (reader_event jina_url headers retry_count) tr
    /\ (length (gets tr) <= n)%nat
    /\ ((n = 0)%nat \/ length (gets tr) = S (length (sleeps tr)))
    /\ (forall s, v = Some s ->
          Z.of_nat (String.length s) <= 20000
          /\ exists tr0, tr = tr0 ++ [EvGet jina_url headers 25]).
Proof.
  revert a w. induction n as [|n IH]; intros a w Hrc.
  - exists None, w, []. split; [reflexivity|]. split; [constructor|].
    split; [cbn; lia|]. split; [left; reflexivity|]. intros s [=].
  - cbn [seq map]. rewrite fetch_loop_cons.
    destruct (fetch_attempt_shape jina_url headers retry_count (Z.of_nat a) w)
      as (c & w1 & t1 & -> & Hshape); [lia|].
    destruct Hshape as [(-> & Hlt & l & q & -> & Hq)
                       | [(s & -> & Hs & ->) | (-> & l & ->)]].
    + destruct (IH (S a) w1) as (v & w2 & t2 & -> & Hev & Hg & Hgs & Hv); [lia|].
      eexists _, _, _. split; [reflexivity|].
      split; [constructor; [cbn; auto|]; constructor; [exact I|];
              constructor; [exact Hq | exact Hev]|].
      cbn [app]. autorewrite with trace_more. cbn [length].
      split; [lia|].
      split.
      * right. destruct Hgs as [->|Hgs]; [lia | rewrite Hgs; reflexivity].
      * intros s Hs. destruct (Hv s Hs) as (Hlen & tr0 & ->).
        split; [exact Hlen|].
        exists ([EvGet jina_url headers 25; EvPrint l; EvSleep q] ++ tr0).
        reflexivity.
    + eexists _, _, _. split; [reflexivity|].
      split; [constructor; [cbn; auto | constructor]|].
      split; [cbn; lia|]. split; [right; reflexivity|].
      intros s' [= <-]. split; [exact Hs|]. exists []. reflexivity.
    + eexists _, _, _. split; [reflexivity|].
      split; [constructor; [cbn; auto|]; constructor; [exact I | constructor]|].
      split; [cbn; lia|]. split; [right; reflexivity|]. intros s [=].
Qed.

(** X1.  A page that [fetch_page_content] returns has at most 20000
    characters, and it is returned straight after the request that got it:
    nothing is logged and no wait is taken after the last request. *)
Theorem fetched_page_is_bounded url retry_count w s w1 tr :
  fetch_page_content url retry_count w = (Ret (Some s), w1, tr) ->
  Z.of_nat (String.length s) <= 20000
  /\ exists tr0,
       tr = tr0 ++ [EvGet (jina url) (headers_for (os_getenv "JINA_API_KEY" w)) 25].
Proof.
  intros Hrun. rewrite fetch_page_content_unfold in Hrun. unfold py_range in Hrun.
  destruct (fetch_loop_shape (jina url) (headers_for (os_getenv "JINA_API_KEY" w))
              retry_count (Z.to_nat retry_count) 0 w)
    as (v & w2 & tr2 & Hloop & _ & _ & _ & Hv).
  - destruct (Z.le_gt_cases 0 retry_count) as [Hpos|Hneg]; [lia|].
    exfalso. replace (Z.to_nat retry_count) with 0%nat in Hrun by lia.
    discriminate Hrun.
  - rewrite Hloop in Hrun. injection Hrun as -> -> ->. apply Hv. reflexivity.
Qed.

(** The run of [fetch_page_content], whatever the reader does. *)
Lemma fetch_page_content_shape url retry_count w :
  exists v w1 tr,
    fetch_page_content url retry_count w = (Ret v, w1, tr)
    /\ Forall (reader_event (jina url) (headers_for (os_getenv "JINA_API_KEY" w))
                 retry_count) tr
    /\ (length (gets tr) <= Z.to_nat retry_count)%nat
    /\ (1 <= retry_count -> length (gets tr) = S (length (sleeps tr))).
Proof.
  rewrite fetch_page_content_unfold. unfold py_range.
  destruct (Z.le_gt_cases 0 retry_count) as [Hpos|Hneg].
  - destruct (fetch_loop_shape (jina url) (headers_for (os_getenv "JINA_API_KEY" w))
                retry_count (Z.to_nat retry_count) 0 w)
      as (v & w1 & tr & Hloop & Hev & Hg & Hgs & _); [lia|].
    exists v, w1, tr. split; [exact Hloop|]. split; [exact Hev|].
    split; [exact Hg|]. intros Hrc. destruct Hgs as [H0|Hgs]; [lia | exact Hgs].
  - replace (Z.to_nat retry_count) with 0%nat by lia.
    exists None, w, []. split; [reflexivity|]. split; [constructor|].
    split; [cbn; lia | lia].
Qed.

(** X2.  Whatever the reader does, [fetch_page_content] returns after at
    most [retry_count] requests, all of them for the reader URL of the page
    with the same headers and a 25 second timeout; it never calls the model
    and never waits longer than [2^(retry_count - 1)] seconds; and with
    [retry_count >= 1] it makes exactly one request more than it takes
    waits, so no wait follows the last request. *)
Theorem fetch_request_budget url retry_count w :
  exists v w1 tr,
    fetch_page_content url retry_count w = (Ret v, w1, tr)
    /\ Forall (reader_event (jina url) (headers_for (os_getenv "JINA_API_KEY" w))
                 retry_count) tr
    /\ (length (gets tr) <= Z.to_nat retry_count)%nat
    /\ (1 <= retry_count -> length (gets tr) = S (length (sleeps tr))).
Proof. apply fetch_page_content_shape. Qed.

(** The loop from attempt [a] on, when the reader recovers after [k]
    retryable answers. *)
Lemma fetch_loop_recovers jina_url headers retry_count body w_end (k : nat) :
  forall (n a : nat) w,
    Z.of_nat (a + n) = retry_count -> (k < n)%nat ->
    recovers jina_url headers k (Z.of_nat a) w body w_end ->
    exists tr,
      fetch_loop jina_url headers retry_count (map Z.of_nat (seq a n)) w
      = (Ret (Some (PyStr.take (Z.to_nat 20000) body)), w_end, tr)
      /\ length (gets tr) = S k /\ length (sleeps tr) = k.
Proof.
  induction k as [|k IH]; intros n a w Hrc Hk Hrec.
  - destruct Hrec as (r & Hget & H200 & <-).
    destruct n as [|n]; [lia|]. cbn [seq map]. rewrite fetch_loop_cons.
    rewrite (fetch_attempt_200 _ _ _ _ _ _ _ Hget H200).
    eexists. split; [reflexivity|]. split; reflexivity.
  - destruct Hrec as (o & w1 & Hget & Hretry & Hrec).
    destruct n as [|n]; [lia|]. cbn [seq map]. rewrite fetch_loop_cons.
    replace (Z.of_nat a + 1) with (Z.of_nat (S a)) in Hrec by lia.
    destruct (IH n (S a) _ ltac:(lia) ltac:(lia) Hrec) as (tr & Hloop & Hg & Hs).
    destruct o as [r|e]; cbn in Hretry.
    + rewrite (fetch_attempt_429 _ _ _ _ _ _ _ Hget Hretry).
      destruct (Z.ltb_spec (Z.of_nat a) (retry_count - 1)); [|lia].
      unfold retry_wait, backoff_429 in Hloop. rewrite Hloop.
      eexists. split; [reflexivity|]. cbn [app].
      autorewrite with trace_more. cbn [length]. rewrite Hg, Hs.
      split; reflexivity.
    + rewrite (fetch_attempt_exception _ _ _ _ _ _ _ Hget).
      destruct (Z.ltb_spec (Z.of_nat a) (retry_count - 1)); [|lia].
      unfold retry_wait, backoff_exn in Hloop. rewrite Hloop.
      eexists. split; [reflexivity|]. cbn [app].
      autorewrite with trace_more. cbn [length]. rewrite Hg, Hs.
      split; reflexivity.
Qed.

(** X3.  Retrying pays off: when the reader answers 429 or fails [k] times
    and then serves the page, and [k < retry_count], the first 20000
    characters of the page come back after [k + 1] requests and [k] waits. *)
Theorem fetch_recovers_from_transient_failures url retry_count w body w_end (k : nat) :
  Z.of_nat k < retry_count ->
  recovers (jina url) (headers_for (os_getenv "JINA_API_KEY" w)) k 0 w body w_end ->
  exists tr,
    fetch_page_content url retry_count w
    = (Ret (Some (PyStr.take (Z.to_nat 20000) body)), w_end, tr)
    /\ length (gets tr) = S k /\ length (sleeps tr) = k.
Proof.
  intros Hk Hrec. rewrite fetch_page_content_unfold. unfold py_range.
  apply (fetch_loop_recovers (jina url) _ retry_count body w_end k
           (Z.to_nat retry_count) 0 w); [lia | lia | exact Hrec].
Qed.

End WithWorld.

Lemma fetched_page_is_bounded_witness :
  Z.of_nat (String.length "# Careers") <= 20000
  /\ exists tr0,
       [EvGet (jina careers_url)
          (headers_for (os_getenv (External := mock_external mock_flaky)
                          "JINA_API_KEY" w0)) 25;
        EvPrint (LogFetchRetry 1 3 (OtherError "ConnectionError") 1); EvSleep 1;
        EvGet (jina careers_url)
          (headers_for (os_getenv (External := mock_external mock_flaky)
                          "JINA_API_KEY" w0)) 25;
        EvPrint (LogFetchRetry 2 3 (OtherError "ConnectionError") 2); EvSleep 2;
        EvGet (jina careers_url)
          (headers_for (os_getenv (External := mock_external mock_flaky)
                          "JINA_API_KEY" w0)) 25]
       = tr0 ++ [EvGet (jina careers_url)
                   (headers_for (os_getenv (External := mock_external mock_flaky)
                                   "JINA_API_KEY" w0)) 25].
Proof.
  apply (fetched_page_is_bounded (H := mock_external mock_flaky) careers_url 3 w0
           "# Careers" {| http_calls := 3; llm_calls := 0 |}).
  vm_compute. reflexivity.
Defined.

Lemma fetch_recovers_witness :
  exists tr,
    fetch_page_content (H := mock_external mock_flaky) careers_url 3 w0
    = (Ret (Some (PyStr.take (Z.to_nat 20000) "# Careers")),
       {| http_calls := 3; llm_calls := 0 |}, tr)
    /\ length (gets tr) = 3%nat /\ length (sleeps tr) = 2%nat.
Proof.
  apply (fetch_recovers_from_transient_failures (H := mock_external mock_flaky)
           careers_url 3 w0 "# Careers" {| http_calls := 3; llm_calls := 0 |} 2).
  - lia.
  - cbn [recovers]. eexists _, _. split; [reflexivity|]. split; [exact I|].
    eexists _, _. split; [reflexivity|]. split; [exact I|].
    eexists. split; [reflexivity|]. split; reflexivity.
Defined.

End FetchMore.

(** * Properties of the link pattern *)

Module LinkFacts.
Import ScraperService PyStrFacts.

Lemma length_append (a b : string) :
  String.length (a +:+ b) = (String.length a + String.length b)%nat.
Proof.
  induction a as [|x a IH]; [reflexivity|].
  rewrite append_cons. cbn [String.length]. rewrite IH. reflexivity.
Qed.

(** Whether a character occurs in a string. *)
Lemma contains_char_cons (a c : ascii) (r : string) :
  PyStr.contains (String a "") (String c r)
  = if Ascii.eqb a c then true else PyStr.contains (String a "") r.
Proof.
  rewrite contains_unfold. unfold PyStr.starts_with. cbn [PyStr.drop_prefix].
  destruct (Ascii.eqb a c); reflexivity.
Qed.

Lemma span_until_spec (stop : ascii) (s run rest : string) :
  span_until stop s = (run, rest) ->
  s = run +:+ rest
  /\ PyStr.contains (String stop "") run = false
  /\ (rest = EmptyString \/ exists r, rest = String stop r).
Proof.
  revert run rest. induction s as [|c s IH]; intros run rest; cbn [span_until].
  - intros [= <- <-]. repeat split. left. reflexivity.
  - destruct (Ascii.eqb_spec c stop) as [->|Hne].
    + intros [= <- <-]. repeat split. right. eauto.
    + destruct (span_until stop s) as [run' rest'] eqn:Hs.
      intros [= <- <-]. destruct (IH run' rest' eq_refl) as (-> & Hno & Hrest).
      split; [reflexivity|]. split; [|exact Hrest].
      rewrite contains_char_cons.
      destruct (Ascii.eqb_spec stop c) as [->|_]; [contradiction | exact Hno].
Qed.

Lemma match_link_unfold (c : ascii) (r : string) :
  match_link (String c r)
  = if Ascii.eqb c "["%char then
      let '(txt, r1) := span_until "]"%char r in
      if PyStr.nonempty txt then
        match PyStr.drop_prefix "](http" r1 with
        | Some r2 =>
            let '(tail, r3) := span_until ")"%char r2 in
            if PyStr.nonempty tail then
              match r3 with
              | String ")"%char _ =>
                  Some (txt, "http" +:+ tail,
                        (1 + String.length txt + 6 + String.length tail + 1)%nat)
              | _ => None
              end
            else None
        | None => None
        end
      else None
    else None.
Proof.
  destruct c as [[] [] [] [] [] [] [] []]; reflexivity.
Qed.

(** A match is a link that stands at the start of the text, and its two
    groups are as the pattern demands. *)
Lemma match_link_sound (s txt href : string) (n : nat) :
  match_link s = Some (txt, href, n) ->
  (exists rest, s = link_md txt href +:+ rest)
  /\ n = String.length (link_md txt href)
  /\ link_shaped (txt, href).
Proof.
  destruct s as [|c r]; [discriminate|]. rewrite match_link_unfold.
  destruct (Ascii.eqb_spec c "["%char) as [->|_]; [|discriminate].
  destruct (span_until "]"%char r) as [t r1] eqn:Ht.
  destruct (span_until_spec _ _ _ _ Ht) as (-> & Hnot & _).
  destruct (PyStr.nonempty t) eqn:Hnt; [|discriminate].
  destruct (PyStr.drop_prefix "](http" r1) as [r2|] eqn:Hd; [|discriminate].
  apply drop_prefix_spec in Hd as ->.
  destruct (span_until ")"%char r2) as [tail r3] eqn:Htl.
  destruct (span_until_spec _ _ _ _ Htl) as (-> & Hnop & Hr3).
  destruct (PyStr.nonempty tail) eqn:Hntl; [|discriminate].
  destruct r3 as [|c3 r3]; [discriminate|].
  destruct Hr3 as [Hr3|(r' & [= -> ->])]; [discriminate|].
  intros [= <- <- <-]. split; [|split].
  - exists r'. unfold link_md.
    repeat (rewrite ?append_assoc, ?append_cons, ?append_nil_l). reflexivity.
  - unfold link_md.
    repeat (rewrite ?append_assoc, ?append_cons, ?append_nil_l).
    cbn [String.length]. rewrite !length_append. cbn [String.length].
    rewrite !length_append. cbn [String.length]. lia.
  - unfold link_shaped. cbn [fst snd]. split; [|split; [|split]].
    + intros ->. discriminate Hnt.
    + apply contains_false. exact Hnot.
    + exists tail. split; [reflexivity|]. intros ->. discriminate Hntl.
    + apply contains_false. rewrite !append_cons, append_nil_l.
      rewrite !contains_char_cons. exact Hnop.
Qed.

(** Skipping the characters of a match. *)
Lemma findall_from_skip (a b : string) :
  findall_from (String.length a) (a +:+ b) = findall_from 0 b.
Proof.
  induction a as [|c a IH]; [reflexivity|].
  rewrite append_cons. cbn [String.length findall_from]. exact IH.
Qed.

Lemma findall_from_cons (c : ascii) (r : string) :
  findall_from 0 (String c r)
  = match match_link (String c r) with
    | Some (txt, href, n) => (txt, href) :: findall_from (n - 1) r
    | None => findall_from 0 r
    end.
Proof. reflexivity. Qed.

Lemma in_order_later (links : list (string * string)) (pre page : string) :
  in_order links page -> in_order links (pre +:+ page).
Proof.
  destruct links as [|[txt href] rest]; [exact id|].
  intros (p & post & -> & Hrest). exists (pre +:+ p), post.
  rewrite append_assoc. split; [reflexivity | exact Hrest].
Qed.

Lemma findall_links_sound_upto (m : nat) :
  forall s, (String.length s <= m)%nat ->
    in_order (findall_from 0 s) s /\ Forall link_shaped (findall_from 0 s).
Proof.
  induction m as [|m IH]; intros s Hlen.
  - destruct s; [|cbn in Hlen; lia]. split; [exact I | constructor].
  - destruct s as [|c r]; [split; [exact I | constructor]|].
    cbn [String.length] in Hlen. rewrite findall_from_cons.
    destruct (match_link (String c r)) as [[[txt href] n]|] eqn:Hm.
    + destruct (match_link_sound _ _ _ _ Hm) as ((rest & Hs) & -> & Hshape).
      assert (Hr : r = (txt +:+ "](" +:+ href +:+ ")") +:+ rest).
      { unfold link_md in Hs. rewrite append_cons, append_nil_l in Hs.
        injection Hs as _ Hs. exact Hs. }
      assert (Hn : (String.length (link_md txt href) - 1)%nat
                   = String.length (txt +:+ "](" +:+ href +:+ ")")).
      { unfold link_md. rewrite append_cons, append_nil_l.
        cbn [String.length]. lia. }
      rewrite Hn, Hr, findall_from_skip.
      destruct (IH rest) as [Hord Hall].
      { rewrite Hr, length_append in Hlen. lia. }
      split.
      * exists "", rest. rewrite append_nil_l. split; [|exact Hord].
        rewrite <- Hr. exact Hs.
      * constructor; [exact Hshape | exact Hall].
    + destruct (IH r) as [Hord Hall]; [lia|].
      split; [|exact Hall].
      apply (in_order_later _ (String c "") r Hord).
Qed.

(** X4.  What [re.findall] is taken to find on a page are links of the
    page: the matches stand in the page as [[text](url)], one after the
    other without overlap, each text is non-empty and has no closing
    bracket, and each URL starts with "http", goes on for at least one
    character and has no closing parenthesis. *)
Theorem found_links_are_links_of_the_page (page : string) :
  in_order (findall_links page) page
  /\ Forall link_shaped (findall_links page).
Proof.
  apply (findall_links_sound_upto (String.length page)). lia.
Qed.

Lemma in_order_elem (links : list (string * string)) :
  forall page txt href,
    in_order links page -> (txt, href) ∈ links ->
    substring (link_md txt href) page.
Proof.
  induction links as [|[t h] rest IH]; intros page txt href Hord Hin.
  - inversion Hin.
  - destruct Hord as (pre & post & -> & Hrest).
    apply elem_of_cons in Hin as [[= -> ->]|Hin].
    + exists pre, post. reflexivity.
    + destruct (IH post txt href Hrest Hin) as (pre' & post' & ->).
      exists (pre +:+ link_md t h +:+ pre'), post'.
      rewrite !append_assoc. reflexivity.
Qed.

End LinkFacts.

(** * More properties of the title check and of [discover_job_links] *)

Module DiscoverMore.
Import ScraperService FetchFacts CandidateFacts DiscoverFacts.
Section WithWorld.
Context {W : Type} `{External W}.

Implicit Types (url board_url : string) (w : W) (tr : list event).
Implicit Types (c : candidate) (cands : list candidate).
Implicit Types (matched_urls : list string).

(** *** [_extract_job_title_from_page] *)

(** The title check, whatever the services do: the requests are those of
    one fetch of the page, and a title that comes back has at most 200
    characters and has cost one model call, on a prompt with at most 2000
    characters of the page. *)
Lemma extract_shape url w :
  exists t w1 tr,
    _extract_job_title_from_page url w = (Ret t, w1, tr)
    /\ Forall (fun u => u = jina url) (gets tr)
    /\ (length (gets tr) <= 3)%nat
    /\ (length (invokes tr) <= 1)%nat
    /\ (forall title, t = Some title ->
          (String.length title <= 200)%nat
          /\ exists content,
               invokes tr = [title_prompt content]).
Proof.
  destruct (FetchMore.fetch_page_content_shape url 3 w)
    as (v & w1 & tr & Hf & _ & Hn & _).
  destruct (fetch_page_content_returns url 3 w) as (v' & w1' & tr' & Hf' & Hg & Hi).
  rewrite Hf in Hf'. injection Hf' as <- <- <-.
  change (Z.to_nat 3) with 3%nat in Hn.
  destruct (PyStr.truthy v) eqn:Hv.
  - destruct v as [content|]; [|discriminate]. cbn in Hv.
    rewrite (extract_fetched _ _ _ _ _ Hf Hv).
    destruct (os_getenv "OPENAI_API_KEY" w1) as [api_key|].
    2:{ eexists _, _, _. split; [reflexivity|]. rewrite Hi.
        (split; [exact Hg|]; split; [exact Hn|]; split; [cbn; lia|]; intros ? Heq; discriminate Heq). }
    destruct (PyStr.nonempty api_key).
    2:{ eexists _, _, _. split; [reflexivity|]. rewrite Hi.
        (split; [exact Hg|]; split; [exact Hn|]; split; [cbn; lia|]; intros ? Heq; discriminate Heq). }
    destruct (llm_invoke api_key (title_prompt content) w1) as [[r|e] w2].
    + destruct r as [| | | |s| |];
        try (eexists _, _, _; split; [reflexivity|];
             autorewrite with trace_more; rewrite Hi;
             (split; [exact Hg|]; split; [exact Hn|]; split; [cbn; lia|]; intros ? Heq; discriminate Heq)).
      eexists _, _, _. split; [reflexivity|].
      autorewrite with trace_more. rewrite Hi.
      split; [exact Hg|]. split; [exact Hn|]. split; [cbn; lia|].
      intros title [= <-]. split; [apply (FetchMore.take_length 200)|].
      exists content. reflexivity.
    + eexists _, _, _. split; [reflexivity|].
      autorewrite with trace_more. rewrite Hi.
      (split; [exact Hg|]; split; [exact Hn|]; split; [cbn; lia|]; intros ? Heq; discriminate Heq).
  - rewrite (extract_falsy_fetch _ _ _ _ _ Hf Hv).
    eexists _, _, _. split; [reflexivity|]. rewrite Hi.
    (split; [exact Hg|]; split; [exact Hn|]; split; [cbn; lia|]; intros ? Heq; discriminate Heq).
Qed.

Lemma title_prompt_length (content : string) :
  String.length (title_prompt content)
  = (String.length (title_prompt "") + String.length (PyStr.take 2000 content))%nat.
Proof.
  unfold title_prompt. rewrite PyStrFacts.take_empty.
  rewrite !LinkFacts.length_append. cbn [String.length]. lia.
Qed.

(** X5.  A title that [_extract_job_title_from_page] returns has at most
    200 characters; it has cost exactly one model call, and the prompt of
    that call carries at most 2000 characters of the page: with the fixed
    text around them, at most 2248 characters. *)
Theorem extracted_title_is_bounded url w title w1 tr :
  _extract_job_title_from_page url w = (Ret (Some title), w1, tr) ->
  Z.of_nat (String.length title) <= 200
  /\ exists prompt,
       invokes tr = [prompt] /\ Z.of_nat (String.length prompt) <= 2248.
Proof.
  intros He.
  destruct (extract_shape url w) as (t & w1' & tr' & He' & _ & _ & _ & Ht).
  rewrite He in He'. injection He' as <- <- <-.
  destruct (Ht title eq_refl) as (Hlen & content & Hi).
  split; [lia|]. exists (title_prompt content). split; [exact Hi|].
  rewrite title_prompt_length.
  pose proof (FetchMore.take_length 2000 content).
  change (String.length (title_prompt "")) with 248%nat. lia.
Qed.

(** *** The title check of one candidate *)

(** The title check of one candidate is the title check of its page between
    log lines, and how it ends depends on the title and the lower-cased
    keyword only. *)
Lemma check_candidate_trace role_keyword keyword_lower n i c matched_urls w t w1 te :
  _extract_job_title_from_page (cand_url c) w = (Ret t, w1, te) ->
  exists l,
    check_candidate role_keyword keyword_lower n i c matched_urls w
    = (Ret (step_of keyword_lower t (cand_url c) matched_urls), w1,
       (EvPrint (LogChecking (i + 1) n (PyStr.take 60 (cand_url c))) :: te)
       ++ map EvPrint l).
Proof.
  intros He. rewrite (check_candidate_eq _ _ _ _ _ _ _ _ _ _ He). cbn zeta.
  unfold step_of.
  destruct t as [title|]; [|exists [LogNoTitle (PyStr.take 60 (cand_url c))]; reflexivity].
  destruct (PyStr.nonempty title); cbn [andb];
    [|exists [LogNoTitle (PyStr.take 60 (cand_url c))]; reflexivity].
  destruct (title_matches keyword_lower (PyStr.lower title));
    [|exists [LogSkipped title role_keyword]; reflexivity].
  destruct (max_matches <=? length (matched_urls ++ [cand_url c]))%nat.
  - exists [LogMatched title (length (matched_urls ++ [cand_url c])) max_matches;
            LogStopEarly max_matches]. reflexivity.
  - exists [LogMatched title (length (matched_urls ++ [cand_url c])) max_matches].
    reflexivity.
Qed.

Lemma pace_trace n i w :
  exists tr,
    pace n i w = (Ret tt, snd (fst (pace n i w)), tr)
    /\ gets tr = [] /\ invokes tr = [].
Proof. apply pace_returns. Qed.

(** *** The loop *)

(** The pause, as the loop sees it. *)
Lemma pace_eq n i w : pace n i w = (Ret tt, snd (fst (pace n i w)), snd (pace n i w)).
Proof.
  destruct (pace_trace n i w) as (tr & Hp & _).
  rewrite Hp at 3. rewrite Hp at 1. reflexivity.
Qed.

Lemma pace_silent n i w :
  gets (snd (pace n i w)) = [] /\ invokes (snd (pace n i w)) = [].
Proof.
  destruct (pace_trace n i w) as (tr & Hp & Hg & Hi). rewrite Hp. auto.
Qed.

(** One step of the loop, unfolded with the title check named. *)
Lemma check_candidates_step role_keyword keyword_lower n i c rest matched_urls w t w1 te :
  _extract_job_title_from_page (cand_url c) w = (Ret t, w1, te) ->
  exists l,
    check_candidates role_keyword keyword_lower n i (c :: rest) matched_urls w
    = match step_of keyword_lower t (cand_url c) matched_urls with
      | Break urls =>
          (Ret urls, w1,
           (EvPrint (LogChecking (i + 1) n (PyStr.take 60 (cand_url c))) :: te)
           ++ map EvPrint l)
      | Next urls =>
          let '(r, w3, t3) :=
            check_candidates role_keyword keyword_lower n (S i) rest urls
              (snd (fst (pace n i w1))) in
          (r, w3,
           ((EvPrint (LogChecking (i + 1) n (PyStr.take 60 (cand_url c))) :: te)
            ++ map EvPrint l) ++ snd (pace n i w1) ++ t3)
      end.
Proof.
  intros He.
  destruct (check_candidate_trace role_keyword keyword_lower n i c matched_urls
              w t w1 te He) as (l & Hc).
  exists l. rewrite check_candidates_cons, Hc.
  destruct (step_of keyword_lower t (cand_url c) matched_urls) as [urls|urls].
  - rewrite app_nil_r. reflexivity.
  - rewrite (pace_eq n i w1) at 1.
    destruct (check_candidates _ _ _ _ _ _ _) as [[r w3] t3]. reflexivity.
Qed.

(** The loop requests at most three times per candidate. *)
Lemma check_candidates_budget role_keyword keyword_lower n cands :
  forall i matched_urls w,
  exists urls w1 tr,
    check_candidates role_keyword keyword_lower n i cands matched_urls w
    = (Ret urls, w1, tr)
    /\ (length (gets tr) <= 3 * length cands)%nat.
Proof.
  induction cands as [|c rest IH]; intros i matched_urls w.
  - exists matched_urls, w, []. split; [reflexivity | cbn; lia].
  - destruct (extract_shape (cand_url c) w) as (t & w1 & te & He & _ & Hn & _).
    destruct (check_candidates_step role_keyword keyword_lower n i c rest
                matched_urls w t w1 te He) as (l & ->).
    destruct (pace_silent n i w1) as [Hg _].
    destruct (step_of keyword_lower t (cand_url c) matched_urls) as [urls|urls].
    + eexists _, _, _. split; [reflexivity|].
      rewrite <- app_comm_cons. autorewrite with trace_more. cbn [length]. lia.
    + destruct (IH (S i) urls (snd (fst (pace n i w1))))
        as (urls' & w3 & t3 & -> & Hn3).
      eexists _, _, _. split; [reflexivity|].
      rewrite <- app_comm_cons. autorewrite with trace_more.
      rewrite Hg, !length_app. cbn [length app]. lia.
Qed.

(** The result of the loop does not depend on how the keyword was written,
    only on its lower-cased form: the two runs differ in log lines only. *)
Lemma check_candidates_keyword role_keyword1 role_keyword2 keyword_lower n cands :
  forall i matched_urls w,
  exists r w1 tr1 tr2,
    check_candidates role_keyword1 keyword_lower n i cands matched_urls w
    = (r, w1, tr1)
    /\ check_candidates role_keyword2 keyword_lower n i cands matched_urls w
       = (r, w1, tr2)
    /\ quiet tr1 = quiet tr2.
Proof.
  induction cands as [|c rest IH]; intros i matched_urls w.
  - eexists _, _, _, _. split; [reflexivity|]. split; reflexivity.
  - destruct (extract_shape (cand_url c) w) as (t & w1 & te & He & _).
    destruct (check_candidates_step role_keyword1 keyword_lower n i c rest
                matched_urls w t w1 te He) as (l1 & ->).
    destruct (check_candidates_step role_keyword2 keyword_lower n i c rest
                matched_urls w t w1 te He) as (l2 & ->).
    destruct (step_of keyword_lower t (cand_url c) matched_urls) as [urls|urls].
    + eexists _, _, _, _. split; [reflexivity|]. split; [reflexivity|].
      rewrite <- !app_comm_cons. autorewrite with trace_more. reflexivity.
    + destruct (IH (S i) urls (snd (fst (pace n i w1))))
        as (r & w3 & t31 & t32 & -> & -> & Hq).
      eexists _, _, _, _. split; [reflexivity|]. split; [reflexivity|].
      rewrite <- !app_comm_cons. autorewrite with trace_more.
      rewrite Hq. reflexivity.
Qed.

(** Without a title for any candidate the loop leaves the matches as they
    are. *)
Lemma check_candidates_no_titles role_keyword keyword_lower n cands :
  (forall url w, exists w1 tr,
      _extract_job_title_from_page url w = (Ret None, w1, tr)
      /\ invokes tr = []) ->
  forall i matched_urls w,
  exists w1 tr,
    check_candidates role_keyword keyword_lower n i cands matched_urls w
    = (Ret matched_urls, w1, tr)
    /\ invokes tr = [].
Proof.
  intros Hnone. induction cands as [|c rest IH]; intros i matched_urls w.
  - exists w, []. split; reflexivity.
  - destruct (Hnone (cand_url c) w) as (w1 & te & He & Hi).
    destruct (check_candidates_step role_keyword keyword_lower n i c rest
                matched_urls w None w1 te He) as (l & ->).
    destruct (pace_silent n i w1) as [_ Hip].
    cbn [step_of].
    destruct (IH (S i) matched_urls (snd (fst (pace n i w1))))
      as (w3 & t3 & -> & Hi3).
    eexists _, _. split; [reflexivity|].
    rewrite <- app_comm_cons. autorewrite with trace_more.
    rewrite Hi, Hip, Hi3. reflexivity.
Qed.

(** *** [discover_job_links] *)

(** X6.  The URLs that [discover_job_links] returns are distinct, and each
    is the target of a Markdown link that stands on the fetched board page
    with a text of at least 4 characters; each starts with "http" and has
    no closing parenthesis. *)
Theorem returned_urls_are_links_of_the_board board_url role_keyword w urls w2 tr :
  discover_job_links board_url role_keyword w = (Ret urls, w2, tr) ->
  NoDup urls
  /\ exists v w1 tr1,
       fetch_page_content board_url 3 w = (Ret v, w1, tr1)
       /\ forall u, u ∈ urls ->
            (exists tail, u = "http" +:+ tail)
            /\ ~ substring ")" u
            /\ exists txt,
                 (4 <= String.length txt)%nat
                 /\ substring (link_md txt u) (page_of v).
Proof.
  intros Hd.
  destruct (discover_urls _ _ _ _ _ _ Hd) as (v & w1 & tr1 & Hf & Hsub & _).
  destruct (candidates_of_spec (page_of v)) as (Hnd & _ & Hcand & _).
  split; [eapply sublist_NoDup; eassumption|].
  exists v, w1, tr1. split; [exact Hf|].
  intros u Hu. apply (elem_of_sublist _ _ _ Hu) in Hsub.
  apply list_elem_of_fmap in Hsub as (c & -> & Hc).
  destruct (Hcand c Hc) as (Hin & Hlen & _).
  destruct (LinkFacts.findall_links_sound_upto (String.length (page_of v))
              (page_of v) ltac:(lia)) as [Hord Hshape].
  rewrite Forall_forall in Hshape.
  destruct (Hshape _ Hin) as (_ & _ & (tail & Htail & _) & Hparen).
  cbn [link_of fst snd] in *.
  split; [eauto|]. split; [exact Hparen|].
  exists (cand_text c). split; [exact Hlen|].
  apply (LinkFacts.in_order_elem _ _ _ _ Hord Hin).
Qed.

(** Without the model credential no page yields a title. *)
Lemma extract_without_credential url w :
  (forall w', PyStr.truthy (os_getenv "OPENAI_API_KEY" w') = false) ->
  exists w1 tr,
    _extract_job_title_from_page url w = (Ret None, w1, tr) /\ invokes tr = [].
Proof.
  intros Hkey.
  destruct (fetch_page_content_returns url 3 w) as (v & w1 & tr & Hf & _ & Hi).
  destruct (PyStr.truthy v) eqn:Hv.
  - destruct v as [content|]; [|discriminate]. cbn in Hv.
    rewrite (extract_fetched _ _ _ _ _ Hf Hv).
    specialize (Hkey w1).
    destruct (os_getenv "OPENAI_API_KEY" w1) as [api_key|]; [|eauto].
    cbn in Hkey. rewrite Hkey. eauto.
  - rewrite (extract_falsy_fetch _ _ _ _ _ Hf Hv). eauto.
Qed.

(** X7.  Without the model credential [discover_job_links] finds nothing:
    whatever the board page holds and whatever the keyword is, it returns
    the empty list and never calls the model. *)
Theorem no_model_credential_finds_nothing board_url role_keyword w :
  (forall w', PyStr.truthy (os_getenv "OPENAI_API_KEY" w') = false) ->
  exists w1 tr,
    discover_job_links board_url role_keyword w = (Ret [], w1, tr)
    /\ invokes tr = [].
Proof.
  intros Hkey. rewrite discover_job_links_eq.
  destruct (fetch_page_content_returns board_url 3 w) as (v & w1 & tr & Hf & _ & Hi).
  destruct (PyStr.truthy v) eqn:Hv.
  - destruct v as [md|]; [|discriminate]. cbn in Hv.
    rewrite (discover_body_fetched _ _ _ _ _ _ Hf Hv). cbn zeta.
    destruct (candidates_of md) as [|c cands].
    { eexists _, _. split; [reflexivity|].
      autorewrite with trace_more. rewrite Hi. reflexivity. }
    destruct role_keyword;
      try (eexists _, _; split; [reflexivity|];
           autorewrite with trace_more; rewrite Hi; reflexivity).
    destruct (check_candidates_no_titles (PStr s) (PyStr.lower s)
                (length (c :: cands)) (c :: cands)
                (fun url w' => extract_without_credential url w' Hkey) 0 [] w1)
      as (w2 & t2 & -> & Hi2).
    eexists _, _. split; [reflexivity|].
    autorewrite with trace_more. rewrite Hi, Hi2. reflexivity.
  - rewrite (discover_body_not_fetched _ _ _ _ _ _ Hf Hv).
    eexists _, _. split; [reflexivity | exact Hi].
Qed.

(** X8.  The keyword is case-insensitive all the way: two keywords with
    the same lower-cased form give the same URLs, leave the world in the
    same state and make the same requests, model calls and waits; the runs
    differ in log lines only. *)
Theorem keyword_case_does_not_matter board_url keyword1 keyword2 w :
  PyStr.lower keyword1 = PyStr.lower keyword2 ->
  exists urls w1 tr1 tr2,
    discover_job_links board_url (PStr keyword1) w = (Ret urls, w1, tr1)
    /\ discover_job_links board_url (PStr keyword2) w = (Ret urls, w1, tr2)
    /\ quiet tr1 = quiet tr2.
Proof.
  intros Hlow. rewrite !discover_job_links_eq.
  destruct (fetch_page_content_returns board_url 3 w) as (v & w1 & tr & Hf & _).
  destruct (PyStr.truthy v) eqn:Hv.
  - destruct v as [md|]; [|discriminate]. cbn in Hv.
    rewrite !(discover_body_fetched _ _ _ _ _ _ Hf Hv). cbn zeta.
    destruct (candidates_of md) as [|c cands].
    { eexists _, _, _, _. split; [reflexivity|]. split; [reflexivity|].
      autorewrite with trace_more. reflexivity. }
    rewrite <- Hlow.
    destruct (check_candidates_keyword (PStr keyword1) (PStr keyword2)
                (PyStr.lower keyword1) (length (c :: cands)) (c :: cands) 0 [] w1)
      as (r & w2 & t1 & t2 & -> & -> & Hq).
    destruct r as [urls|e].
    + eexists _, _, _, _. split; [reflexivity|]. split; [reflexivity|].
      autorewrite with trace_more. rewrite Hq. reflexivity.
    + eexists _, _, _, _. split; [reflexivity|]. split; [reflexivity|].
      autorewrite with trace_more. rewrite Hq. reflexivity.
  - rewrite !(discover_body_not_fetched _ _ _ _ _ _ Hf Hv).
    eexists _, _, _, _. split; [reflexivity|]. split; reflexivity.
Qed.

(** X9.  [discover_job_links] requests the board page and pages of
    candidates, nothing else: a link that the filter dropped is never
    fetched.  It makes at most three requests per page and at most one
    model call per candidate. *)
Theorem discover_requests_only_candidate_pages board_url role_keyword w :
  exists urls w2 tr v w1 tr1,
    discover_job_links board_url role_keyword w = (Ret urls, w2, tr)
    /\ fetch_page_content board_url 3 w = (Ret v, w1, tr1)
    /\ Forall (fun u => u = jina board_url
                        \/ u ∈ map (fun c => jina (cand_url c))
                                 (candidates_of (page_of v))) (gets tr)
    /\ (length (gets tr) <= 3 * S (length (candidates_of (page_of v))))%nat
    /\ (length (invokes tr) <= length (candidates_of (page_of v)))%nat.
Proof.
  rewrite discover_job_links_eq.
  destruct (FetchMore.fetch_page_content_shape board_url 3 w)
    as (v & w1 & tr & Hf & _ & Hn & _).
  destruct (fetch_page_content_returns board_url 3 w) as (v' & w1' & tr' & Hf' & Hg & Hi).
  rewrite Hf in Hf'. injection Hf' as <- <- <-.
  change (Z.to_nat 3) with 3%nat in Hn.
  assert (Hg' : forall cands,
            Forall (fun u => u = jina board_url
                             \/ u ∈ map (fun c => jina (cand_url c)) cands) (gets tr)).
  { intros cands. eapply Forall_impl; [exact Hg|]. intros u ->. left. reflexivity. }
  assert (Hstop : forall tr2,
            gets tr2 = gets tr -> invokes tr2 = [] ->
            exists urls w2 tr2' v' w1' tr1',
              (Ret (A := list string) [], w1, tr2) = (Ret urls, w2, tr2')
              /\ (Ret v, w1, tr) = (Ret v', w1', tr1')
              /\ Forall (fun u => u = jina board_url
                                  \/ u ∈ map (fun c => jina (cand_url c))
                                           (candidates_of (page_of v'))) (gets tr2')
              /\ (length (gets tr2') <= 3 * S (length (candidates_of (page_of v'))))%nat
              /\ (length (invokes tr2') <= length (candidates_of (page_of v')))%nat).
  { intros tr2 Hg2 Hi2.
    eexists _, _, _, _, _, _. split; [reflexivity|]. split; [reflexivity|].
    rewrite Hg2, Hi2. split; [apply Hg'|]. cbn; lia. }
  destruct (PyStr.truthy v) eqn:Hv.
  - destruct v as [md|]; [|discriminate]. cbn in Hv.
    rewrite (discover_body_fetched _ _ _ _ _ _ Hf Hv). cbn zeta.
    change (page_of (Some md)) with md in *.
    destruct (candidates_of md) as [|c cands] eqn:Hc.
    { rewrite Hf. apply Hstop; autorewrite with trace_more;
        [reflexivity | exact Hi]. }
    destruct role_keyword as [| | | |s| |];
      try (rewrite Hf; apply Hstop; autorewrite with trace_more;
           [reflexivity | exact Hi]).
    destruct (check_candidates_returns (PStr s) (PyStr.lower s)
                (length (c :: cands)) (c :: cands) 0 [] w1)
      as (picked & w3 & t3 & Hrun & _ & _ & Hg3 & Hi3).
    destruct (check_candidates_budget (PStr s) (PyStr.lower s)
                (length (c :: cands)) (c :: cands) 0 [] w1)
      as (urls' & w3' & t3' & Hrun' & Hn3).
    rewrite Hrun in Hrun'. injection Hrun' as <- <- <-.
    rewrite Hrun, Hf.
    eexists _, _, _, _, _, _. split; [reflexivity|]. split; [reflexivity|].
    change (page_of (Some md)) with md. rewrite Hc.
    autorewrite with trace_more. rewrite Hi, !length_app.
    change (gets []) with (@nil string). change (invokes []) with (@nil string).
    cbn [app length] in *.
    split; [|lia].
    apply Forall_app. split; [apply Hg'|].
    eapply Forall_impl; [exact Hg3|]. intros u Hu. right. exact Hu.
  - rewrite (discover_body_not_fetched _ _ _ _ _ _ Hf Hv), Hf.
    apply Hstop; [reflexivity | exact Hi].
Qed.

End WithWorld.

(** The theorems at work on scripted services. *)

Lemma extracted_title_is_bounded_witness :
  Z.of_nat (String.length "Backend Engineer") <= 200
  /\ exists prompt,
       invokes [EvGet (jina apply_url) [("User-Agent", user_agent)] 25;
                EvInvoke "sk-test" (title_prompt "Job posting")]
       = [prompt]
       /\ Z.of_nat (String.length prompt) <= 2248.
Proof.
  apply (extracted_title_is_bounded (H := acme) apply_url after_board
           "Backend Engineer" {| http_calls := 2; llm_calls := 1 |}).
  vm_compute. reflexivity.
Defined.

Lemma returned_urls_are_links_witness :
  NoDup [apply_url]
  /\ exists v w1 tr1,
       fetch_page_content (H := acme) careers_url 3 w0 = (Ret v, w1, tr1)
       /\ forall u, u ∈ [apply_url] ->
            (exists tail, u = "http" +:+ tail)
            /\ ~ substring ")" u
            /\ exists txt,
                 (4 <= String.length txt)%nat
                 /\ substring (link_md txt u) (page_of v).
Proof.
  eapply (returned_urls_are_links_of_the_board (H := acme) careers_url
            (PStr "Engineer") w0).
  vm_compute. reflexivity.
Defined.

Lemma no_model_credential_witness :
  exists w1 tr,
    discover_job_links (H := mock_external (mock_status 200 acme_page))
      careers_url (PStr "engineer") w0 = (Ret [], w1, tr)
    /\ invokes tr = [].
Proof.
  apply (no_model_credential_finds_nothing
           (H := mock_external (mock_status 200 acme_page))).
  intros w'. reflexivity.
Defined.

Lemma keyword_case_witness :
  exists urls w1 tr1 tr2,
    discover_job_links (H := acme) careers_url (PStr "Engineer") w0
    = (Ret urls, w1, tr1)
    /\ discover_job_links (H := acme) careers_url (PStr "ENGINEER") w0
       = (Ret urls, w1, tr2)
    /\ quiet tr1 = quiet tr2.
Proof.
  apply (keyword_case_does_not_matter (H := acme)). reflexivity.
Defined.

End DiscoverMore.

(** * More properties of [parse_job_description_with_ai] *)

Module AnalysisMore.
Import AnalysisEngine AnalysisFacts.
Section WithWorld.
Context {W : Type} `{External W}.
Variable json_loads : string -> outcome pyval.

Implicit Types (w : W) (parsed d : gmap string pyval) (keys : list string).

Lemma missing_keys_insert keys parsed (key : string) (v : pyval) :
  key ∉ keys ->
  missing_keys keys (<[key := v]> parsed) = missing_keys keys parsed.
Proof.
  induction keys as [|k keys IH]; intros Hnin; [reflexivity|].
  apply not_elem_of_cons in Hnin as [Hne Hnin].
  cbn [missing_keys List.filter]. rewrite lookup_insert_ne by congruence.
  fold (missing_keys keys (<[key := v]> parsed)). fold (missing_keys keys parsed).
  rewrite (IH Hnin). reflexivity.
Qed.

(** The loop logs each key it fills in, once, in the order of the list. *)
Lemma fill_missing_trace keys parsed w :
  NoDup keys ->
  fill_missing keys parsed w
  = (Ret (with_defaults keys parsed), w,
     map (fun key => EvPrint (LogMissingKey key)) (missing_keys keys parsed)).
Proof.
  intros Hnd. revert parsed.
  induction keys as [|key rest IH]; intros parsed; [reflexivity|].
  apply NoDup_cons in Hnd as [Hnin Hnd].
  cbn [fill_missing with_defaults missing_keys List.filter].
  fold (missing_keys rest parsed).
  destruct (parsed !! key) as [v|].
  - apply (IH Hnd).
  - unfold bind, print. rewrite (IH Hnd).
    rewrite (missing_keys_insert _ _ _ _ Hnin). reflexivity.
Qed.

Lemma required_keys_distinct : NoDup required_keys.
Proof.
  unfold required_keys. repeat (apply NoDup_cons; split; [|]);
    try apply NoDup_nil_2;
    rewrite ?elem_of_cons, ?elem_of_nil; intros Hin;
    repeat (destruct Hin as [Hin|Hin]); try discriminate Hin; exact Hin.
Qed.

(** X10.  When the reply parses to a JSON object, the run is the model
    call followed by one "missing key" line for each required key the
    object lacks, in the order job_title, company, min, max, and nothing
    else; so an object that has the four keys comes back as it is, with no
    line logged. *)
Theorem object_reply_is_repaired_and_logged text_content w api_key s parsed w1 :
  os_getenv "OPENAI_API_KEY" w = Some api_key ->
  PyStr.nonempty api_key = true ->
  llm_invoke api_key (extraction_prompt text_content) w = (Ret (PStr s), w1) ->
  json_loads s = Ret (PDict parsed) ->
  parse_job_description_with_ai json_loads text_content w
  = (Ret (with_defaults required_keys parsed), w1,
     EvInvoke api_key (extraction_prompt text_content)
     :: map (fun key => EvPrint (LogMissingKey key))
          (missing_keys required_keys parsed))
  /\ ((forall key, key ∈ required_keys -> is_Some (parsed !! key)) ->
      with_defaults required_keys parsed = parsed
      /\ missing_keys required_keys parsed = []).
Proof.
  intros Hk Hne Hi Hj. split.
  - unfold parse_job_description_with_ai, bind, getenv. rewrite Hk.
    cbn [PyStr.truthy]. rewrite Hne. cbn [negb].
    change (default EmptyString (Some api_key)) with api_key.
    unfold try_except, try_except_cls, try_except, bind, invoke. rewrite Hi.
    cbn [loads_content]. rewrite Hj. unfold ret at 1.
    rewrite (fill_missing_trace _ _ _ required_keys_distinct). reflexivity.
  - intros Hall. split.
    + apply map_eq. intros k. rewrite with_defaults_lookup.
      destruct (parsed !! k) as [v|] eqn:Hv; [reflexivity|].
      destruct (decide (k ∈ required_keys)) as [Hin|_]; [|reflexivity].
      destruct (Hall k Hin) as [v Hv']. congruence.
    + unfold missing_keys, required_keys in *.
      cbn [List.filter].
      destruct (Hall "job_title" ltac:(rewrite !elem_of_cons; auto)) as [? ->].
      destruct (Hall "company" ltac:(rewrite !elem_of_cons; auto)) as [? ->].
      destruct (Hall "min" ltac:(rewrite !elem_of_cons; auto)) as [? ->].
      destruct (Hall "max" ltac:(rewrite !elem_of_cons; auto 6)) as [? ->].
      reflexivity.
Qed.

(** The effects of the call, whatever the services do. *)
Lemma parse_effects text_content w :
  exists d w1 tr,
    parse_job_description_with_ai json_loads text_content w = (Ret d, w1, tr)
    /\ gets tr = [] /\ sleeps tr = []
    /\ invokes tr
       = if PyStr.truthy (os_getenv "OPENAI_API_KEY" w)
         then [extraction_prompt text_content] else [].
Proof.
  destruct (PyStr.truthy (os_getenv "OPENAI_API_KEY" w)) eqn:Hk.
  - destruct (os_getenv "OPENAI_API_KEY" w) as [api_key|] eqn:Hkey; [|discriminate].
    cbn in Hk.
    unfold parse_job_description_with_ai, bind, getenv. rewrite Hkey.
    cbn [PyStr.truthy]. rewrite Hk. cbn [negb].
    change (default EmptyString (Some api_key)) with api_key.
    unfold try_except, try_except_cls, try_except, bind, invoke.
    destruct (llm_invoke api_key (extraction_prompt text_content) w)
      as [[content|e] w1].
    + destruct content as [| | | |s| |];
        try (eexists _, _, _; split; [reflexivity|]; repeat split).
      cbn [loads_content]. destruct (json_loads s) as [v|e].
      * destruct v as [| | | | | |parsed];
          try (eexists _, _, _; split; [reflexivity|]; repeat split).
        unfold ret at 1.
        rewrite (fill_missing_trace _ _ _ required_keys_distinct).
        eexists _, _, _. split; [reflexivity|].
        cbn [app]. generalize (missing_keys required_keys parsed). intros l.
        repeat split; induction l as [|k l IHl]; try reflexivity; exact IHl.
      * destruct e; eexists _, _, _; (split; [reflexivity|]); repeat split.
    + destruct e; eexists _, _, _; (split; [reflexivity|]); repeat split.
  - rewrite (parse_no_key _ _ _ Hk). eexists _, _, _.
    split; [reflexivity|]. repeat split.
Qed.

(** X11.  [parse_job_description_with_ai] touches the outside world by its
    model call only: it sends no HTTP request and takes no wait, and it
    calls the model exactly once, with the prompt built from the text, when
    the credential is set, and not at all otherwise. *)
Theorem parse_calls_the_model_at_most_once text_content w :
  exists d w1 tr,
    parse_job_description_with_ai json_loads text_content w = (Ret d, w1, tr)
    /\ gets tr = [] /\ sleeps tr = []
    /\ invokes tr
       = if PyStr.truthy (os_getenv "OPENAI_API_KEY" w)
         then [extraction_prompt text_content] else [].
Proof. apply parse_effects. Qed.

End WithWorld.

Lemma object_reply_witness :
  parse_job_description_with_ai
    (H := mock_external (mock_reply (Ret (PStr title_only_reply))))
    (json_table known_replies) "We are hiring." w0
  = (Ret (with_defaults required_keys title_only_record),
     {| http_calls := 0; llm_calls := 1 |},
     EvInvoke "sk-test" (extraction_prompt "We are hiring.")
     :: map (fun key => EvPrint (LogMissingKey key))
          (missing_keys required_keys title_only_record))
  /\ ((forall key, key ∈ required_keys -> is_Some (title_only_record !! key)) ->
      with_defaults required_keys title_only_record = title_only_record
      /\ missing_keys required_keys title_only_record = []).
Proof.
  apply (object_reply_is_repaired_and_logged
           (H := mock_external (mock_reply (Ret (PStr title_only_reply))))
           (json_table known_replies) "We are hiring." w0 "sk-test"
           title_only_reply title_only_record);
    reflexivity.
Defined.

End AnalysisMore.

(** * Properties of [debug_fetch] *)

Module DebugFacts.
Import ScraperService ScraperDebug.
Section WithWorld.
Context {W : Type} {HE : External W} {HC : Clock W}.
Variable round_elapsed : Q -> Q -> Q.

(** The run of [debug_fetch], by what the reader does with the one
    request. *)
Lemma debug_fetch_run url w :
  let w0 := snd (time_time w) in
  debug_fetch round_elapsed url w
  = match requests_get (jina url) [] 25 w0 with
    | (Ret r, w1) =>
        let duration := round_elapsed (fst (time_time w)) (fst (time_time w1)) in
        (Ret (if status_code r =? 200
              then {| steps := [StepRouting (jina url);
                                StepResponse (status_code r) duration;
                                StepReceived (String.length (text r))];
                      preview := PyStr.take 1000 (text r) +:+ "...";
                      success := true |}
              else {| steps := [StepRouting (jina url);
                                StepResponse (status_code r) duration;
                                StepFailed (status_code r)];
                      preview := EmptyString;
                      success := false |}),
         snd (time_time w1), [EvGet (jina url) [] 25])
    | (Raise e, w1) =>
        (Ret {| steps := [StepRouting (jina url); StepError e];
                preview := EmptyString; success := false |},
         w1, [EvGet (jina url) [] 25])
    end.
Proof.
  unfold debug_fetch, try_except, bind, now, http_get, ret, append_step.
  cbn [steps preview success app].
  destruct (time_time w) as [start wa]. cbn [fst snd].
  destruct (requests_get (jina url) [] 25 wa) as [[r|e] w1]; [|reflexivity].
  destruct (time_time w1) as [stop wb]. cbn [fst snd].
  destruct (status_code r =? 200); reflexivity.
Qed.

(** X12.  [debug_fetch] never raises and never retries: whatever the reader
    does, it returns a log after exactly one request, for the reader URL of
    the page with the 25 second timeout and without headers, so without the
    bearer token [fetch_page_content] sends when [JINA_API_KEY] is set; it
    takes no wait and makes no model call.  The log opens with the routing
    step and has two steps when the request raised and three otherwise. *)
Theorem debug_fetch_sends_one_bare_request url w :
  exists log w1,
    debug_fetch round_elapsed url w = (Ret log, w1, [EvGet (jina url) [] 25])
    /\ head (steps log) = Some (StepRouting (jina url))
    /\ (length (steps log) = 2%nat \/ length (steps log) = 3%nat)
    /\ (length (steps log) = 2%nat <->
        exists e w', requests_get (jina url) [] 25 (snd (time_time w)) = (Raise e, w')).
Proof.
  rewrite debug_fetch_run. cbn zeta.
  destruct (requests_get (jina url) [] 25 (snd (time_time w))) as [[r|e] w1].
  - eexists _, _. split; [reflexivity|].
    destruct (status_code r =? 200); cbn [steps head length];
      (split; [reflexivity|]); (split; [right; reflexivity|]);
      (split; [intros Hl; discriminate Hl | intros (e & w' & Heq); discriminate Heq]).
  - eexists _, _. split; [reflexivity|]. cbn [steps head length].
    split; [reflexivity|]. split; [left; reflexivity|].
    split; [intros _; eauto | reflexivity].
Qed.

(** X13.  The verdict of [debug_fetch]: [success] is set exactly when the
    reader answered the request with status 200.  The preview is then the
    first 1000 characters of the page followed by three dots, also when the
    page is shorter or empty, so it has between 3 and 1003 characters, and
    the last step reports the length of the whole page; without success the
    preview is empty. *)
Theorem debug_fetch_succeeds_exactly_on_200 url w log w1 tr :
  debug_fetch round_elapsed url w = (Ret log, w1, tr) ->
  (success log = true <->
   exists r w', requests_get (jina url) [] 25 (snd (time_time w)) = (Ret r, w')
                /\ status_code r = 200)
  /\ (success log = true ->
      exists r w', requests_get (jina url) [] 25 (snd (time_time w)) = (Ret r, w')
        /\ preview log = PyStr.take 1000 (text r) +:+ "..."
        /\ (3 <= String.length (preview log) <= 1003)%nat
        /\ last (steps log) = Some (StepReceived (String.length (text r))))
  /\ (success log = false -> preview log = EmptyString).
Proof.
  rewrite debug_fetch_run. cbn zeta.
  destruct (requests_get (jina url) [] 25 (snd (time_time w))) as [[r|e] w'] eqn:Hget.
  - pose proof (FetchMore.take_length 1000 (text r)) as Hl.
    remember (PyStr.take 1000 (text r)) as page eqn:Hpage.
    destruct (status_code r =? 200) eqn:Hst; intros [= <- <- <-];
      cbn [success preview steps].
    + apply Z.eqb_eq in Hst. split; [split; [eauto|reflexivity]|].
      split; [|intros Hf; discriminate Hf].
      intros _. exists r, w'. split; [reflexivity|]. rewrite <- Hpage.
      split; [reflexivity|]. split; [|reflexivity].
      rewrite LinkFacts.length_append.
      change (String.length "...") with 3%nat. lia.
    + apply Z.eqb_neq in Hst. split; [split|].
      * intros Hf; discriminate Hf.
      * intros (r' & w'' & [= <- <-] & Hs). contradiction.
      * split; [intros Hf; discriminate Hf | reflexivity].
  - intros [= <- <- <-]. cbn [success preview steps]. split; [split|].
    + intros Hf; discriminate Hf.
    + intros (r' & w'' & Heq & _). discriminate Heq.
    + split; [intros Hf; discriminate Hf | reflexivity].
Qed.

End WithWorld.

Lemma debug_fetch_succeeds_witness :
  exists r w',
    requests_get (External := mock_external (mock_status 200 "# Careers"))
      (jina careers_url) [] 25 (snd (time_time (Clock := mock_clock) w0))
    = (Ret r, w')
    /\ preview careers_log = PyStr.take 1000 (text r) +:+ "..."
    /\ (3 <= String.length (preview careers_log) <= 1003)%nat
    /\ last (steps careers_log) = Some (StepReceived (String.length (text r))).
Proof.
  refine (proj1 (proj2
            (debug_fetch_succeeds_exactly_on_200
               (HE := mock_external (mock_status 200 "# Careers"))
               (HC := mock_clock) seconds_between careers_url w0 careers_log
               {| http_calls := 1; llm_calls := 0 |}
               [EvGet (jina careers_url) [] 25] _)) _).
  - vm_compute. reflexivity.
  - reflexivity.
Defined.

End DebugFacts.

(** * Properties of [run_bulk_crawl] *)

Module CrawlFacts.
Import ScraperService AnalysisEngine App.

(** *** Projections of the traces of the route *)

Lemma adds_app a b : adds (a ++ b) = adds a ++ adds b.
Proof. apply omap_app. Qed.

Lemma adds_service t : adds (map Service t) = [].
Proof. induction t as [|ev t IH]; [reflexivity | exact IH]. Qed.

Lemma lookups_app a b : lookups (a ++ b) = lookups a ++ lookups b.
Proof. apply omap_app. Qed.

Lemma lookups_service t : lookups (map Service t) = [].
Proof. induction t as [|ev t IH]; [reflexivity | exact IH]. Qed.

Lemma commits_app a b : commits (a ++ b) = (commits a + commits b)%nat.
Proof. unfold commits. rewrite omap_app. apply length_app. Qed.

Lemma commits_service t : commits (map Service t) = 0%nat.
Proof. induction t as [|ev t IH]; [reflexivity | exact IH]. Qed.

Lemma rollbacks_app a b : rollbacks (a ++ b) = (rollbacks a + rollbacks b)%nat.
Proof. unfold rollbacks. rewrite omap_app. apply length_app. Qed.

Lemma rollbacks_service t : rollbacks (map Service t) = 0%nat.
Proof. induction t as [|ev t IH]; [reflexivity | exact IH]. Qed.

Lemma services_app a b : services (a ++ b) = services a ++ services b.
Proof. apply omap_app. Qed.

Lemma services_service t : services (map Service t) = t.
Proof. induction t as [|ev t IH]; [reflexivity|]. cbn. f_equal. exact IH. Qed.

Section WithWorld.
Context {W : Type} {HE : External W} {HA : WebApp W}.
Variable json_loads : string -> outcome pyval.

Implicit Types (w : W) (tr : list app_event).

(** *** The monad of the route *)

Lemma abind_ret {A B} (m : W -> outcome A * W * list app_event)
    (f : A -> W -> outcome B * W * list app_event) w a w1 t1 :
  m w = (Ret a, w1, t1) ->
  abind m f w = let '(r, w2, t2) := f a w1 in (r, w2, t1 ++ t2).
Proof. intros Hm. unfold abind. rewrite Hm. reflexivity. Qed.

Lemma abind_raise {A B} (m : W -> outcome A * W * list app_event)
    (f : A -> W -> outcome B * W * list app_event) w e w1 t1 :
  m w = (Raise e, w1, t1) ->
  abind m f w = (Raise e, w1, t1).
Proof. intros Hm. unfold abind. rewrite Hm. reflexivity. Qed.

Lemma lift_run {A} (m : M W A) w r w1 t :
  m w = (r, w1, t) -> lift m w = (r, w1, map Service t).
Proof. intros Hm. unfold lift. rewrite Hm. reflexivity. Qed.

(** *** Numbers *)

Lemma format_comma_number (v : pyval) (x : pyfloat) :
  as_number v = Some x -> format_comma v = Ret v.
Proof. destruct v; intros Hn; try discriminate Hn; reflexivity. Qed.

Lemma le_number_ret (v : pyval) (n : pyfloat) (b : bool) :
  le_number v n = Ret b ->
  exists x, as_number v = Some x /\ b = num_le x n.
Proof.
  unfold le_number. destruct (as_number v) as [x|]; intros Hr; [|discriminate Hr].
  injection Hr as <-. eauto.
Qed.

Lemma gt_number_ret (v : pyval) (n : pyfloat) (b : bool) :
  gt_number v n = Ret b ->
  exists x, as_number v = Some x /\ b = num_gt x n.
Proof.
  unfold gt_number. destruct (as_number v) as [x|]; intros Hr; [|discriminate Hr].
  injection Hr as <-. eauto.
Qed.

Lemma Qle_bool_false (x y : Q) : Qle_bool x y = false -> (y < x)%Q.
Proof.
  intros Hb. apply Qnot_le_lt. intros Hle. apply Qle_bool_iff in Hle. congruence.
Qed.

Lemma Qlt_le_bool_false (x y : Q) : (y < x)%Q -> Qle_bool x y = false.
Proof.
  intros Hlt. destruct (Qle_bool x y) eqn:Hb; [|reflexivity].
  apply Qle_bool_iff in Hb. exfalso. apply (Qlt_not_le _ _ Hlt Hb).
Qed.

(** [>] is asymmetric, and what is above a number that is not [<= 0] is
    not [<= 0] either. *)
Lemma num_gt_asym (x y : pyfloat) : num_gt x y = true -> num_gt y x = false.
Proof.
  destruct x as [a|[]|], y as [b|[]|]; cbn; intros Hgt;
    try reflexivity; try discriminate Hgt.
  apply negb_true_iff, Qle_bool_false in Hgt.
  apply negb_false_iff, Qle_bool_iff, Qlt_le_weak. exact Hgt.
Qed.

Lemma num_gt_positive (x y : pyfloat) :
  num_gt x y = true -> num_le y (FNum 0) = false -> num_le x (FNum 0) = false.
Proof.
  destruct x as [a|[]|], y as [b|[]|]; cbn; intros Hgt Hpos;
    try reflexivity; try discriminate Hgt; try discriminate Hpos.
  apply negb_true_iff, Qle_bool_false in Hgt. apply Qle_bool_false in Hpos.
  apply Qlt_le_bool_false. apply (Qlt_trans _ _ _ Hpos Hgt).
Qed.

Lemma valid_row_finite (row : Models.CompData) :
  valid_row row -> finite_range_ordered row.
Proof.
  intros (lo0 & hi0 & Hlo & Hhi & Hpos & Hord & _) lo hi Hlo' Hhi'.
  rewrite Hlo in Hlo'. rewrite Hhi in Hhi'.
  injection Hlo' as ->. injection Hhi' as ->. cbn in Hpos, Hord.
  split; [apply Qle_bool_false; exact Hpos|].
  apply Qle_bool_iff. apply negb_false_iff. exact Hord.
Qed.

(** *** The inner [try]: adding a row *)

Lemma save_row_shape data (smin smax : pyval) url (t : tally) w (lo hi : pyfloat) :
  as_number smin = Some lo -> as_number smax = Some hi ->
  let row := {| Models.company_name := dict_get data "company";
                Models.role_title := dict_get data "job_title";
                Models.salary_min := smin; Models.salary_max := smax;
                Models.source_url := PStr url |} in
  exists t' w1 tr,
    save_row data smin smax url t w = (Ret t', w1, tr)
    /\ adds tr = [row] /\ lookups tr = [] /\ services tr = []
    /\ commits tr = 0%nat /\ rollbacks tr = 0%nat
    /\ processed_count t' = processed_count t
    /\ items t' = S (items t)
    /\ (saved_count t' + length (results_html t)
        = saved_count t + length (results_html t'))%nat
    /\ (saved_count t' <= S (saved_count t))%nat.
Proof.
  intros Hlo Hhi row. unfold save_row. fold row. unfold db_add.
  destruct (session_add row w) as [[[]|e] w1].
  - unfold atry, abind, pure.
    rewrite (format_comma_number _ _ Hlo), (format_comma_number _ _ Hhi).
    eexists _, _, _. split; [reflexivity|].
    repeat (split; [reflexivity|]).
    unfold items. cbn. rewrite !length_app. cbn. repeat split; lia.
  - eexists _, _, _. split; [reflexivity|].
    repeat (split; [reflexivity|]).
    unfold items. cbn. rewrite !length_app. cbn. repeat split; lia.
Qed.

(** *** One page of the loop *)

Lemma reader_gets jina_url headers retry_count (tr : list event) :
  Forall (reader_event jina_url headers retry_count) tr ->
  Forall (fun u => u = jina_url) (gets tr) /\ invokes tr = [].
Proof.
  induction 1 as [|ev tr Hev _ [IHg IHi]]; [split; [constructor | reflexivity]|].
  destruct ev as [u hs tm|q|k p|l]; cbn in Hev |- *.
  - destruct Hev as (-> & _ & _). split; [constructor; [reflexivity | exact IHg] | exact IHi].
  - split; [exact IHg | exact IHi].
  - contradiction.
  - split; [exact IHg | exact IHi].
Qed.

Ltac crawl_trace :=
  rewrite ?app_nil_r, ?app_nil_l;
  rewrite ?adds_app, ?adds_service, ?lookups_app, ?lookups_service,
    ?commits_app, ?commits_service, ?rollbacks_app, ?rollbacks_service,
    ?services_app, ?services_service;
  cbn [adds lookups commits rollbacks services omap list_omap app length];
  rewrite ?app_nil_r, ?app_nil_l.

Lemma fetched_after_request url retry_count w (s : string) w1 (tr : list event) :
  fetch_page_content url retry_count w = (Ret (Some s), w1, tr) ->
  gets tr <> [].
Proof.
  intros Hrun. rewrite FetchFacts.fetch_page_content_unfold in Hrun.
  unfold py_range in Hrun.
  destruct (Z.le_gt_cases 0 retry_count) as [Hpos|Hneg].
  - destruct (FetchMore.fetch_loop_shape (jina url)
                (headers_for (os_getenv "JINA_API_KEY" w))
                retry_count (Z.to_nat retry_count) 0 w)
      as (v & w2 & tr2 & Hloop & _ & _ & _ & Hv); [lia|].
    rewrite Hloop in Hrun. injection Hrun as -> -> ->.
    destruct (Hv s eq_refl) as (_ & tr0 & ->).
    rewrite TraceFacts.gets_app. cbn. intros Heq.
    apply app_eq_nil in Heq as [_ Heq]. discriminate Heq.
  - replace (Z.to_nat retry_count) with 0%nat in Hrun by lia.
    discriminate Hrun.
Qed.

Ltac tally_leaf :=
  let t' := fresh "t'" in
  let Heq := fresh "Heq" in
  intros t' Heq; first [discriminate Heq | injection Heq as <-];
  unfold items; cbn; rewrite ?length_app; cbn; repeat split; lia.

Lemma mine_one_shape url (t : tally) w :
  exists o w1 tr,
    mine_one json_loads url t w = (o, w1, Service (EvSleep 1) :: tr)
    /\ Forall valid_row (adds tr)
    /\ Forall (fun row => Models.source_url row = PStr url) (adds tr)
    /\ (length (adds tr) <= length (lookups tr) <= 1)%nat
    /\ commits tr = 0%nat /\ rollbacks tr = 0%nat
    /\ Forall (fun u => u = jina url) (gets (services tr))
    /\ (length (gets (services tr)) <= 3)%nat
    /\ (length (invokes (services tr)) <= 1)%nat
    /\ (lookups tr <> [] -> gets (services tr) <> [])
    /\ (forall t', o = Ret t' ->
          processed_count t' = S (processed_count t)
          /\ items t' = S (items t)
          /\ (saved_count t' + length (results_html t)
              = saved_count t + length (results_html t'))%nat
          /\ (saved_count t' <= saved_count t + length (adds tr))%nat).
Proof.
  unfold mine_one.
  rewrite (abind_ret _ _ w tt (time_sleep 1 w) [Service (EvSleep 1)] eq_refl).
  destruct (FetchMore.fetch_page_content_shape url 3 (time_sleep 1 w))
    as (raw & w1 & trf & Hf & Hev & Hg & _).
  apply reader_gets in Hev as [Hgu Hfi].
  change (Z.to_nat 3) with 3%nat in Hg.
  rewrite (abind_ret _ _ _ _ _ _ (lift_run _ _ _ _ _ Hf)).
  destruct (PyStr.truthy raw) eqn:Hraw.
  - destruct raw as [page|]; [|discriminate Hraw].
    pose proof (fetched_after_request _ _ _ _ _ _ Hf) as Hne.
    destruct (AnalysisMore.parse_effects json_loads (default EmptyString (Some page)) w1)
      as (data & w2 & trp & Hp & Hpg & Hps & Hpi).
    rewrite (abind_ret _ _ _ _ _ _ (lift_run _ _ _ _ _ Hp)).
    assert (Forall (fun u => u = jina url) (gets (trf ++ trp))) as Hsg.
    { rewrite TraceFacts.gets_app, Hpg, app_nil_r. exact Hgu. }
    assert (length (gets (trf ++ trp)) <= 3)%nat as Hsl.
    { rewrite TraceFacts.gets_app, Hpg, app_nil_r. exact Hg. }
    assert (length (invokes (trf ++ trp)) <= 1)%nat as Hsi.
    { rewrite TraceFacts.invokes_app, Hfi, Hpi.
      destruct (PyStr.truthy (os_getenv "OPENAI_API_KEY" w1)); cbn; lia. }
    assert (gets (trf ++ trp) <> []) as Hsn.
    { rewrite TraceFacts.gets_app, Hpg, app_nil_r. exact Hne. }
    clear Hpi Hpg Hps Hgu Hfi Hg Hne.
    unfold abind, pure, aret, db_first.
    destruct (negb (truthy_value (dict_get data "job_title"))
              || negb (truthy_value (dict_get data "company")))%bool eqn:Hnames.
    { eexists _, _, _. split; [reflexivity|]. crawl_trace.
      split; [constructor|]. split; [constructor|]. split; [lia|].
      split; [reflexivity|]. split; [reflexivity|].
      split; [exact Hsg|]. split; [exact Hsl|]. split; [exact Hsi|].
      split; [intros _; exact Hsn | tally_leaf]. }
    apply orb_false_iff in Hnames as [Htitle Hcompany].
    apply negb_false_iff in Htitle. apply negb_false_iff in Hcompany.
    destruct (le_number (dict_get_or data "max" (PInt 0)) (FNum 0))
      as [no_salary|e] eqn:Hle.
    2:{ eexists _, _, _. split; [reflexivity|]. crawl_trace.
        split; [constructor|]. split; [constructor|]. split; [lia|].
        split; [reflexivity|]. split; [reflexivity|].
        split; [exact Hsg|]. split; [exact Hsl|]. split; [exact Hsi|].
        split; [intros _; exact Hsn | tally_leaf]. }
    apply le_number_ret in Hle as (hi0 & Hhi & Hb).
    destruct no_salary.
    { eexists _, _, _. split; [reflexivity|]. crawl_trace.
      split; [constructor|]. split; [constructor|]. split; [lia|].
      split; [reflexivity|]. split; [reflexivity|].
      split; [exact Hsg|]. split; [exact Hsl|]. split; [exact Hsi|].
      split; [intros _; exact Hsn | tally_leaf]. }
    symmetry in Hb.
    rewrite Hhi.
    destruct (gt_number (dict_get_or data "min" (PInt 0)) hi0) as [swap|e] eqn:Hgt.
    2:{ eexists _, _, _. split; [reflexivity|]. crawl_trace.
        split; [constructor|]. split; [constructor|]. split; [lia|].
        split; [reflexivity|]. split; [reflexivity|].
        split; [exact Hsg|]. split; [exact Hsl|]. split; [exact Hsi|].
        split; [intros _; exact Hsn | tally_leaf]. }
    apply gt_number_ret in Hgt as (lo0 & Hlo & Hs).
    assert (exists smin smax lo hi,
              (smin, smax)
              = (if swap
                 then (dict_get_or data "max" (PInt 0), dict_get_or data "min" (PInt 0))
                 else (dict_get_or data "min" (PInt 0), dict_get_or data "max" (PInt 0)))
              /\ as_number smin = Some lo /\ as_number smax = Some hi
              /\ num_le hi (FNum 0) = false /\ num_gt lo hi = false)
      as (smin & smax & lo & hi & Hpair & Hlo' & Hhi' & Hpos & Hord).
    { symmetry in Hs. destruct swap.
      - exists (dict_get_or data "max" (PInt 0)), (dict_get_or data "min" (PInt 0)),
          hi0, lo0.
        split; [reflexivity|]. split; [exact Hhi|]. split; [exact Hlo|].
        split; [apply (num_gt_positive _ _ Hs Hb) | apply (num_gt_asym _ _ Hs)].
      - exists (dict_get_or data "min" (PInt 0)), (dict_get_or data "max" (PInt 0)),
          lo0, hi0.
        split; [reflexivity|]. split; [exact Hlo|]. split; [exact Hhi|].
        split; [exact Hb | exact Hs]. }
    rewrite <- Hpair. clear Hpair Hs Hlo Hhi Hb.
    destruct (query_first (dict_get data "company") (dict_get data "job_title") w2)
      as [[[existing|]|e] w3].
    + destruct (format_comma (Models.salary_min existing)) as [a0|e0];
        [destruct (format_comma (Models.salary_max existing)) as [a1|e1]|];
        (eexists _, _, _; split; [reflexivity|]; crawl_trace;
         split; [constructor|]; split; [constructor|]; split; [lia|];
         split; [reflexivity|]; split; [reflexivity|];
         split; [exact Hsg|]; split; [exact Hsl|]; split; [exact Hsi|];
         split; [intros _; exact Hsn | tally_leaf]).
    + destruct (save_row_shape data smin smax url (count_processed t) w3 lo hi
                  Hlo' Hhi')
        as (t1 & w4 & trs & Hsave & Hadds & Hlk & Hsv & Hc & Hr & Hpc & Hit & Hsc
            & Hle).
      rewrite Hsave. eexists _, _, _. split; [reflexivity|]. crawl_trace.
      rewrite Hadds, Hlk, Hsv, Hc, Hr, ?app_nil_r.
      split.
      { constructor; [|constructor]. exists lo, hi. cbn. auto 10. }
      split; [constructor; [reflexivity | constructor]|].
      split; [cbn; lia|].
      split; [reflexivity|]. split; [reflexivity|].
      split; [exact Hsg|]. split; [exact Hsl|]. split; [exact Hsi|].
      split; [intros _; exact Hsn|].
      intros t' [= <-]. rewrite Hpc, Hit.
      revert Hsc Hle. unfold items. cbn. lia.
    + eexists _, _, _. split; [reflexivity|]. crawl_trace.
      split; [constructor|]. split; [constructor|]. split; [cbn; lia|].
      split; [reflexivity|]. split; [reflexivity|].
      split; [exact Hsg|]. split; [exact Hsl|]. split; [exact Hsi|].
      split; [intros _; exact Hsn | tally_leaf].
  - unfold aret. eexists _, _, _. split; [reflexivity|]. crawl_trace.
    split; [constructor|]. split; [constructor|]. split; [lia|].
    split; [reflexivity|]. split; [reflexivity|].
    split; [exact Hgu|]. split; [exact Hg|].
    split; [rewrite Hfi; cbn; lia|].
    split; [intros Hn; contradiction | tally_leaf].
Qed.

(** *** The loop *)

Lemma mine_cons url urls (t : tally) w :
  mine json_loads (url :: urls) t w
  = abind (mine_one json_loads url t) (fun t => mine json_loads urls t) w.
Proof. reflexivity. Qed.

Lemma mine_shape urls (t : tally) w :
  exists o w1 tr,
    mine json_loads urls t w = (o, w1, tr)
    /\ Forall valid_row (adds tr)
    /\ Forall (fun row => exists url,
                 url ∈ urls /\ Models.source_url row = PStr url
                 /\ jina url ∈ gets (services tr)) (adds tr)
    /\ (length (adds tr) <= length (lookups tr) <= length urls)%nat
    /\ commits tr = 0%nat /\ rollbacks tr = 0%nat
    /\ Forall (fun u => exists url, url ∈ urls /\ u = jina url) (gets (services tr))
    /\ (length (gets (services tr)) <= 3 * length urls)%nat
    /\ (length (invokes (services tr)) <= length urls)%nat
    /\ (forall t', o = Ret t' ->
          processed_count t' = (length urls + processed_count t)%nat
          /\ items t' = (length urls + items t)%nat
          /\ (saved_count t' + length (results_html t)
              = saved_count t + length (results_html t'))%nat
          /\ (saved_count t' <= saved_count t + length (adds tr))%nat).
Proof.
  revert t w. induction urls as [|url urls IH]; intros t w.
  - exists (Ret t), w, []. split; [reflexivity|].
    split; [constructor|]. split; [constructor|]. split; [cbn; lia|].
    split; [reflexivity|]. split; [reflexivity|].
    split; [constructor|]. split; [cbn; lia|]. split; [cbn; lia|].
    intros t' [= <-]. cbn. lia.
  - rewrite mine_cons.
    destruct (mine_one_shape url t w)
      as (o & w1 & tr1 & Hone & Hv1 & Hs1 & Hl1 & Hc1 & Hr1 & Hg1 & Hn1 & Hi1
          & Hf1 & Ht1).
    destruct o as [t1|e].
    + rewrite (abind_ret _ _ _ _ _ _ Hone).
      destruct (IH t1 w1)
        as (o & w2 & tr2 & -> & Hv2 & Hs2 & Hl2 & Hc2 & Hr2 & Hg2 & Hn2 & Hi2 & Ht2).
      eexists _, _, _. split; [reflexivity|].
      change ((Service (EvSleep 1) :: tr1) ++ tr2)
        with (Service (EvSleep 1) :: (tr1 ++ tr2)).
      change (adds (Service (EvSleep 1) :: (tr1 ++ tr2))) with (adds (tr1 ++ tr2)).
      change (lookups (Service (EvSleep 1) :: (tr1 ++ tr2))) with (lookups (tr1 ++ tr2)).
      change (commits (Service (EvSleep 1) :: (tr1 ++ tr2))) with (commits (tr1 ++ tr2)).
      change (rollbacks (Service (EvSleep 1) :: (tr1 ++ tr2)))
        with (rollbacks (tr1 ++ tr2)).
      change (services (Service (EvSleep 1) :: (tr1 ++ tr2)))
        with (EvSleep 1 :: services (tr1 ++ tr2)).
      rewrite TraceMore.gets_sleep, TraceMore.invokes_sleep.
      rewrite adds_app, lookups_app, commits_app, rollbacks_app, services_app,
        TraceFacts.gets_app, TraceFacts.invokes_app, !length_app.
      split; [apply Forall_app; split; assumption|].
      split.
      { apply Forall_app. split.
        - apply Forall_forall. intros row Hrow.
          exists url. split; [left|].
          split; [exact (proj1 (Forall_forall _ _) Hs1 row Hrow)|].
          apply elem_of_app. left.
          destruct (gets (services tr1)) as [|u us] eqn:Hgs.
          + exfalso. apply Hf1; [|reflexivity].
            destruct (lookups tr1); [|discriminate].
            destruct (adds tr1); [inversion Hrow | cbn in Hl1; lia].
          + apply Forall_cons in Hg1 as [-> _]. left.
        - eapply Forall_impl; [exact Hs2|]. cbn.
          intros row (u & Hu & Hsrc & Hin). exists u.
          split; [right; exact Hu|]. split; [exact Hsrc|].
          apply elem_of_app. right. exact Hin. }
      split; [cbn [length]; lia|].
      split; [lia|]. split; [lia|].
      split.
      { apply Forall_app. split.
        - eapply Forall_impl; [exact Hg1|]. cbn. intros u ->. exists url.
          split; [left | reflexivity].
        - eapply Forall_impl; [exact Hg2|]. cbn. intros u (x & Hx & ->). exists x.
          split; [right; exact Hx | reflexivity]. }
      split; [cbn [length]; lia|]. split; [cbn [length]; lia|].
      intros t' ->.
      destruct (Ht1 t1 eq_refl) as (Hp1 & Hit1 & Hsc1 & Hle1).
      destruct (Ht2 t' eq_refl) as (Hp2 & Hit2 & Hsc2 & Hle2).
      cbn [length]. lia.
    + rewrite (abind_raise _ _ _ _ _ _ Hone).
      eexists _, _, _. split; [reflexivity|].
      change (adds (Service (EvSleep 1) :: tr1)) with (adds tr1).
      change (lookups (Service (EvSleep 1) :: tr1)) with (lookups tr1).
      change (commits (Service (EvSleep 1) :: tr1)) with (commits tr1).
      change (rollbacks (Service (EvSleep 1) :: tr1)) with (rollbacks tr1).
      change (services (Service (EvSleep 1) :: tr1)) with (EvSleep 1 :: services tr1).
      rewrite TraceMore.gets_sleep, TraceMore.invokes_sleep.
      split; [exact Hv1|].
      split.
      { apply Forall_forall. intros row Hrow.
        exists url. split; [left|].
        split; [exact (proj1 (Forall_forall _ _) Hs1 row Hrow)|].
        destruct (gets (services tr1)) as [|u us] eqn:Hgs.
        + exfalso. apply Hf1; [|reflexivity].
          destruct (lookups tr1); [|discriminate].
          destruct (adds tr1); [inversion Hrow | cbn in Hl1; lia].
        + apply Forall_cons in Hg1 as [-> _]. left. }
      split; [cbn [length]; lia|].
      split; [exact Hc1|]. split; [exact Hr1|].
      split.
      { eapply Forall_impl; [exact Hg1|]. cbn. intros u ->. exists url.
        split; [left | reflexivity]. }
      split; [cbn [length]; lia|]. split; [cbn [length]; lia|].
      intros t' Heq. discriminate Heq.
Qed.

(** *** The route *)

Lemma report_of_accounted (t : tally) :
  accounted t -> (1 <= processed_count t)%nat -> report t = AgentReport t.
Proof.
  intros [Hp Hs] Hone. unfold report. unfold items in Hp.
  destruct (saved_count t) as [|n] eqn:Hn; [|reflexivity].
  destruct (skipped_html t); [|reflexivity].
  destruct (errors_html t); [|reflexivity].
  exfalso. cbn in Hp. lia.
Qed.

Ltac refuse :=
  eexists _, _, _; (split; [reflexivity|]);
  (split; [constructor|]); (split; [constructor|]);
  (split; [intros; constructor|]);
  (split; [intros; discriminate|]);
  (split; [cbn; lia|]); (split; [cbn; lia|]);
  (split; [discriminate|]);
  (split; [split; [reflexivity | intros _; unfold refusal; auto]|]);
  (split; [split; first [reflexivity | discriminate]|]);
  (split; [auto|]);
  (split; [discriminate|]);
  (split; [discriminate|]);
  discriminate.

Lemma crawl_shape w :
  exists r w1 tr,
    run_bulk_crawl json_loads w = (Ret r, w1, tr)
    /\ Forall valid_row (adds tr)
    /\ Forall (fun row => exists url,
                 Models.source_url row = PStr url
                 /\ jina url ∈ gets (services tr)) (adds tr)
    /\ (forall board_url keyword urls w' trd,
          form_get "company_url" w = Some board_url ->
          form_get "role_keyword" w = Some keyword ->
          discover_job_links (PyStr.strip board_url) (PStr (PyStr.strip keyword)) w
          = (Ret urls, w', trd) ->
          Forall (fun row => exists url,
                    url ∈ List.firstn 4 urls /\ Models.source_url row = PStr url)
            (adds tr))
    /\ (forall board_url keyword urls w' trd,
          form_get "company_url" w = Some board_url ->
          form_get "role_keyword" w = Some keyword ->
          discover_job_links (PyStr.strip board_url) (PStr (PyStr.strip keyword)) w
          = (Ret urls, w', trd) ->
          accepted w = true ->
          exists rest,
            tr = map Service trd ++ rest
            /\ Forall (fun u => exists url, url ∈ List.firstn 4 urls /\ u = jina url)
                 (gets (services rest))
            /\ (length (gets (services rest)) <= 3 * length (List.firstn 4 urls))%nat
            /\ (length (invokes (services rest)) <= length (List.firstn 4 urls))%nat
            /\ (urls = [] -> r = NoMatchingJobs /\ rest = []))
    /\ (length (adds tr) <= length (lookups tr) <= 4)%nat
    /\ (rollbacks tr <= commits tr <= 1)%nat
    /\ r <> NoData
    /\ (refusal r <-> accepted w = false)
    /\ (r = Forbidden <-> truthy_value (session_get "user" w) = false)
    /\ (refusal r -> tr = [] /\ w1 = w)
    /\ (r = NoMatchingJobs -> lookups tr = [] /\ commits tr = 0%nat)
    /\ (forall t, r = AgentReport t ->
          commits tr = 1%nat /\ rollbacks tr = 0%nat
          /\ accounted t /\ (1 <= processed_count t <= 4)%nat
          /\ (saved_count t <= length (adds tr))%nat)
    /\ (forall e, r = CommitFailed e -> commits tr = 1%nat /\ rollbacks tr = 1%nat).
Proof.
  unfold run_bulk_crawl, accepted.
  rewrite (abind_ret _ _ w (session_get "user" w) w [] eq_refl).
  destruct (truthy_value (session_get "user" w)) eqn:Huser; cbn [negb andb];
    [|refuse].
  rewrite (abind_ret _ _ w (form_get "company_url" w) w [] eq_refl).
  rewrite (abind_ret _ _ w (form_get "role_keyword" w) w [] eq_refl).
  destruct (blank (form_get "company_url" w)) eqn:Hurl; cbn [negb andb];
    [refuse|].
  destruct (blank (form_get "role_keyword" w)) eqn:Hkw; cbn [negb andb];
    [refuse|].
  destruct (form_get "company_url" w) as [board_url|] eqn:Hfu; [|discriminate Hurl].
  destruct (form_get "role_keyword" w) as [keyword|] eqn:Hfk; [|discriminate Hkw].
  change (default EmptyString (Some board_url)) with board_url.
  change (default EmptyString (Some keyword)) with keyword.
  destruct (PyStr.starts_with "http://" board_url
            || PyStr.starts_with "https://" board_url)%bool eqn:Hscheme;
    cbn [negb]; [|refuse].
  destruct (DiscoverFacts.discover_job_links_returns (PyStr.strip board_url)
              (PStr (PyStr.strip keyword)) w) as (urls & w1 & trd & Hd).
  unfold atry at 1.
  rewrite (abind_ret _ _ _ _ _ _ (lift_run _ _ _ _ _ Hd)).
  destruct urls as [|u us].
  { unfold aret. eexists _, _, _. split; [reflexivity|]. crawl_trace.
    split; [constructor|]. split; [constructor|]. split; [intros; constructor|].
    split.
    { intros b k urls0 w' trd0 [= <-] [= <-] Hd0 _. rewrite Hd in Hd0.
      injection Hd0 as <- <- <-. exists []. rewrite app_nil_r.
      split; [reflexivity|]. split; [constructor|]. split; [cbn; lia|].
      split; [cbn; lia|]. intros _. split; reflexivity. }
    split; [lia|]. split; [lia|].
    split; [discriminate|].
    split; [split; [intros [Hr|[Hr|[Hr|Hr]]]; discriminate Hr | discriminate]|].
    split; [split; discriminate|].
    split; [intros [Hr|[Hr|[Hr|Hr]]]; discriminate Hr|].
    split; [intros _; split; reflexivity|].
    split; [discriminate|]. discriminate. }
  destruct (mine_shape (List.firstn 4 (u :: us)) tally0 w1)
    as (o & w2 & trm & Hm & Hv & Hs & Hl & Hc & Hr & Hg & Hn & Hi & Ht).
  assert (1 <= length (List.firstn 4 (u :: us)) <= 4)%nat as Hlen.
  { rewrite length_take. cbn [length]. lia. }
  assert (forall post,
            adds post = [] -> services post = [] ->
            Forall valid_row (adds (map Service trd ++ trm ++ post))
            /\ Forall (fun row => exists url,
                         Models.source_url row = PStr url
                         /\ jina url ∈ gets (services (map Service trd ++ trm ++ post)))
                 (adds (map Service trd ++ trm ++ post))
            /\ (forall board_url0 keyword0 urls0 w' trd0,
                  Some board_url = Some board_url0 ->
                  Some keyword = Some keyword0 ->
                  discover_job_links (PyStr.strip board_url0)
                    (PStr (PyStr.strip keyword0)) w = (Ret urls0, w', trd0) ->
                  Forall (fun row => exists url,
                            url ∈ List.firstn 4 urls0
                            /\ Models.source_url row = PStr url)
                    (adds (map Service trd ++ trm ++ post)))
            /\ (forall board_url0 keyword0 urls0 w' trd0 (r : crawl_reply),
                  Some board_url = Some board_url0 ->
                  Some keyword = Some keyword0 ->
                  discover_job_links (PyStr.strip board_url0)
                    (PStr (PyStr.strip keyword0)) w = (Ret urls0, w', trd0) ->
                  true = true ->
                  exists rest,
                    map Service trd ++ trm ++ post = map Service trd0 ++ rest
                    /\ Forall (fun u => exists url,
                                 url ∈ List.firstn 4 urls0 /\ u = jina url)
                         (gets (services rest))
                    /\ (length (gets (services rest))
                        <= 3 * length (List.firstn 4 urls0))%nat
                    /\ (length (invokes (services rest))
                        <= length (List.firstn 4 urls0))%nat
                    /\ (urls0 = [] -> r = NoMatchingJobs /\ rest = []))) as Hrows.
  { intros post Hpa Hps.
    rewrite !adds_app, adds_service, Hpa, app_nil_r, app_nil_l.
    rewrite !services_app, services_service, Hps, app_nil_r.
    split; [exact Hv|]. split; [|split].
    - eapply Forall_impl; [exact Hs|]. cbn. intros row (x & _ & Hsrc & Hin).
      exists x. split; [exact Hsrc|]. rewrite TraceFacts.gets_app.
      apply elem_of_app. right. exact Hin.
    - intros b k urls0 w' trd0 [= <-] [= <-] Hd0. rewrite Hd in Hd0.
      injection Hd0 as <- <- <-.
      eapply Forall_impl; [exact Hs|]. cbn. intros row (x & Hx & Hsrc & _).
      exists x. split; [exact Hx | exact Hsrc].
    - intros b k urls0 w' trd0 r [= <-] [= <-] Hd0 _. rewrite Hd in Hd0.
      injection Hd0 as <- <- <-. exists (trm ++ post).
      rewrite services_app, Hps, app_nil_r.
      split; [reflexivity|]. split; [exact Hg|]. split; [exact Hn|].
      split; [exact Hi|]. intros Hnil. discriminate Hnil. }
  destruct o as [t|e].
  - rewrite (abind_ret _ _ _ _ _ _ Hm).
    destruct (Ht t eq_refl) as (Hpc & Hit & Hsc & Hsa).
    change (processed_count tally0) with 0%nat in Hpc.
    change (items tally0) with 0%nat in Hit.
    change (saved_count tally0) with 0%nat in Hsc, Hsa.
    change (length (results_html tally0)) with 0%nat in Hsc.
    assert (accounted t) as Hacc.
    { split; [rewrite Hpc, Hit; reflexivity | lia]. }
    unfold atry, abind, db_commit, db_rollback, aprint, aret.
    destruct (session_commit w2) as [[[]|e] w3];
      [|destruct (session_rollback w3) as [[[]|e2] w4]].
    + rewrite (report_of_accounted t Hacc) by lia.
      eexists _, _, _. split; [reflexivity|].
      rewrite ?app_nil_l, ?app_nil_r.
      destruct (Hrows [DbCommit] eq_refl eq_refl) as (Hrv & Hrs & Hrd & Hrb).
      split; [exact Hrv|]. split; [exact Hrs|]. split; [exact Hrd|].
      split; [intros b k urls0 w' trd0; apply Hrb|].
      crawl_trace. rewrite Hc, Hr.
      split; [lia|]. split; [cbn; lia|].
      split; [discriminate|].
      split; [split; [intros [Hx|[Hx|[Hx|Hx]]]; discriminate Hx | discriminate]|].
      split; [split; discriminate|].
      split; [intros [Hx|[Hx|[Hx|Hx]]]; discriminate Hx|].
      split; [discriminate|].
      split; [|discriminate].
      intros t' [= <-]. split; [reflexivity|]. split; [reflexivity|].
      split; [exact Hacc|]. split; lia.
    + eexists _, _, _. split; [reflexivity|].
      rewrite ?app_nil_l, ?app_nil_r.
      destruct (Hrows ([DbCommit] ++ [DbRollback] ++ [AppPrint (LogCommitFailed e)])
                  eq_refl eq_refl) as (Hrv & Hrs & Hrd & Hrb).
      split; [exact Hrv|]. split; [exact Hrs|]. split; [exact Hrd|].
      split; [intros b k urls0 w' trd0; apply Hrb|].
      crawl_trace. rewrite Hc, Hr.
      split; [lia|]. split; [cbn; lia|].
      split; [discriminate|].
      split; [split; [intros [Hx|[Hx|[Hx|Hx]]]; discriminate Hx | discriminate]|].
      split; [split; discriminate|].
      split; [intros [Hx|[Hx|[Hx|Hx]]]; discriminate Hx|].
      split; [discriminate|].
      split; [discriminate|].
      intros e0 _. split; reflexivity.
    + eexists _, _, _. split; [reflexivity|].
      rewrite ?app_nil_l, ?app_nil_r, <- ?app_assoc.
      destruct (Hrows ([DbCommit] ++ [DbRollback]
                       ++ [AppPrint (LogWorkflowFailed e2)])
                  eq_refl eq_refl) as (Hrv & Hrs & Hrd & Hrb).
      split; [exact Hrv|]. split; [exact Hrs|]. split; [exact Hrd|].
      split; [intros b k urls0 w' trd0; apply Hrb|].
      crawl_trace. rewrite Hc, Hr.
      split; [lia|]. split; [cbn; lia|].
      split; [discriminate|].
      split; [split; [intros [Hx|[Hx|[Hx|Hx]]]; discriminate Hx | discriminate]|].
      split; [split; discriminate|].
      split; [intros [Hx|[Hx|[Hx|Hx]]]; discriminate Hx|].
      split; [discriminate|].
      split; discriminate.
  - rewrite (abind_raise _ _ _ _ _ _ Hm).
    unfold abind, aprint, aret.
    eexists _, _, _. split; [reflexivity|].
    rewrite ?app_nil_l, ?app_nil_r, <- ?app_assoc.
    destruct (Hrows [AppPrint (LogWorkflowFailed e)] eq_refl eq_refl)
      as (Hrv & Hrs & Hrd & Hrb).
    split; [exact Hrv|]. split; [exact Hrs|]. split; [exact Hrd|].
    split; [intros b k urls0 w' trd0; apply Hrb|].
    crawl_trace. rewrite Hc, Hr.
    split; [lia|]. split; [cbn; lia|].
    split; [discriminate|].
    split; [split; [intros [Hx|[Hx|[Hx|Hx]]]; discriminate Hx | discriminate]|].
    split; [split; discriminate|].
    split; [intros [Hx|[Hx|[Hx|Hx]]]; discriminate Hx|].
    split; [discriminate|].
    split; discriminate.
Qed.

(** *** Requests the route turns down *)

Lemma run_refused w (x : crawl_reply) :
  refusal_of w = Some x -> run_bulk_crawl json_loads w = (Ret x, w, []).
Proof.
  unfold refusal_of, run_bulk_crawl.
  rewrite (abind_ret _ _ w (session_get "user" w) w [] eq_refl).
  destruct (truthy_value (session_get "user" w)); cbn [negb];
    [|intros [= <-]; reflexivity].
  rewrite (abind_ret _ _ w (form_get "company_url" w) w [] eq_refl).
  rewrite (abind_ret _ _ w (form_get "role_keyword" w) w [] eq_refl).
  destruct (blank (form_get "company_url" w)); [intros [= <-]; reflexivity|].
  destruct (blank (form_get "role_keyword" w)); [intros [= <-]; reflexivity|].
  cbn zeta.
  destruct (PyStr.starts_with "http://"
              (default EmptyString (form_get "company_url" w))
            || PyStr.starts_with "https://"
                 (default EmptyString (form_get "company_url" w)))%bool;
    cbn [negb]; [intros Hf; discriminate Hf|].
  intros [= <-]. reflexivity.
Qed.

Lemma refusal_of_accepted w : refusal_of w = None <-> accepted w = true.
Proof.
  unfold refusal_of, accepted.
  destruct (truthy_value (session_get "user" w)); cbn [negb andb];
    [|split; intros Hf; discriminate Hf].
  destruct (blank (form_get "company_url" w)); cbn [negb andb];
    [split; intros Hf; discriminate Hf|].
  destruct (blank (form_get "role_keyword" w)); cbn [negb andb];
    [split; intros Hf; discriminate Hf|].
  destruct (PyStr.starts_with "http://"
              (default EmptyString (form_get "company_url" w))
            || PyStr.starts_with "https://"
                 (default EmptyString (form_get "company_url" w)))%bool;
    cbn [negb]; split; intros Hf; first [reflexivity | discriminate Hf].
Qed.

(** X14.  [run_bulk_crawl] never raises, and it turns a request down before
    it does anything.  The reply is the 403 one exactly when no user is
    signed in; otherwise it asks for the company URL exactly when that
    field is missing, empty or blank; otherwise for the keyword exactly
    when that field is missing, empty or blank; otherwise it calls the URL
    invalid exactly when the field as typed starts with neither scheme.
    In each of these cases, and in no other, no request is sent, the model
    and the database are not touched and the world is left as it was. *)
Theorem crawl_refuses_without_effects w :
  exists r w1 tr,
    run_bulk_crawl json_loads w = (Ret r, w1, tr)
    /\ (r = Forbidden <-> truthy_value (session_get "user" w) = false)
    /\ (r = UrlRequired <->
        truthy_value (session_get "user" w) = true
        /\ blank (form_get "company_url" w) = true)
    /\ (r = KeywordRequired <->
        truthy_value (session_get "user" w) = true
        /\ blank (form_get "company_url" w) = false
        /\ blank (form_get "role_keyword" w) = true)
    /\ (r = InvalidUrl <->
        truthy_value (session_get "user" w) = true
        /\ blank (form_get "company_url" w) = false
        /\ blank (form_get "role_keyword" w) = false
        /\ PyStr.starts_with "http://"
             (default EmptyString (form_get "company_url" w)) = false
        /\ PyStr.starts_with "https://"
             (default EmptyString (form_get "company_url" w)) = false)
    /\ (refusal r <-> accepted w = false)
    /\ (refusal r -> tr = [] /\ w1 = w).
Proof.
  destruct (crawl_shape w)
    as (r & w1 & tr & Hrun & _ & _ & _ & _ & _ & _ & _ & Hacc & Hforb & Hnone & _).
  exists r, w1, tr. split; [exact Hrun|]. split; [exact Hforb|].
  assert (match refusal_of w with
          | Some x => r = x
          | None => ~ refusal r
          end) as Hr.
  { destruct (refusal_of w) as [x|] eqn:Hro.
    - rewrite (run_refused w x Hro) in Hrun. injection Hrun as <- _ _. reflexivity.
    - apply refusal_of_accepted in Hro. intros Href. apply Hacc in Href.
      rewrite Hro in Href. discriminate Href. }
  split; [|split; [|split; [|split; [exact Hacc | exact Hnone]]]].
  all: revert Hr; unfold refusal_of, refusal;
    destruct (truthy_value (session_get "user" w)); cbn [negb];
    destruct (blank (form_get "company_url" w));
    destruct (blank (form_get "role_keyword" w));
    destruct (PyStr.starts_with "http://"
                (default EmptyString (form_get "company_url" w)));
    destruct (PyStr.starts_with "https://"
                (default EmptyString (form_get "company_url" w)));
    cbn [negb orb]; intros Hr; split; intros Hc;
    try (subst r; discriminate Hc);
    try (exfalso; apply Hr; auto; fail);
    try (destruct Hc as (Hc1 & Hc2); discriminate);
    try (destruct Hc as (Hc1 & Hc2 & Hc3); discriminate);
    try (destruct Hc as (Hc1 & Hc2 & Hc3 & Hc4 & Hc5); discriminate);
    try (subst r; auto; fail);
    try (exact Hr).
Qed.

(** X15.  The report of [run_bulk_crawl] accounts for every page: when the
    reply is the agent report, between one and four pages were processed,
    each of them shows exactly once, as a saved row, a skipped page or an
    error, the count of saved rows is the number of rows shown, and no more
    rows are counted than were added to the session.  The reply that no
    data was extracted is never given: once a page is processed it shows in
    the report. *)
Theorem crawl_report_accounts_for_every_page w :
  exists r w1 tr,
    run_bulk_crawl json_loads w = (Ret r, w1, tr)
    /\ r <> NoData
    /\ (forall t, r = AgentReport t ->
          accounted t /\ (1 <= processed_count t <= 4)%nat
          /\ (saved_count t <= length (adds tr))%nat).
Proof.
  destruct (crawl_shape w)
    as (r & w1 & tr & Hrun & _ & _ & _ & _ & _ & _ & Hno & _ & _ & _ & _ & Hrep & _).
  exists r, w1, tr. split; [exact Hrun|]. split; [exact Hno|].
  intros t Ht. destruct (Hrep t Ht) as (_ & _ & Ha & Hp & Hs). auto.
Qed.

(** X16.  Every row [run_bulk_crawl] adds to the session has passed the
    checks of the route: the company and the role are truthy, both ends of
    the salary range are numbers, the upper one is not [<= 0] and the lower
    one is not [>] the upper one as Python compares them, whatever order
    the model gave them in.  For finite bounds this says that the upper one
    is positive and the lower one does not exceed it; a NaN, which
    [json.loads] accepts, passes both comparisons.  The source of the row
    is one of the first four URLs [discover_job_links] returned, and the
    page was requested from the reader in the same run.  At most four
    look-ups for an existing row are made, and no more rows are added than
    look-ups. *)
Theorem crawl_saves_only_valid_rows w :
  exists r w1 tr,
    run_bulk_crawl json_loads w = (Ret r, w1, tr)
    /\ Forall valid_row (adds tr)
    /\ Forall finite_range_ordered (adds tr)
    /\ Forall (fun row => exists url,
                 Models.source_url row = PStr url
                 /\ jina url ∈ gets (services tr)) (adds tr)
    /\ (forall board_url keyword urls w' trd,
          form_get "company_url" w = Some board_url ->
          form_get "role_keyword" w = Some keyword ->
          discover_job_links (PyStr.strip board_url) (PStr (PyStr.strip keyword)) w
          = (Ret urls, w', trd) ->
          Forall (fun row => exists url,
                    url ∈ List.firstn 4 urls /\ Models.source_url row = PStr url)
            (adds tr))
    /\ (length (adds tr) <= length (lookups tr) <= 4)%nat.
Proof.
  destruct (crawl_shape w)
    as (r & w1 & tr & Hrun & Hv & Hs & Hd & _ & Hl & _).
  exists r, w1, tr. split; [exact Hrun|]. split; [exact Hv|].
  split; [|auto].
  eapply Forall_impl; [exact Hv|]. exact valid_row_finite.
Qed.

(** X17.  [run_bulk_crawl] commits at most once and rolls back only after
    a commit that failed.  The agent report is given after exactly one
    commit and no rollback, the commit error after one commit and one
    rollback; when discovery finds nothing the database is not touched at
    all. *)
Theorem crawl_commits_at_most_once w :
  exists r w1 tr,
    run_bulk_crawl json_loads w = (Ret r, w1, tr)
    /\ (rollbacks tr <= commits tr <= 1)%nat
    /\ (r = NoMatchingJobs ->
        adds tr = [] /\ lookups tr = [] /\ commits tr = 0%nat)
    /\ (forall t, r = AgentReport t -> commits tr = 1%nat /\ rollbacks tr = 0%nat)
    /\ (forall e, r = CommitFailed e -> commits tr = 1%nat /\ rollbacks tr = 1%nat).
Proof.
  destruct (crawl_shape w)
    as (r & w1 & tr & Hrun & _ & _ & _ & _ & Hl & Hc & _ & _ & _ & _ & Hnm & Hrep
        & Hcf).
  exists r, w1, tr. split; [exact Hrun|]. split; [exact Hc|].
  split.
  { intros Hr. destruct (Hnm Hr) as [Hlk Hcm]. rewrite Hlk in Hl.
    split; [|split; assumption].
    destruct (adds tr); [reflexivity | cbn in Hl; lia]. }
  split; [|exact Hcf].
  intros t Ht. destruct (Hrep t Ht) as (H1 & H0 & _). auto.
Qed.

(** X18.  A request [run_bulk_crawl] accepts is served in two stages: the
    run of [discover_job_links] on the stripped URL and keyword, and then
    the mining of the first four URLs it returned.  The mining sends at most
    three requests per page, twelve in all, each for the reader URL of one
    of those four, and calls the model at most once per page; when
    discovery returns nothing the route stops there. *)
Theorem crawl_mines_the_first_four board_url keyword w urls w' trd :
  accepted w = true ->
  form_get "company_url" w = Some board_url ->
  form_get "role_keyword" w = Some keyword ->
  discover_job_links (PyStr.strip board_url) (PStr (PyStr.strip keyword)) w
  = (Ret urls, w', trd) ->
  exists r w1 rest,
    run_bulk_crawl json_loads w = (Ret r, w1, map Service trd ++ rest)
    /\ Forall (fun u => exists url, url ∈ List.firstn 4 urls /\ u = jina url)
         (gets (services rest))
    /\ (length (gets (services rest)) <= 3 * length (List.firstn 4 urls) <= 12)%nat
    /\ (length (invokes (services rest)) <= length (List.firstn 4 urls) <= 4)%nat
    /\ (urls = [] -> r = NoMatchingJobs /\ rest = []).
Proof.
  intros Hacc Hu Hk Hd.
  destruct (crawl_shape w) as (r & w1 & tr & Hrun & _ & _ & _ & Hb & _).
  destruct (Hb board_url keyword urls w' trd Hu Hk Hd Hacc)
    as (rest & -> & Hg & Hn & Hi & Hnil).
  exists r, w1, rest.
  assert (length (List.firstn 4 urls) <= 4)%nat as Hlen.
  { rewrite length_take. lia. }
  split; [exact Hrun|]. split; [exact Hg|].
  split; [lia|]. split; [lia | exact Hnil].
Qed.

(** *** A salary that is not a number *)




End WithWorld.

Lemma crawl_mines_witness :
  exists trd r w1 rest,
    discover_job_links (H := analyst_board) careers_url (PStr "analyst") w0
    = (Ret [analyst_url], {| http_calls := 2; llm_calls := 1 |}, trd)
    /\ run_bulk_crawl (HE := analyst_board) (HA := analyst_site)
         (json_table known_replies) w0
       = (Ret r, w1, map Service trd ++ rest)
    /\ (length (gets (services rest)) <= 3)%nat
    /\ (length (invokes (services rest)) <= 1)%nat.
Proof.
  assert (exists trd,
            discover_job_links (H := analyst_board) careers_url (PStr "analyst") w0
            = (Ret [analyst_url], {| http_calls := 2; llm_calls := 1 |}, trd))
    as [trd Hd].
  { eexists. vm_compute. reflexivity. }
  destruct (crawl_mines_the_first_four
              (HE := analyst_board) (HA := analyst_site) (json_table known_replies)
              (careers_url +:+ " ") " analyst " w0 [analyst_url]
              {| http_calls := 2; llm_calls := 1 |} trd
              eq_refl eq_refl eq_refl Hd)
    as (r & w1 & rest & Hrun & _ & Hg & Hi & _).
  exists trd, r, w1, rest. split; [exact Hd|]. split; [exact Hrun|].
  cbn in Hg, Hi. split; lia.
Defined.


End CrawlFacts.
